(* ===== verification/_CoqProject ===== *)
-Q . S2P
Prelude.v
JsValue.v
Bcrypt.v
Blowfish.v
Store.v
UserModel.v
Jwt.v
AuthController.v
TaskModel.v
Http.v
AuthMiddleware.v
TaskController.v
App.v
Registration.v
Boot.v
ApiDocs.v
