(* ===== verification/Prelude.v ===== *)
(** * A verification development for the VE3 task-tracking API

    The program ([src/server.js] and [src/src/]) is an Express 4 application
    on MongoDB through Mongoose.  [server.js] installs [express.json()],
    mounts the routers of [src/src/routes/taskRoutes.js] and
    [src/src/routes/authRoutes.js] under [/api] and serves Swagger UI at
    [/api-docs].  The auth routes call [registerUser] and [loginUser] of
    [src/src/controllers/authController.js]; these use the [User] model of
    [src/src/models/User.js] (bcrypt in a pre-save hook, [comparePassword])
    and [jsonwebtoken] with [process.env.JWT_SECRET] and a 24 hour expiry.
    Every task route runs [authMiddleware] before a handler of
    [taskController] over the [Task] model of [src/src/models/Task.js].
    [src/middleware/authMiddleware.js] and
    [src/controllers/taskController.js] are required by [taskRoutes.js]
    but are not in the repository.  They are modelled from the
    specification (spec.md, sections 4.4 and 4.5).

    ** Files, in dependency order, and what they model

    - [Prelude] (this file): the result type, and the state and exception
      monad [ste] ([x <- m ;; k] in [auth_scope]).  [ste_bind] is a
      sequence of [await]s and [ste_catch] is [try]/[catch].  It also has
      the frame conditions [ste_preserves R m], which say that every state
      change [m] makes is an [R] step, totality [ste_total m] ([m] never
      throws) and postconditions [ste_post Q m] (every value [m] returns
      satisfies [Q]).  Each comes with one combinator lemma per monad
      operation, and the tactic [ste_solve] applies them.  It also holds
      the hint database [auth] and the shared lemmas on strings and
      lists.
    - [JsValue]: the JSON values [express.json()] produces ([jsval]),
      JavaScript truthiness, property lookup (the last duplicate key
      wins), the exceptions the handlers throw, and Mongoose's cast to a
      [String] path.
    - [Bcrypt]: the node [bcrypt] package as [User.js] calls it:
      [genSalt(10)], [hash], [compare], bcrypt's base64, the salt checks
      of [ValidateSalt] and [bcrypt()] ([$2$], [$2a$] and [$2b$]), and
      the key bytes the cipher reads ([key_len], [key_stream]): the first
      72 bytes and the NUL under [$2b$], a length cast to [u_int8_t]
      under [$2a$] and [$2$].  The cipher is a parameter of the interface
      [EksBlowfish], instantiated in [Blowfish].  The interface
      [PasswordHasher] (with [PasswordHasherLaws] and
      [PasswordHasherSound]) is what the [User] model needs, and
      [bcrypt_hasher] implements it.
    - [Blowfish]: the Eksblowfish of the C core of node [bcrypt]
      ([blf.c] and [bcrypt.c]): the pi tables, [Blowfish_encipher] and
      [Blowfish_decipher] with 32-bit wrap-around, [Blowfish_stream2word],
      [Blowfish_expandstate], [Blowfish_expand0state], the [2^cost] key
      schedule [eks_setup] and the 64 encryptions of
      ["OrpheanBeholderScryDoubt"] ([eks_blowfish_digest]).
      [node_bcrypt] is the [PasswordHasher] the program runs with.
    - [Store]: a Mongo collection (documents in insertion order,
      [findOne], [findById], delete and replace, the unique index built
      by [autoIndex]) and the [world] the handlers share: both
      collections, the ObjectId counter with its decimal spelling
      ([oid_string], [parse_oid]), the entropy stream, the clock and
      [JWT_SECRET].  It also has the frame preorders [same_tasks] and
      [same_users].
    - [UserModel]: [User.js]: the document [new User] builds, [save]
      (validation, pre-save hook, insertion), [findOne] with Mongoose's
      query cast, and [comparePassword].
    - [Jwt]: [jwt.sign] and [jwt.verify] of [jsonwebtoken], over an
      abstract HMAC ([Hmac]) and compact encoding ([JwtCodec]).
    - [AuthController]: [registerUser] (split at its second [await] into
      [register_check] and [register_insert]) and [loginUser].
    - [TaskModel]: [Task.js]: the cast of a body to a task (an optional
      path is unset, [null] or a string), the default status, the
      [required] and [enum] validators, and the JSON of a task with its
      version key.
    - [Http]: requests, header lookup, the JSON body parser, and Express's
      case-insensitive path segments.
    - [AuthMiddleware] (from the specification): the Bearer gate.
    - [TaskController] (from the specification): the five task handlers.
    - [App]: the Express router (declaration order, [:id] parameters,
      [HEAD] by [GET], automatic [OPTIONS], final 404), the two route
      tables, and [app_handle], one request through [server.js].
    - [Registration]: the users' invariant over any sequence of requests,
      and concurrent registrations as a step relation [conc_step] over a
      world and a list of threads ([reg_thread]: started, checked, done).
      A step runs one phase of one thread ([thread_step]) or builds the
      unique index, which the scheduler may do between any two steps.
    - [Boot]: start-up in [server.js]: [dotenv]'s [config()] (no
      override), [process.env.PORT || 3000], and the world the handlers
      start from.
    - [ApiDocs]: the [@swagger] comments of the routers as data, compared
      with the handlers.

    ** What the theorems show

    - Authentication ([AuthController]): a registered user logs in and
      gets a token that verifies to their id.  A taken name, a missing
      field, an unknown user, a wrong password or a missing secret is
      answered as the code answers it.  A password longer than 72 bytes
      is accepted by its prefix.  A numeric password registers by its
      cast, and its login answers 500.
    - Tokens ([Jwt], [Bcrypt]): a token with one signature bit flipped
      is refused, and a signed token is accepted up to its expiry and
      refused after.  Hashing one password twice gives two distinct
      hashes that both verify.
    - Tasks ([TaskController]): add-then-get, title required, default
      status, partial update, status validated, delete-then-gone, and the
      invariant [tasks_ok] kept by every handler.
    - The application ([App]): the gate answers 401 to every
      unauthenticated request on a task route and changes nothing.
      Unauthenticated requests never change the tasks.  [tasks_ok] holds
      in every reachable
      world (rule induction on [rtc app_step]).  The end-to-end scenario
      of spec.md section 8 holds for every lawful hasher and codec.
    - Registrations ([Registration]): [users_ok] (distinct names,
      passwords hashed) holds along every sequence of requests.  With
      concurrent registrations and no index, a schedule stores "alice"
      twice; once the index exists, names stay unique along every
      interleaving, and the losing request gets 500, not 400.
    - Documentation ([ApiDocs]): which documented bodies [POST /tasks]
      accepts.  For every body and world, the auth handlers answer with a
      status their documented responses list, except 500, and 500 does
      occur.  [POST /tasks] with ["status": null] is answered 201 with a
      task outside the documented schema.
    - Liveness ([App]): every request is answered, because no layer of
      either router throws.
    - No partial registration ([AuthController]): a registration that
      does not answer 201 leaves the users unchanged.  In every
      interleaving of registrations ([Registration]), the users stored
      are exactly the registrations that answered 201.
    - Stored passwords ([Registration], [Blowfish]): with node's bcrypt,
      every password a reachable world stores is a 60-character string
      starting with ["$2"].  For every salt bcrypt accepts and every
      password, the key setup's state is 18 + 1024 words of 32 bits.
      Library lemmas of [Blowfish] show that decipher inverts encipher
      and that the cipher gives the published Blowfish test vectors.
    - Start-up ([Boot]): where the secret and the port come from.

    ** Idealisations, bounds and fuel

    - Eksblowfish is modelled in [Blowfish] and checked against the
      Blowfish test vectors.  The HMAC and the JWT encoding are interfaces
      ([Hmac], [JwtCodec]): [jsonwebtoken] delegates them to node's
      [crypto] and JSON serialisation, outside the repository.  Most
      theorems hold for any instance with the stated laws.  Their
      witnesses use symbolic instances ([symbolic_eks], [symbolic_hmac],
      [symbolic_codec]), because one bcrypt hash at cost 10 runs 2^10
      key schedules, too many to evaluate in the kernel.
    - [crypto.randomBytes] is an entropy stream indexed by a draw
      counter.  [fresh_world] draws from [demo_entropy] (16 distinct valid
      seeds) at a fixed clock (1700000000000 ms).  The theorems quantify
      over the world, so these values serve only the witnesses.
    - Numbers are integers ([Z]).  Bytes are [Z] in [0, 256), and the
      72-byte bcrypt bound is written out.  ObjectIds are a counter
      spelled in decimal, and [parse_oid] accepts only the canonical
      spelling, as [findById] accepts only a valid id.
    - Express 4 and body-parser 1.x semantics: a rejected handler
      promise leaves the request unanswered, an absent JSON body is [{}],
      and routing is case-insensitive and non-strict.
    - [Z.iter (2 ^ logr)] in [eks_setup] is the C loop [for (k = 0; k <
      rounds; k++)]; the cost is at most 31, as [parse_salt] checks.  No
      definition takes fuel.  The concurrent registrations are a step
      relation, and each thread has at most two steps.
    - [bcrypt.compare] reads a stored hash through [parse_salt], which
      takes the canonical spelling of the cost only (two digits).  [ValidateSalt]'s [atoi] also takes
      others, for instance a blank before the cost.  On such a hash, C
      [bcrypt()] writes the canonical prefix, which differs from the
      stored one, so [compare] is false either way.  [bcrypt.hash] is
      only called with a salt of [genSalt].
    - The repository pins no version of its dependencies (it has no
      [package.json]).  [validate_enum] follows the enum validator of
      current Mongoose, which lets [null] through, and the router and
      body parser follow Express 4.

    ** Not modelled

    Parsing the [.env] file is not modelled: [Boot] takes its variables
    as pairs.  [mongoose.connect] and [app.listen] are not modelled
    either.  The first is only logged when it fails, and its outcome is
    not observable in the model: the handlers' store is the world, and a
    store that fails is not modelled.  The second is start-up I/O; [Boot]
    records the port it is given.  The HTML of Swagger UI and
    the [swagger-jsdoc] options are also not modelled: only the API
    fragments are, in [ApiDocs].  Percent-decoding of [:id] parameters and
    the query string are not modelled either.  The handlers only use
    [:id], which is compared as the raw segment. *)

From stdpp Require Export base strings list gmap.
From Stdlib Require Export ZArith Lia.
From Stdlib Require Import Ascii.

Declare Scope auth_scope.
Delimit Scope auth_scope with auth.
Open Scope auth_scope.

Create HintDb auth discriminated.
Create Rewrite HintDb auth.

(** ** Results *)

(** A computation of the sources either produces a value or throws; [result]
    keeps the two apart. *)
Inductive result (A E : Type) : Type :=
| Ok (a : A)
| Err (e : E).
Arguments Ok {A E} a.
Arguments Err {A E} e.

Definition is_ok {A E} (r : result A E) : bool :=
  match r with Ok _ => true | Err _ => false end.

Definition result_map {A B E} (f : A -> B) (r : result A E) : result B E :=
  match r with Ok a => Ok (f a) | Err e => Err e end.

(** ** The state and exception monad

    An [async] handler reads and writes the shared world (the database, the
    entropy source) and may throw.  A thrown exception does not roll back
    what was written before it, so the state is returned on both paths. *)

Definition ste (S E A : Type) : Type := S -> result A E * S.

Section Ste.
Context {S E : Type}.

Definition ste_ret {A} (a : A) : ste S E A := fun s => (Ok a, s).

Definition ste_bind {A B} (m : ste S E A) (k : A -> ste S E B) : ste S E B :=
  fun s =>
    match m s with
    | (Ok a, s') => k a s'
    | (Err e, s') => (Err e, s')
    end.

Definition ste_throw {A} (e : E) : ste S E A := fun s => (Err e, s).

Definition ste_get : ste S E S := fun s => (Ok s, s).

Definition ste_put (s : S) : ste S E unit := fun _ => (Ok tt, s).

Definition ste_gets {A} (f : S -> A) : ste S E A := fun s => (Ok (f s), s).

(** [try { m } catch (e) { h(e) }] *)
Definition ste_catch {A} (m : ste S E A) (h : E -> ste S E A) : ste S E A :=
  fun s =>
    match m s with
    | (Ok a, s') => (Ok a, s')
    | (Err e, s') => h e s'
    end.

(** Lift a pure fallible step. *)
Definition ste_lift {A} (r : result A E) : ste S E A :=
  fun s => (r, s).
End Ste.

Notation "x <- m ;; k" := (ste_bind m (fun x => k))
  (at level 95, m at level 94, right associativity) : auth_scope.
Notation "m ;;; k" := (ste_bind m (fun _ => k))
  (at level 95, right associativity) : auth_scope.

Section SteLaws.
Context {S E : Type}.

Lemma ste_bind_ret_l {A B} (a : A) (k : A -> ste S E B) s :
  ste_bind (ste_ret a) k s = k a s.
Proof. reflexivity. Qed.

Lemma ste_bind_ret_r {A} (m : ste S E A) s :
  ste_bind m ste_ret s = m s.
Proof. unfold ste_bind, ste_ret. by destruct (m s) as [[] ?]. Qed.

Lemma ste_bind_assoc {A B C} (m : ste S E A) (k : A -> ste S E B)
      (h : B -> ste S E C) s :
  ste_bind (ste_bind m k) h s = ste_bind m (fun a => ste_bind (k a) h) s.
Proof. unfold ste_bind. by destruct (m s) as [[] ?]. Qed.

Lemma ste_bind_ok {A B} (m : ste S E A) (k : A -> ste S E B) s a s' :
  m s = (Ok a, s') -> ste_bind m k s = k a s'.
Proof. unfold ste_bind. by intros ->. Qed.

Lemma ste_bind_err {A B} (m : ste S E A) (k : A -> ste S E B) s e s' :
  m s = (Err e, s') -> ste_bind m k s = (Err e, s').
Proof. unfold ste_bind. by intros ->. Qed.

(** A handler wrapped in [try]/[catch] whose handler never throws never
    throws. *)
Lemma ste_catch_total {A} (m : ste S E A) (h : E -> ste S E A) s :
  (forall e s', is_ok (fst (h e s')) = true) ->
  is_ok (fst (ste_catch m h s)) = true.
Proof. intros Hh. unfold ste_catch. destruct (m s) as [[] ?]; auto. Qed.
End SteLaws.

#[export] Hint Rewrite @ste_bind_ret_l @ste_bind_assoc : auth.

(** ** Frame conditions

    [ste_preserves R m]: every run of [m] relates its initial and final
    states by the preorder [R] (the tasks stay as they were, the users only
    grow, the secret is never written).  The combinators preserve it, so a
    handler's frame condition follows from its steps'. *)
Section Preserves.
Context {S E : Type} (R : relation S) `{!PreOrder R}.

Definition ste_preserves {A} (m : ste S E A) : Prop := forall s, R s (snd (m s)).

Lemma preserves_ret {A} (a : A) : ste_preserves (ste_ret a).
Proof. intros s. simpl. reflexivity. Qed.

Lemma preserves_throw {A} (e : E) : ste_preserves (A := A) (ste_throw e).
Proof. intros s. simpl. reflexivity. Qed.

Lemma preserves_get : ste_preserves ste_get.
Proof. intros s. simpl. reflexivity. Qed.

Lemma preserves_gets {A} (f : S -> A) : ste_preserves (ste_gets f).
Proof. intros s. simpl. reflexivity. Qed.

Lemma preserves_lift {A} (r : result A E) : ste_preserves (ste_lift r).
Proof. intros s. simpl. reflexivity. Qed.

Lemma preserves_bind {A B} (m : ste S E A) (k : A -> ste S E B) :
  ste_preserves m -> (forall a, ste_preserves (k a)) -> ste_preserves (ste_bind m k).
Proof.
  intros Hm Hk s. unfold ste_bind. specialize (Hm s).
  destruct (m s) as [[a|e] s']; simpl in *; [|done]. etrans; [exact Hm|apply Hk].
Qed.

Lemma preserves_catch {A} (m : ste S E A) (h : E -> ste S E A) :
  ste_preserves m -> (forall e, ste_preserves (h e)) -> ste_preserves (ste_catch m h).
Proof.
  intros Hm Hh s. unfold ste_catch. specialize (Hm s).
  destruct (m s) as [[a|e] s']; simpl in *; [done|]. etrans; [exact Hm|apply Hh].
Qed.
End Preserves.

#[export] Hint Resolve preserves_ret preserves_throw preserves_get preserves_gets
  preserves_lift : auth.

(** ** Totality

    [ste_total m]: [m] never throws, from any state.  For a request
    handler this is the promise an [async] Express 4 handler must keep:
    a rejection escaping it leaves the request without an answer. *)

Section Total.
Context {S E : Type}.

Definition ste_total {A} (m : ste S E A) : Prop := forall s, is_ok (fst (m s)) = true.

Lemma total_ret {A} (a : A) : ste_total (ste_ret a).
Proof. done. Qed.

Lemma total_get : ste_total ste_get.
Proof. done. Qed.

Lemma total_gets {A} (f : S -> A) : ste_total (ste_gets f).
Proof. done. Qed.

Lemma total_put s' : ste_total (ste_put s').
Proof. done. Qed.

Lemma total_lift_ok {A} (a : A) : ste_total (ste_lift (Ok a) : ste S E A).
Proof. done. Qed.

Lemma total_bind {A B} (m : ste S E A) (k : A -> ste S E B) :
  ste_total m -> (forall a, ste_total (k a)) -> ste_total (ste_bind m k).
Proof.
  intros Hm Hk s. unfold ste_bind. specialize (Hm s).
  destruct (m s) as [[a|e] s']; [apply Hk|done].
Qed.

Lemma total_catch {A} (m : ste S E A) (h : E -> ste S E A) :
  (forall e, ste_total (h e)) -> ste_total (ste_catch m h).
Proof. intros Hh s. by apply ste_catch_total. Qed.
End Total.

#[export] Hint Resolve total_ret total_get total_gets total_put total_lift_ok : auth.

(** ** Postconditions

    [ste_post Q m]: every value [m] returns, from any state, satisfies
    [Q]; a thrown exception is not a returned value.  For a handler, [Q]
    is a property of the responses it can give. *)

Section Post.
Context {S E : Type}.

Definition ste_post {A} (Q : A -> Prop) (m : ste S E A) : Prop :=
  forall s, match fst (m s) with Ok a => Q a | Err _ => True end.

Lemma post_ret {A} (Q : A -> Prop) a : Q a -> ste_post Q (ste_ret a).
Proof. by intros ? s. Qed.

Lemma post_throw {A} (Q : A -> Prop) e : ste_post Q (ste_throw e).
Proof. by intros s. Qed.

(** A sequence: what [m] returns satisfies [P], and every continuation
    from such a value satisfies [Q]. *)
Lemma post_bind_with {A B} (P : B -> Prop) (Q : A -> Prop) (m : ste S E B) (k : B -> ste S E A) :
  ste_post P m -> (forall b, P b -> ste_post Q (k b)) -> ste_post Q (ste_bind m k).
Proof.
  intros Hm Hk s. specialize (Hm s). unfold ste_bind.
  destruct (m s) as [[b|e] s']; [by apply Hk|done].
Qed.

Lemma post_bind {A B} (Q : A -> Prop) (m : ste S E B) (k : B -> ste S E A) :
  (forall b, ste_post Q (k b)) -> ste_post Q (ste_bind m k).
Proof.
  intros Hk. apply (post_bind_with (fun _ => True)); [|auto]. intros s. by destruct (fst (m s)).
Qed.

Lemma post_catch {A} (Q : A -> Prop) (m : ste S E A) (h : E -> ste S E A) :
  ste_post Q m -> (forall e, ste_post Q (h e)) -> ste_post Q (ste_catch m h).
Proof.
  intros Hm Hh s. specialize (Hm s). unfold ste_catch.
  destruct (m s) as [[a|e] s']; [done|apply Hh].
Qed.
End Post.

#[export] Hint Resolve post_throw : auth.

(** Split a computation into its steps, case on the values it branches on,
    and close the leaves with the [auth] hints: for frame conditions
    ([ste_preserves]), totality ([ste_total]) and postconditions
    ([ste_post]) alike.  A postcondition's leaves [Q a] are left to the
    caller when the hints do not close them. *)
Ltac ste_solve :=
  repeat first
    [ lazymatch goal with
      | |- ste_preserves _ _ => fail
      | |- ste_total _ => fail
      | |- ste_post _ _ => fail
      | |- forall _, _ => intro
      end
    | lazymatch goal with
      | |- ste_preserves _ (ste_bind _ _) => refine (preserves_bind _ _ _ _ _)
      | |- ste_preserves _ (ste_catch _ _) => refine (preserves_catch _ _ _ _ _)
      | |- ste_preserves _ (match ?x with _ => _ end) => destruct x
      | |- ste_preserves _ (if ?b then _ else _) => destruct b
      | |- ste_total (ste_bind _ _) => refine (total_bind _ _ _ _)
      | |- ste_total (ste_catch _ _) => refine (total_catch _ _ _)
      | |- ste_total (match ?x with _ => _ end) => destruct x
      | |- ste_total (if ?b then _ else _) => destruct b
      | |- ste_post _ (ste_bind _ _) => refine (post_bind _ _ _ _)
      | |- ste_post _ (ste_catch _ _) => refine (post_catch _ _ _ _ _)
      | |- ste_post _ (ste_ret _) => refine (post_ret _ _ _)
      | |- ste_post _ (match ?x with _ => _ end) => destruct x
      | |- ste_post _ (if ?b then _ else _) => destruct b
      end
    | solve [eauto 3 with auth typeclass_instances] ].

Ltac ste_preserves_solve := ste_solve.
Ltac ste_total_solve := ste_solve.

(** Unfold the monad; the caller then runs [cbn] with the model's
    operations it wants to keep folded. *)
Ltac ste_unfold :=
  unfold ste_bind, ste_ret, ste_throw, ste_get, ste_put, ste_gets,
    ste_catch, ste_lift.

(** Case on the first [match] of the goal, keeping the equation. *)
Ltac case_match_eq :=
  match goal with
  | |- context [match ?x with _ => _ end] =>
      let E := fresh "E" in destruct x eqn:E
  end.


(** ** Strings *)

Local Open Scope string_scope.

Lemma string_app_length (s1 s2 : string) :
  String.length (s1 +:+ s2) = String.length s1 + String.length s2.
Proof. induction s1; simpl; auto. Qed.

Lemma string_app_cons a (s1 s2 : string) : String a s1 +:+ s2 = String a (s1 +:+ s2).
Proof. reflexivity. Qed.

Lemma string_app_nil_r (s : string) : s +:+ "" = s.
Proof. induction s; [done|]. by rewrite string_app_cons, IHs. Qed.

Lemma string_app_assoc (s1 s2 s3 : string) :
  s1 +:+ (s2 +:+ s3) = (s1 +:+ s2) +:+ s3.
Proof. induction s1; [done|]. by rewrite !string_app_cons, IHs1. Qed.

Lemma string_app_inj_l (p s1 s2 : string) :
  p +:+ s1 = p +:+ s2 -> s1 = s2.
Proof. induction p; simpl; [done|]. intros H. injection H. auto. Qed.

(** [String.prefix] decides whether its first argument starts the second. *)
Lemma string_prefix_app (p s : string) : String.prefix p (p +:+ s) = true.
Proof.
  induction p as [|a p IH]; simpl; [by destruct s|].
  destruct (Ascii.ascii_dec a a); [exact IH|congruence].
Qed.

#[export] Hint Resolve string_prefix_app : auth.

Lemma string_substring_all (s : string) :
  String.substring 0 (String.length s) s = s.
Proof. induction s as [|b s IHs]; simpl; [done|]. by rewrite IHs. Qed.

(** Taking a prefix and dropping it splits a string. *)
Lemma string_substring_app (p s : string) :
  String.substring (String.length p) (String.length s) (p +:+ s) = s.
Proof.
  induction p as [|a p IH]; [apply string_substring_all|]. exact IH.
Qed.

Lemma string_substring_prefix (p s : string) :
  String.substring 0 (String.length p) (p +:+ s) = p.
Proof. induction p as [|a p IH]; [by destruct s|]. simpl. by rewrite IH. Qed.

(** ** Bytes and bit operations

    Bytes are integers in [0, 256).  The bit operations of the C code
    ([<<], [>>], [&], [|]) are [Z.shiftl], [Z.shiftr], [Z.land], [Z.lor];
    the lemmas below turn them into arithmetic that [lia] decides. *)

Local Open Scope Z_scope.

Definition is_byte (b : Z) : Prop := 0 <= b < 256.

#[export] Instance is_byte_dec b : Decision (is_byte b).
Proof. unfold is_byte. apply _. Defined.

Definition bytes_ok (bs : list Z) : Prop := Forall is_byte bs.

Lemma Z_lor_low a b k :
  0 <= k -> 0 <= b < 2 ^ k -> Z.lor (a * 2 ^ k) b = a * 2 ^ k + b.
Proof.
  intros Hk Hb.
  assert (Hl : Z.land (a * 2 ^ k) b = 0).
  { apply Z.bits_inj'. intros m Hm. rewrite Z.land_spec, Z.bits_0.
    destruct (Z.lt_ge_cases m k) as [Hlt|Hge].
    - by rewrite Z.mul_pow2_bits_low.
    - rewrite <- (Z.mod_small b (2 ^ k)) by lia.
      rewrite Z.mod_pow2_bits_high by lia. apply andb_false_r. }
  rewrite <- Z.lxor_lor, <- Z.add_nocarry_lxor; auto.
Qed.

Lemma Z_land_low_mask a k : 0 <= k -> Z.land a (2 ^ k - 1) = a mod 2 ^ k.
Proof. intros Hk. rewrite <- Z.land_ones by lia. by rewrite Z.ones_equiv. Qed.

Lemma Z_land_3 a : Z.land a 3 = a mod 4.
Proof. apply (Z_land_low_mask a 2). lia. Qed.
Lemma Z_land_15 a : Z.land a 15 = a mod 16.
Proof. apply (Z_land_low_mask a 4). lia. Qed.
Lemma Z_land_63 a : Z.land a 63 = a mod 64.
Proof. apply (Z_land_low_mask a 6). lia. Qed.
Lemma Z_land_255 a : Z.land a 255 = a mod 256.
Proof. apply (Z_land_low_mask a 8). lia. Qed.

Lemma Z_shiftr_div a n : 0 <= n -> Z.shiftr a n = a / 2 ^ n.
Proof. apply Z.shiftr_div_pow2. Qed.

Lemma Z_shiftl_mul a n : 0 <= n -> Z.shiftl a n = a * 2 ^ n.
Proof. apply Z.shiftl_mul_pow2. Qed.

(** Normalise shifts and low masks by constants into [/], [*] and [mod]. *)
Ltac bits_to_arith :=
  rewrite ?Z.shiftr_land;
  repeat first
    [ rewrite Z_shiftr_div by lia
    | rewrite Z_shiftl_mul by lia
    | rewrite Z_land_3 | rewrite Z_land_15 | rewrite Z_land_63
    | rewrite Z_land_255 ];
  cbn [Z.pow Z.pow_pos Pos.iter Z.mul Pos.mul Z.shiftr Z.shiftl Pos.div2
       Z.div2 Pos.iter] in *.

(** Flipping one bit of a byte changes it. *)
Lemma Z_lxor_pow2_neq b k : 0 <= k -> Z.lxor b (2 ^ k) <> b.
Proof.
  intros Hk Heq.
  assert (Ht : Z.testbit (Z.lxor b (2 ^ k)) k = Z.testbit b k) by (by rewrite Heq).
  rewrite Z.lxor_spec, Z.pow2_bits_true in Ht by lia.
  by destruct (Z.testbit b k).
Qed.

(** A property of every value of a finite range, checked by evaluation. *)
Definition forall_range (n : nat) (p : Z -> bool) : bool :=
  forallb p (map Z.of_nat (seq 0 n)).

Lemma forall_range_spec n p :
  forall_range n p = true -> forall z, 0 <= z < Z.of_nat n -> p z = true.
Proof.
  unfold forall_range. rewrite forallb_forall. intros H z Hz.
  apply H. apply in_map_iff. exists (Z.to_nat z). split; [lia|].
  apply in_seq. lia.
Qed.

(** ** Lists *)

(** Induction three elements at a time, the shape of a loop that consumes
    its input in groups of three. *)
(** Overwriting one element of a list changes a sum over it by the
    difference of the two summands. *)
(** An element read with [nth] satisfies what every element and the
    default satisfy. *)
Lemma nth_Forall {A} (P : A -> Prop) l i d : Forall P l -> P d -> P (nth i l d).
Proof.
  intros Hl Hd. destruct (nth_in_or_default i l d) as [Hin | ->]; [|done].
  rewrite Forall_forall in Hl. apply Hl, list_elem_of_In, Hin.
Qed.

Lemma sum_list_with_insert {A} (f : A -> nat) (l : list A) (i : nat) (x y : A) :
  l !! i = Some x -> (sum_list_with f (<[i := y]> l) + f x = sum_list_with f l + f y)%nat.
Proof.
  revert i. induction l as [|z l IH]; intros [|i] Hi; simplify_eq/=; [lia|].
  specialize (IH i Hi). lia.
Qed.

Lemma list_ind3 {A} (P : list A -> Prop) :
  P [] -> (forall a, P [a]) -> (forall a b, P [a; b]) ->
  (forall a b c l, P l -> P (a :: b :: c :: l)) ->
  forall l, P l.
Proof.
  intros H0 H1 H2 H3. fix IH 1.
  intros [|a [|b [|c l]]]; [exact H0|apply H1|apply H2|apply H3, IH].
Qed.

Lemma list_ascii_of_string_app (s1 s2 : string) :
  String.list_ascii_of_string (s1 +:+ s2) =
    (String.list_ascii_of_string s1 ++ String.list_ascii_of_string s2)%list.
Proof. induction s1; simpl; [done|]. by f_equal. Qed.

(** ** Binary spellings of positive numbers

    Symbolic instances of the cryptographic interfaces print the [encode]
    of their arguments in binary; [bits_pos] reads it back. *)
Fixpoint pos_bits (p : positive) : string :=
  match p with
  | xH => "1"
  | xO p' => String "0"%char (pos_bits p')
  | xI p' => String "1"%char (pos_bits p')
  end.

Fixpoint bits_pos (s : string) : option positive :=
  match s with
  | String "1"%char EmptyString => Some xH
  | String "0"%char s' => xO <$> bits_pos s'
  | String "1"%char s' => xI <$> bits_pos s'
  | _ => None
  end.

Lemma pos_bits_neq_nil p : pos_bits p <> "".
Proof. by destruct p. Qed.

Lemma bits_pos_bits p : bits_pos (pos_bits p) = Some p.
Proof.
  induction p as [p IH|p IH|]; [|simpl; by rewrite IH|done].
  simpl. destruct (pos_bits p) eqn:E; [by destruct (pos_bits_neq_nil p)|].
  by rewrite IH.
Qed.

Lemma pos_bits_inj p q : pos_bits p = pos_bits q -> p = q.
Proof.
  intros Heq. apply (f_equal bits_pos) in Heq. rewrite !bits_pos_bits in Heq. congruence.
Qed.
