(* ===== verification/JsValue.v ===== *)
(** * JSON values, JavaScript truthiness and Mongoose's string cast

    The handlers of the sources read [req.body], the value [express.json()]
    parsed from the request.  This file holds that value ([jsval]), the
    exceptions the handlers can throw ([exn]), the truthiness test behind
    [if (!username || !password)], property access on a parsed body, and
    the cast Mongoose applies to a value bound to a [String] schema path.
    JSON numbers are kept as integers ([Z]); fractional numbers are not
    modelled. *)

From S2P Require Import Prelude.
From stdpp Require Import pretty.

(** ** Values *)

#[warnings="-register-all"]
Inductive jsval : Type :=
| JUndefined
| JNull
| JBool (b : bool)
| JNumber (n : Z)
| JString (s : string)
| JArray (l : list jsval)
| JObject (fields : list (string * jsval)).

(** ** Exceptions

    What a handler may throw: JavaScript [TypeError]s, Mongoose's cast and
    validation errors, the MongoDB duplicate key error (code 11000), and the
    errors of the bcrypt and jsonwebtoken libraries. *)
Inductive exn : Type :=
| TypeError (msg : string)
| CastError (path : string)
| ValidationError (path : string)
| DuplicateKeyError (key : string)
| BcryptError (msg : string)
| JwtError (name msg : string).

(** ** Truthiness: [!v] is [negb (truthy v)] *)
Definition truthy (v : jsval) : bool :=
  match v with
  | JUndefined | JNull => false
  | JBool b => b
  | JNumber n => negb (Z.eqb n 0)
  | JString s => negb (String.eqb s "")
  | JArray _ | JObject _ => true
  end.

(** ** Property access

    [JSON.parse] keeps the last of duplicate keys, so a lookup on a parsed
    object finds the last binding of the key. *)
Fixpoint obj_get (fs : list (string * jsval)) (k : string) : option jsval :=
  match fs with
  | [] => None
  | (k', v) :: fs' =>
      match obj_get fs' k with
      | Some w => Some w
      | None => if String.eqb k k' then Some v else None
      end
  end.

(** [v.k] (and the destructuring [const { k } = v]): reading a property of
    [undefined] or [null] throws; a missing property reads [undefined]. *)
Definition js_get (v : jsval) (k : string) : result jsval exn :=
  match v with
  | JUndefined | JNull => Err (TypeError ("Cannot read properties of undefined (reading '" +:+ k +:+ "')"))
  | JObject fs => Ok (default JUndefined (obj_get fs k))
  | _ => Ok JUndefined
  end.

(** ** Mongoose's cast to a [String] path

    [SchemaString.cast] in Mongoose: [null] and [undefined] stay unset; an
    object whose [_id] is a non-empty string casts to that string; a value
    with its own [toString] (numbers and booleans) is converted with it;
    arrays and plain objects fail with a [CastError]. *)
Definition bool_to_string (b : bool) : string := if b then "true" else "false".

Definition cast_string (path : string) (v : jsval) : result (option string) exn :=
  match v with
  | JUndefined | JNull => Ok None
  | JString s => Ok (Some s)
  | JNumber n => Ok (Some (pretty n))
  | JBool b => Ok (Some (bool_to_string b))
  | JArray _ => Err (CastError path)
  | JObject fs =>
      match obj_get fs "_id" with
      | Some (JString s) => if String.eqb s "" then Err (CastError path) else Ok (Some s)
      | _ => Err (CastError path)
      end
  end.

(** ** Lemmas *)

Lemma obj_get_app fs1 fs2 k :
  obj_get (fs1 ++ fs2) k =
    match obj_get fs2 k with Some v => Some v | None => obj_get fs1 k end.
Proof.
  induction fs1 as [|[k' v'] fs1 IH]; simpl; [by destruct (obj_get fs2 k)|].
  rewrite IH. by destruct (obj_get fs2 k).
Qed.

(** The last binding of a key wins. *)
Lemma obj_get_last fs k v :
  obj_get (fs ++ [(k, v)]) k = Some v.
Proof. rewrite obj_get_app. simpl. by rewrite String.eqb_refl. Qed.

Lemma obj_get_single k v : obj_get [(k, v)] k = Some v.
Proof. apply (obj_get_last []). Qed.

Lemma obj_get_Some_in fs k v : obj_get fs k = Some v -> k ∈ map fst fs.
Proof.
  revert v. induction fs as [|[k' v'] fs IH]; intros v; simpl; [done|]. rewrite elem_of_cons.
  destruct (obj_get fs k) eqn:E; [intros _; right; by eapply IH|].
  destruct (String.eqb_spec k k'); [by left|done].
Qed.

Lemma truthy_string s : truthy (JString s) = true <-> s <> "".
Proof.
  simpl. destruct (String.eqb_spec s ""); simpl; split; congruence.
Qed.

(** A truthy value is never unset after the cast: the cast either fails or
    gives a string, and a truthy string casts to itself. *)
Lemma cast_string_truthy path v :
  truthy v = true -> cast_string path v <> Ok None.
Proof.
  destruct v as [| |b|n|s|l|fs]; simpl; try discriminate; try congruence.
  destruct (obj_get fs "_id") as [[]|]; try congruence.
  by destruct (String.eqb _ _).
Qed.

(** The decimal spelling of a number is never empty. *)
Lemma pretty_N_go_nonempty (x : N) (s : string) : s <> "" -> pretty_N_go x s <> "".
Proof.
  revert s. induction (N.lt_wf_0 x) as [x _ IH]; intros s Hs.
  destruct (decide (x = 0)%N) as [->|Hx]; [by rewrite pretty_N_go_0|].
  rewrite pretty_N_go_step by lia. apply IH; [apply N.div_lt; lia|done].
Qed.

Lemma pretty_Z_nonempty (n : Z) : pretty n <> "".
Proof.
  destruct n as [|x|x]; [done| |done].
  unfold pretty, pretty_Z, pretty_positive, pretty, pretty_N. case_decide; [done|].
  rewrite pretty_N_go_step by lia. by apply pretty_N_go_nonempty.
Qed.

Lemma cast_string_string path s : cast_string path (JString s) = Ok (Some s).
Proof. reflexivity. Qed.

#[export] Hint Rewrite obj_get_last obj_get_single cast_string_string : auth.

(** ** Responses

    [res.status(code).json(body)]: the status code and the JSON body. *)
Record response := mk_resp {
  status : Z;
  resp_body : jsval
}.

Definition error_json (msg : string) : jsval := JObject [("error", JString msg)].
Definition message_json (msg : string) : jsval := JObject [("message", JString msg)].
