(* ===== verification/Bcrypt.v ===== *)
(** * The bcrypt library as [src/models/User.js] calls it

    [User.js] calls [bcrypt.genSalt(10)], [bcrypt.hash(password, salt)] and
    [bcrypt.compare(candidate, hash)] of the node [bcrypt] package, whose C
    core is OpenBSD's [bcrypt.c].  This file models that library: the salt
    string ["$2b$10$" ++ 22 base64 characters] and the salts and hashes
    [bcrypt()] reads ([$2$], [$2a$], [$2b$]), bcrypt's own base64
    ([encode_base64] and [decode_base64] of the C code), the key bytes the
    cipher reads for each minor version (under [$2b$] only the first 72
    bytes of the password), the hash string and [compare], which re-hashes
    with the salt read back from the stored hash.
    The Eksblowfish cipher is a parameter here ([EksBlowfish]), so the
    theorems of this file hold for any cipher; [Blowfish.v] gives the
    concrete one.  The only law assumed of it, for the soundness of
    [compare], is that it separates keys.

    The operations are packaged as the interface [PasswordHasher] (what the
    [User] model needs of a password hasher) and [bcrypt_hasher] implements
    it. *)

From S2P Require Import Prelude JsValue.
From Stdlib Require Import Ascii String.

Local Open Scope Z_scope.

(** ** Strings as bytes

    A [string] is a sequence of bytes (the UTF-8 encoding of the JavaScript
    string, as node's bcrypt binding passes it to C). *)
Fixpoint string_bytes (s : string) : list Z :=
  match s with
  | EmptyString => []
  | String c s' => Z.of_nat (nat_of_ascii c) :: string_bytes s'
  end.

Fixpoint bytes_string (bs : list Z) : string :=
  match bs with
  | [] => EmptyString
  | b :: bs' => String (ascii_of_nat (Z.to_nat b)) (bytes_string bs')
  end.

(** ** bcrypt's base64 *)

Definition bcrypt_alphabet : string :=
  "./ABCDEFGHIJKLMNOPQRSTUVWXYZabcdefghijklmnopqrstuvwxyz0123456789".

(** [Base64Code[v]] *)
Definition b64_char (v : Z) : ascii :=
  default "."%char (String.get (Z.to_nat v) bcrypt_alphabet).

Fixpoint index_of (c : ascii) (s : string) (i : Z) : option Z :=
  match s with
  | EmptyString => None
  | String c' s' => if Ascii.eqb c c' then Some i else index_of c s' (i + 1)
  end.

(** [CHAR64(c)]: [None] where the C table holds 255. *)
Definition char64 (c : ascii) : option Z := index_of c bcrypt_alphabet 0.

(** [encode_base64]: three bytes become four sextets; a trailing one or
    two bytes become two or three. *)
Fixpoint encode_sextets (bs : list Z) : list Z :=
  match bs with
  | [] => []
  | [c1] => [Z.shiftr c1 2; Z.shiftl (Z.land c1 3) 4]
  | [c1; c2] =>
      [Z.shiftr c1 2;
       Z.lor (Z.shiftl (Z.land c1 3) 4) (Z.land (Z.shiftr c2 4) 15);
       Z.shiftl (Z.land c2 15) 2]
  | c1 :: c2 :: c3 :: rest =>
      Z.shiftr c1 2
      :: Z.lor (Z.shiftl (Z.land c1 3) 4) (Z.land (Z.shiftr c2 4) 15)
      :: Z.lor (Z.shiftl (Z.land c2 15) 2) (Z.land (Z.shiftr c3 6) 3)
      :: Z.land c3 63
      :: encode_sextets rest
  end.

Definition encode_base64 (bs : list Z) : string :=
  String.string_of_list_ascii (map b64_char (encode_sextets bs)).

(** The three bytes a group of sextets decodes to, stored as [u_int8_t]. *)
Definition dec_b1 (c1 c2 : Z) : Z :=
  Z.land (Z.lor (Z.shiftl c1 2) (Z.shiftr (Z.land c2 48) 4)) 255.
Definition dec_b2 (c2 c3 : Z) : Z :=
  Z.land (Z.lor (Z.shiftl (Z.land c2 15) 4) (Z.shiftr (Z.land c3 60) 2)) 255.
Definition dec_b3 (c3 c4 : Z) : Z :=
  Z.land (Z.lor (Z.shiftl (Z.land c3 3) 6) c4) 255.

(** [decode_base64(buffer, len, data)]: decode [n] bytes; an invalid
    character (or too short an input) is an error. *)
Fixpoint decode_chars (n : nat) (cs : list ascii) : option (list Z) :=
  match n with
  | O => Some []
  | S n1 =>
      match cs with
      | a1 :: a2 :: rest =>
          c1 ← char64 a1; c2 ← char64 a2;
          match n1 with
          | O => Some [dec_b1 c1 c2]
          | S n2 =>
              match rest with
              | a3 :: rest3 =>
                  c3 ← char64 a3;
                  match n2 with
                  | O => Some [dec_b1 c1 c2; dec_b2 c2 c3]
                  | S n3 =>
                      match rest3 with
                      | a4 :: rest4 =>
                          c4 ← char64 a4;
                          bs ← decode_chars n3 rest4;
                          Some (dec_b1 c1 c2 :: dec_b2 c2 c3 :: dec_b3 c3 c4 :: bs)
                      | [] => None
                      end
                  end
              | [] => None
              end
          end
      | _ => None
      end
  end.

Definition decode_base64 (n : nat) (s : string) : option (list Z) :=
  decode_chars n (String.list_ascii_of_string s).

(** ** Round trip of the encoding *)

Lemma char64_b64_char v : 0 <= v < 64 -> char64 (b64_char v) = Some v.
Proof.
  intros Hv.
  apply (forall_range_spec 64 (fun v => bool_decide (char64 (b64_char v) = Some v)))
    in Hv; [|vm_compute; reflexivity].
  by apply bool_decide_eq_true in Hv.
Qed.

Lemma Z_shiftr_land_48 a : Z.shiftr (Z.land a 48) 4 = (a / 16) mod 4.
Proof.
  rewrite Z.shiftr_land. change (Z.shiftr 48 4) with 3.
  rewrite Z_land_3, Z_shiftr_div by lia. reflexivity.
Qed.

Lemma Z_shiftr_land_60 a : Z.shiftr (Z.land a 60) 2 = (a / 4) mod 16.
Proof.
  rewrite Z.shiftr_land. change (Z.shiftr 60 2) with 15.
  rewrite Z_land_15, Z_shiftr_div by lia. reflexivity.
Qed.

(** Turn the byte and sextet operations of a goal into [/], [*], [mod]
    and [+], then decide it. *)
Ltac byte_arith :=
  unfold dec_b1, dec_b2, dec_b3, is_byte in *;
  rewrite ?Z_shiftr_land_48, ?Z_shiftr_land_60;
  repeat first
    [ rewrite Z_shiftr_div by lia
    | rewrite Z_shiftl_mul by lia
    | rewrite Z_land_3 | rewrite Z_land_15 | rewrite Z_land_63 ];
  repeat (rewrite Z_lor_low; [| lia | Z.div_mod_to_equations; lia]);
  rewrite ?Z_land_255;
  Z.div_mod_to_equations; lia.

Lemma sextet_bounds c1 c2 c3 :
  is_byte c1 -> is_byte c2 -> is_byte c3 ->
  0 <= Z.shiftr c1 2 < 64 /\
  0 <= Z.lor (Z.shiftl (Z.land c1 3) 4) (Z.land (Z.shiftr c2 4) 15) < 64 /\
  0 <= Z.lor (Z.shiftl (Z.land c2 15) 2) (Z.land (Z.shiftr c3 6) 3) < 64 /\
  0 <= Z.land c3 63 < 64 /\
  0 <= Z.shiftl (Z.land c1 3) 4 < 64 /\ 0 <= Z.shiftl (Z.land c2 15) 2 < 64.
Proof. intros. repeat split; byte_arith. Qed.

Lemma sextet_decode c1 c2 c3 :
  is_byte c1 -> is_byte c2 -> is_byte c3 ->
  dec_b1 (Z.shiftr c1 2) (Z.lor (Z.shiftl (Z.land c1 3) 4) (Z.land (Z.shiftr c2 4) 15)) = c1 /\
  dec_b1 (Z.shiftr c1 2) (Z.shiftl (Z.land c1 3) 4) = c1 /\
  dec_b2 (Z.lor (Z.shiftl (Z.land c1 3) 4) (Z.land (Z.shiftr c2 4) 15))
         (Z.lor (Z.shiftl (Z.land c2 15) 2) (Z.land (Z.shiftr c3 6) 3)) = c2 /\
  dec_b2 (Z.lor (Z.shiftl (Z.land c1 3) 4) (Z.land (Z.shiftr c2 4) 15))
         (Z.shiftl (Z.land c2 15) 2) = c2 /\
  dec_b3 (Z.lor (Z.shiftl (Z.land c2 15) 2) (Z.land (Z.shiftr c3 6) 3)) (Z.land c3 63) = c3.
Proof. intros. repeat split; byte_arith. Qed.

(** Decoding reads back the bytes an encoding was made of, and ignores
    what follows them (the digest that follows the salt in a hash). *)
Lemma decode_encode_app (bs : list Z) (extra : list ascii) :
  bytes_ok bs ->
  decode_chars (List.length bs) (map b64_char (encode_sextets bs) ++ extra) = Some bs.
Proof.
  induction bs as [|c1|c1 c2|c1 c2 c3 l IH] using list_ind3; intros Hok;
    [reflexivity| | |];
    unfold bytes_ok in *;
    repeat (match goal with H : Forall _ (_ :: _) |- _ => inversion_clear H end).
  - destruct (sextet_bounds c1 0 0) as (B1 & _ & _ & _ & B5 & _); try (done || (unfold is_byte; lia)).
    destruct (sextet_decode c1 0 0) as (_ & D1 & _); try (done || (unfold is_byte; lia)).
    cbn [decode_chars encode_sextets map List.length app].
    rewrite (char64_b64_char _ B1). simpl. rewrite (char64_b64_char _ B5). simpl.
    by rewrite D1.
  - destruct (sextet_bounds c1 c2 0) as (B1 & B2 & _ & _ & _ & B6); try (done || (unfold is_byte; lia)).
    destruct (sextet_decode c1 c2 0) as (D1 & _ & _ & D4 & _); try (done || (unfold is_byte; lia)).
    cbn [decode_chars encode_sextets map List.length app].
    rewrite (char64_b64_char _ B1). simpl. rewrite (char64_b64_char _ B2). simpl.
    rewrite (char64_b64_char _ B6). simpl. by rewrite D1, D4.
  - destruct (sextet_bounds c1 c2 c3) as (B1 & B2 & B3 & B4 & _); try done.
    destruct (sextet_decode c1 c2 c3) as (D1 & _ & D3 & _ & D5); try done.
    cbn [decode_chars encode_sextets map List.length app].
    rewrite (char64_b64_char _ B1). simpl. rewrite (char64_b64_char _ B2). simpl.
    rewrite (char64_b64_char _ B3). simpl. rewrite (char64_b64_char _ B4). simpl.
    rewrite IH by done. simpl. by rewrite D1, D3, D5.
Qed.

Lemma decode_encode_base64 (bs : list Z) (rest : string) :
  bytes_ok bs ->
  decode_base64 (List.length bs) (encode_base64 bs +:+ rest) = Some bs.
Proof.
  intros Hok. unfold decode_base64, encode_base64.
  rewrite list_ascii_of_string_app, String.list_ascii_of_string_of_list_ascii.
  by apply decode_encode_app.
Qed.

(** The encoding of equally long byte strings is injective. *)
Lemma encode_base64_inj (bs1 bs2 : list Z) :
  bytes_ok bs1 -> bytes_ok bs2 -> List.length bs1 = List.length bs2 ->
  encode_base64 bs1 = encode_base64 bs2 -> bs1 = bs2.
Proof.
  intros H1 H2 Hl He.
  pose proof (decode_encode_base64 bs1 "" H1) as D1.
  rewrite He, Hl, (decode_encode_base64 bs2 "" H2) in D1. congruence.
Qed.

(** bcrypt's base64 writes no padding: [n] bytes become
    [(4 n + 2) / 3] characters. *)
Lemma encode_sextets_length bs : List.length (encode_sextets bs) = ((4 * List.length bs + 2) / 3)%nat.
Proof.
  induction bs as [|c1|c1 c2|c1 c2 c3 bs IH] using list_ind3; [done..|].
  cbn [encode_sextets List.length]. rewrite IH.
  replace (4 * S (S (S (List.length bs))) + 2)%nat with (4 * List.length bs + 2 + 4 * 3)%nat by lia.
  rewrite Nat.div_add by lia. lia.
Qed.

Lemma string_of_list_ascii_length l : String.length (String.string_of_list_ascii l) = List.length l.
Proof. induction l; simpl; auto. Qed.

Lemma encode_base64_length bs : String.length (encode_base64 bs) = ((4 * List.length bs + 2) / 3)%nat.
Proof. unfold encode_base64. by rewrite string_of_list_ascii_length, length_map, encode_sextets_length. Qed.

(** [decode_base64] of [n] bytes gives [n] bytes. *)
Lemma decode_chars_length n cs bs : decode_chars n cs = Some bs -> List.length bs = n.
Proof.
  revert cs bs. induction n as [n IH] using (well_founded_induction lt_wf). intros cs bs Hd.
  destruct n as [|[|[|n3]]]; cbn [decode_chars] in Hd; simplify_eq/=; [done|..];
    repeat (case_match; simplify_option_eq); try done.
  match goal with H : decode_chars n3 _ = Some _ |- _ => by rewrite (IH n3 ltac:(lia) _ _ H) end.
Qed.

(** [decode_base64] stores each byte as a [u_int8_t]. *)
Lemma dec_b1_byte c1 c2 : is_byte (dec_b1 c1 c2).
Proof. unfold is_byte, dec_b1. rewrite Z_land_255. apply Z.mod_pos_bound. lia. Qed.
Lemma dec_b2_byte c2 c3 : is_byte (dec_b2 c2 c3).
Proof. unfold is_byte, dec_b2. rewrite Z_land_255. apply Z.mod_pos_bound. lia. Qed.
Lemma dec_b3_byte c3 c4 : is_byte (dec_b3 c3 c4).
Proof. unfold is_byte, dec_b3. rewrite Z_land_255. apply Z.mod_pos_bound. lia. Qed.

#[local] Hint Resolve dec_b1_byte dec_b2_byte dec_b3_byte Forall_nil_2 Forall_cons_2 : core.

Lemma decode_chars_bytes n cs bs : decode_chars n cs = Some bs -> bytes_ok bs.
Proof.
  revert cs bs. induction n as [n IH] using (well_founded_induction lt_wf). intros cs bs Hd.
  destruct n as [|[|[|n3]]]; cbn [decode_chars] in Hd; simplify_eq/=; [constructor|..];
    repeat (case_match; simplify_option_eq); try done; unfold bytes_ok; eauto.
  match goal with H : decode_chars n3 _ = Some _ |- _ => pose proof (IH n3 ltac:(lia) _ _ H) end.
  eauto 6.
Qed.

(** ** Salts, keys, hashes *)

Definition BCRYPT_MAXSALT : nat := 16.

Definition digit_char (d : Z) : ascii := ascii_of_nat (48 + Z.to_nat d).

(** [snprintf(.., "%2.2u", n)] for the rounds, which lie in [4, 31]. *)
Definition two_digits (n : Z) : string :=
  String (digit_char (n / 10)) (String (digit_char (n mod 10)) EmptyString).

Definition clamp_rounds (n : Z) : Z := Z.max 4 (Z.min 31 n).

(** The minor version as [bcrypt()] keeps it: [u_int8_t minor], 0 for a
    ["$2$"] salt and the letter otherwise. *)
Definition minor_none : ascii := Ascii.zero.

(** The prefix ["$2" minor "$" rounds "$"] of a salt and of a hash; the
    minor letter is written only when it is not 0 ([if (minor)
    encrypted[i++] = minor]). *)
Definition salt_prefix (minor : ascii) (logr : Z) : string :=
  let tail := String "$" (two_digits logr +:+ "$") in
  String "$" (String "2" (if bool_decide (minor = minor_none) then tail else String minor tail)).

(** [bcrypt_gensalt(minor, log_rounds, seed)], called by [genSalt(rounds)]
    with 16 bytes of [crypto.randomBytes] as the seed. *)
Definition gen_salt (rounds : Z) (seed : list Z) : string :=
  salt_prefix "b" (clamp_rounds rounds) +:+ encode_base64 seed.

Definition char_digit (c : ascii) : option Z :=
  let n := Z.of_nat (nat_of_ascii c) - 48 in
  if bool_decide (0 <= n < 10) then Some n else None.

Arguments digit_char : simpl never.
Arguments char_digit : simpl never.

(** The rounds and the salt bytes after the minor version: two digits of
    rounds between 4 and 31, a ["$"], then 16 bytes of base64. *)
Definition parse_rounds_salt (minor : ascii) (cs : list ascii) : option (ascii * Z * list Z) :=
  match cs with
  | d1 :: d2 :: c :: rest =>
      if bool_decide (c = "$"%char) then
        n1 ← char_digit d1; n2 ← char_digit d2;
        let n := 10 * n1 + n2 in
        if bool_decide (4 <= n <= 31) then
          csalt ← decode_chars BCRYPT_MAXSALT rest;
          Some (minor, n, csalt)
        else None
      else None
  | _ => None
  end.

(** The checks [bcrypt()] and [ValidateSalt] make of a salt (or of the salt
    prefix of a stored hash), in their order: ["$"], version 2, then
    either ["$"] (no minor) or a minor [a] or [b] and ["$"], then the
    rounds and the salt.  It returns the minor version, the rounds and the
    decoded salt bytes. *)
Definition parse_salt (s : string) : option (ascii * Z * list Z) :=
  match String.list_ascii_of_string s with
  | c0 :: c1 :: c2 :: rest =>
      if bool_decide (c0 = "$"%char /\ c1 = "2"%char) then
        if bool_decide (c2 = "$"%char) then parse_rounds_salt minor_none rest
        else if bool_decide (c2 = "a"%char \/ c2 = "b"%char) then
          match rest with
          | c3 :: rest' => if bool_decide (c3 = "$"%char) then parse_rounds_salt c2 rest' else None
          | [] => None
          end
        else None
      else None
  | _ => None
  end.

(** [(u_int8_t)n] *)
Definition u8 (n : Z) : Z := n mod 2 ^ 8.

(** The number of key bytes [bcrypt()] hands to the cipher.  For minor
    [b] it is the password length capped at 72, plus one for the
    terminating NUL.  For [$2a$] and [$2$] ([minor <= 'a']) it is the
    length, plus the NUL for [a] only, cast to [u_int8_t]: a password of
    255 bytes gives 0 under [$2a$]. *)
Definition key_len (minor : ascii) (pw : string) : nat :=
  if bool_decide (minor = "b"%char) then Nat.min (String.length pw) 72 + 1
  else Z.to_nat (u8 (Z.of_nat (String.length pw) + if bool_decide (minor = "a"%char) then 1 else 0)).

(** The key stream Eksblowfish reads: the 72 bytes [Blowfish_stream2word]
    takes from the key, cyclically over its [key_len] bytes ([if (j >=
    databytes) j = 0], so a key length of 0 reads the first byte every
    time).  Bytes of the password after the 72nd are never read. *)
Definition key_stream (minor : ascii) (pw : string) : list Z :=
  let key := (string_bytes pw ++ [0])%list in
  let n := key_len minor pw in
  map (fun i => nth (if bool_decide (n = 0%nat) then 0%nat else i mod n) key 0) (seq 0 72).

(** The Eksblowfish cipher with the base64 encoding of its 23 output
    bytes: cost, salt bytes and key stream to the 31 characters that end a
    hash. *)
Class EksBlowfish := eks_digest : Z -> list Z -> list Z -> string.

(** Its only law: two different key streams give different digests under
    the same cost and salt (the idealised collision resistance the
    soundness of [compare] rests on). *)
Class EksBlowfishInj `{EksBlowfish} :=
  eks_digest_inj : forall n s k1 k2, eks_digest n s k1 = eks_digest n s k2 -> k1 = k2.

Section BcryptOps.
Context `{EksBlowfish}.

(** The string [bcrypt()] writes: the salt re-encoded from its bytes,
    then the digest. *)
Definition hash_string (minor : ascii) (logr : Z) (csalt : list Z) (pw : string) : string :=
  salt_prefix minor logr +:+ encode_base64 csalt +:+ eks_digest logr csalt (key_stream minor pw).

(** [bcrypt.hash(data, salt)]: an invalid salt is an error. *)
Definition bcrypt_hash (pw salt : string) : result string exn :=
  match parse_salt salt with
  | Some (minor, logr, csalt) => Ok (hash_string minor logr csalt pw)
  | None => Err (BcryptError "Invalid salt")
  end.

(** [bcrypt.compare(data, encrypted)]: a malformed stored value compares
    false; otherwise the password is hashed with the stored salt and the
    two strings are compared. *)
Definition bcrypt_compare (pw encrypted : string) : bool :=
  match parse_salt encrypted with
  | Some (minor, logr, csalt) => String.eqb (hash_string minor logr csalt pw) encrypted
  | None => false
  end.
End BcryptOps.

(** ** What the library guarantees *)

Lemma char_digit_digit d : 0 <= d < 10 -> char_digit (digit_char d) = Some d.
Proof.
  intros Hd.
  apply (forall_range_spec 10 (fun d => bool_decide (char_digit (digit_char d) = Some d)))
    in Hd; [|vm_compute; reflexivity].
  by apply bool_decide_eq_true in Hd.
Qed.

Definition valid_minor (m : ascii) : Prop := m = minor_none \/ m = "a"%char \/ m = "b"%char.

Definition valid_seed (seed : list Z) : Prop :=
  bytes_ok seed /\ List.length seed = BCRYPT_MAXSALT.

(** What [parse_rounds_salt] returns: the minor it was given and 16
    bytes of salt. *)
Lemma parse_rounds_salt_Some m cs minor logr csalt :
  parse_rounds_salt m cs = Some (minor, logr, csalt) ->
  minor = m /\ List.length csalt = BCRYPT_MAXSALT.
Proof.
  destruct cs as [|d1 [|d2 [|c rest]]]; [done..|]. cbn [parse_rounds_salt].
  case_bool_decide; [|done]. destruct (char_digit d1), (char_digit d2); [|done..].
  cbn [mbind option_bind]. cbv zeta.
  case_bool_decide; [|done]. destruct (decode_chars _ _) eqn:Hd; [|done]. cbn [mbind option_bind].
  intros [= <- <- <-]. split; [done|]. by eapply decode_chars_length.
Qed.

(** Whatever [parse_salt] accepts went through [parse_rounds_salt]. *)
Lemma parse_salt_Some s minor logr csalt :
  parse_salt s = Some (minor, logr, csalt) ->
  exists m cs, parse_rounds_salt m cs = Some (minor, logr, csalt).
Proof.
  unfold parse_salt. destruct (String.list_ascii_of_string s) as [|c0 [|c1 [|c2 rest]]]; [done..|].
  case_bool_decide; [|done]. case_bool_decide; [eauto|]. case_bool_decide; [|done].
  destruct rest as [|c3 rest]; [done|]. case_bool_decide; [eauto|done].
Qed.

(** The salt bytes [parse_salt] returns are bytes. *)
Lemma parse_salt_csalt_bytes s minor logr csalt :
  parse_salt s = Some (minor, logr, csalt) -> bytes_ok csalt.
Proof.
  intros (m & [|d1 [|d2 [|c rest]]] & Hp)%parse_salt_Some; [done..|]. revert Hp. cbn [parse_rounds_salt].
  case_bool_decide; [|done]. destruct (char_digit d1), (char_digit d2); [|done..].
  cbn [mbind option_bind]. cbv zeta. case_bool_decide; [|done].
  destruct (decode_chars _ _) eqn:Hd; [|done]. intros [= _ _ <-]. by eapply decode_chars_bytes.
Qed.

(** A salt [parse_salt] accepts carries 16 bytes. *)
Lemma parse_salt_csalt_length s minor logr csalt :
  parse_salt s = Some (minor, logr, csalt) -> List.length csalt = BCRYPT_MAXSALT.
Proof. intros (m & cs & Hp)%parse_salt_Some. by apply parse_rounds_salt_Some in Hp as [_ ->]. Qed.

(** A salt [genSalt] makes is read back with minor [b]. *)
Lemma parse_gen_salt_minor rounds seed minor logr csalt :
  parse_salt (gen_salt rounds seed) = Some (minor, logr, csalt) -> minor = "b"%char.
Proof.
  unfold gen_salt, parse_salt, salt_prefix. rewrite bool_decide_false by done.
  rewrite !list_ascii_of_string_app. cbn [String.list_ascii_of_string String.append app].
  rewrite (bool_decide_true ("$"%char = "$"%char /\ "2"%char = "2"%char)) by done.
  rewrite (bool_decide_false ("b"%char = "$"%char)) by done.
  rewrite (bool_decide_true ("b"%char = "a"%char \/ "b"%char = "b"%char)) by (by right).
  rewrite (bool_decide_true ("$"%char = "$"%char)) by done.
  by intros [-> _]%parse_rounds_salt_Some.
Qed.

(** A prefix with a minor letter is 7 characters: ["$2b$10$"]. *)
Lemma salt_prefix_length minor logr :
  minor <> minor_none -> String.length (salt_prefix minor logr) = 7%nat.
Proof. intros Hm. unfold salt_prefix. by rewrite bool_decide_false. Qed.

(** A salt prefix with valid fields followed by an encoded 16 byte salt
    parses back to its fields, whatever follows. *)
Lemma parse_salt_app minor logr csalt rest :
  valid_minor minor -> 4 <= logr <= 31 -> valid_seed csalt ->
  parse_salt (salt_prefix minor logr +:+ encode_base64 csalt +:+ rest) =
    Some (minor, logr, csalt).
Proof.
  intros Hm Hr [Hok Hlen]. unfold parse_salt, salt_prefix.
  destruct Hm as [->|[->| ->]];
    [rewrite bool_decide_true by done|rewrite bool_decide_false by done..];
    rewrite !list_ascii_of_string_app; cbn [String.list_ascii_of_string app];
    rewrite (bool_decide_true ("$"%char = "$"%char /\ "2"%char = "2"%char)) by done;
    [|rewrite (bool_decide_false (_ = "$"%char)) by done;
      rewrite (bool_decide_true (_ \/ _)) by first [by left | by right]..];
    rewrite (bool_decide_true ("$"%char = "$"%char)) by done;
    unfold two_digits; rewrite !list_ascii_of_string_app;
    cbn [String.list_ascii_of_string app parse_rounds_salt];
    rewrite (bool_decide_true ("$"%char = "$"%char)) by done;
    rewrite !char_digit_digit by (Z.div_mod_to_equations; lia); cbn [mbind option_bind]; cbv zeta;
    replace (10 * (logr / 10) + logr mod 10) with logr by (Z.div_mod_to_equations; lia);
    rewrite bool_decide_true by lia;
    unfold encode_base64; rewrite String.list_ascii_of_string_of_list_ascii;
    rewrite <- Hlen, decode_encode_app by done; reflexivity.
Qed.
Lemma clamp_rounds_range r : 4 <= clamp_rounds r <= 31.
Proof. unfold clamp_rounds. lia. Qed.

Section BcryptLaws.
Context `{EksBlowfish}.

Lemma bcrypt_hash_gen_salt pw rounds seed :
  valid_seed seed ->
  bcrypt_hash pw (gen_salt rounds seed) =
    Ok (hash_string "b" (clamp_rounds rounds) seed pw).
Proof.
  intros Hs. unfold bcrypt_hash, gen_salt.
  rewrite <- (string_app_nil_r (encode_base64 seed)), parse_salt_app;
    auto using clamp_rounds_range.
  by right; right.
Qed.

Lemma parse_hash_string minor logr csalt pw :
  valid_minor minor -> 4 <= logr <= 31 -> valid_seed csalt ->
  parse_salt (hash_string minor logr csalt pw) = Some (minor, logr, csalt).
Proof. intros. by apply parse_salt_app. Qed.

(** A hash begins with ["$2"], as every bcrypt string does. *)
Lemma bcrypt_hash_prefix `{EksBlowfish} pw salt h : bcrypt_hash pw salt = Ok h -> String.prefix "$2" h = true.
Proof.
  unfold bcrypt_hash. destruct (parse_salt salt) as [[[minor logr] csalt]|]; [|done].
  intros [= <-]. unfold hash_string, salt_prefix. by case_bool_decide.
Qed.

(** [compare] accepts every candidate whose key stream, under the
    hash's minor version, is the hashed password's. *)
Lemma bcrypt_compare_key minor logr csalt pw pw' :
  valid_minor minor -> 4 <= logr <= 31 -> valid_seed csalt ->
  key_stream minor pw' = key_stream minor pw ->
  bcrypt_compare pw' (hash_string minor logr csalt pw) = true.
Proof.
  intros Hm Hr Hs Hk. unfold bcrypt_compare. rewrite parse_hash_string by done.
  unfold hash_string at 1. rewrite Hk. apply String.eqb_refl.
Qed.

(** [compare] accepts the password a hash was made from. *)
Lemma bcrypt_compare_hash minor logr csalt pw :
  valid_minor minor -> 4 <= logr <= 31 -> valid_seed csalt ->
  bcrypt_compare pw (hash_string minor logr csalt pw) = true.
Proof. intros. by apply bcrypt_compare_key. Qed.

(** Under the collision law, [compare] accepts only candidates with the
    key stream of the hashed password. *)
Lemma bcrypt_compare_sound `{!EksBlowfishInj} minor logr csalt pw pw' :
  valid_minor minor -> 4 <= logr <= 31 -> valid_seed csalt ->
  bcrypt_compare pw' (hash_string minor logr csalt pw) = true ->
  key_stream minor pw' = key_stream minor pw.
Proof.
  intros Hm Hr Hs. unfold bcrypt_compare. rewrite parse_hash_string by done.
  intros Heq. apply String.eqb_eq in Heq. unfold hash_string in Heq.
  apply string_app_inj_l, string_app_inj_l in Heq.
  by apply eks_digest_inj in Heq.
Qed.
End BcryptLaws.

(** Only the first 72 bytes of a long password reach the cipher. *)
Lemma string_bytes_length pw : List.length (string_bytes pw) = String.length pw.
Proof. induction pw; simpl; auto. Qed.

Lemma string_bytes_ok pw : bytes_ok (string_bytes pw).
Proof.
  induction pw as [|c pw IH]; constructor; [|done].
  pose proof (Ascii.nat_ascii_bounded c). unfold is_byte. lia.
Qed.

(** Every byte of the key stream is a byte of the password or its NUL. *)
Lemma key_stream_bytes minor pw : bytes_ok (key_stream minor pw).
Proof.
  unfold key_stream. apply Forall_forall. intros b (i & -> & _)%list_elem_of_fmap.
  apply nth_Forall; [|unfold is_byte; lia].
  apply Forall_app; split; [apply string_bytes_ok|repeat constructor; unfold is_byte; lia].
Qed.

Lemma key_stream_long pw :
  (72 <= String.length pw)%nat ->
  key_stream "b" pw = map (fun i => nth i (take 72 (string_bytes pw)) 0) (seq 0 72).
Proof.
  intros Hl. unfold key_stream, key_len. cbv zeta. rewrite (bool_decide_true ("b"%char = "b"%char)) by done.
  replace (Nat.min (String.length pw) 72 + 1)%nat with 73%nat by lia.
  rewrite bool_decide_false by lia.
  apply map_ext_in. intros i Hi. apply in_seq in Hi.
  rewrite Nat.mod_small by lia.
  rewrite app_nth1 by (rewrite string_bytes_length; lia).
  rewrite nth_firstn. destruct (Nat.ltb_spec i 72); [reflexivity|lia].
Qed.

Lemma key_stream_trunc pw1 pw2 :
  (72 <= String.length pw1)%nat -> (72 <= String.length pw2)%nat ->
  take 72 (string_bytes pw1) = take 72 (string_bytes pw2) ->
  key_stream "b" pw1 = key_stream "b" pw2.
Proof.
  intros H1 H2 Ht. rewrite !key_stream_long by done. by rewrite Ht.
Qed.

(** ** The interface the [User] model relies on *)

Class PasswordHasher := {
  ph_gen_salt : Z -> list Z -> string;         (* genSalt(rounds) from a seed *)
  ph_hash : string -> string -> result string exn;  (* hash(data, salt) *)
  ph_compare : string -> string -> bool;      (* compare(data, encrypted) *)
  ph_key : string -> list Z                   (* what of a password is hashed *)
}.

Class PasswordHasherLaws (PH : PasswordHasher) := {
  ph_hash_gen_salt_ok r seed pw :
    valid_seed seed -> exists h, ph_hash pw (ph_gen_salt r seed) = Ok h;
  ph_compare_hash r seed pw h :
    valid_seed seed -> ph_hash pw (ph_gen_salt r seed) = Ok h -> ph_compare pw h = true;
  ph_compare_key r seed pw pw' h :
    valid_seed seed -> ph_hash pw (ph_gen_salt r seed) = Ok h ->
    ph_key pw' = ph_key pw -> ph_compare pw' h = true;
  ph_hash_salt_inj r s1 s2 pw1 pw2 h :
    valid_seed s1 -> valid_seed s2 ->
    ph_hash pw1 (ph_gen_salt r s1) = Ok h -> ph_hash pw2 (ph_gen_salt r s2) = Ok h ->
    s1 = s2
}.

(** The idealised law: only the hashed password's key passes [compare]. *)
Class PasswordHasherSound (PH : PasswordHasher) :=
  ph_compare_sound r seed pw pw' h :
    valid_seed seed -> ph_hash pw (ph_gen_salt r seed) = Ok h ->
    ph_compare pw' h = true -> ph_key pw' = ph_key pw.

#[export] Instance bcrypt_hasher `{EksBlowfish} : PasswordHasher := {|
  ph_gen_salt := gen_salt;
  ph_hash := bcrypt_hash;
  ph_compare := bcrypt_compare;
  ph_key := key_stream "b"
|}.

Lemma valid_minor_b : valid_minor "b"%char.
Proof. by right; right. Qed.

#[export] Hint Resolve valid_minor_b clamp_rounds_range : auth.

#[export] Instance bcrypt_hasher_laws `{EksBlowfish} : PasswordHasherLaws bcrypt_hasher.
Proof.
  split; cbn [ph_gen_salt ph_hash ph_compare ph_key bcrypt_hasher].
  - intros r seed pw Hs. rewrite bcrypt_hash_gen_salt by done. eauto.
  - intros r seed pw h Hs. rewrite bcrypt_hash_gen_salt by done. intros [= <-].
    apply bcrypt_compare_hash; auto with auth.
  - intros r seed pw pw' h Hs. rewrite bcrypt_hash_gen_salt by done. intros [= <-] Hk.
    apply bcrypt_compare_key; auto with auth.
  - intros r s1 s2 pw1 pw2 h H1 H2.
    rewrite !bcrypt_hash_gen_salt by done. intros Ha Hb.
    assert (Ea : hash_string "b" (clamp_rounds r) s1 pw1 = h) by congruence.
    assert (Eb : hash_string "b" (clamp_rounds r) s2 pw2 = h) by congruence.
    pose proof (parse_hash_string "b" (clamp_rounds r) s1 pw1
                  valid_minor_b (clamp_rounds_range r) H1) as P1.
    pose proof (parse_hash_string "b" (clamp_rounds r) s2 pw2
                  valid_minor_b (clamp_rounds_range r) H2) as P2.
    rewrite Ea in P1. rewrite Eb in P2. congruence.
Qed.

#[export] Instance bcrypt_hasher_sound `{EksBlowfishInj} : PasswordHasherSound bcrypt_hasher.
Proof.
  intros r seed pw pw' h Hs. cbn [ph_gen_salt ph_hash ph_compare ph_key bcrypt_hasher].
  rewrite bcrypt_hash_gen_salt by done. intros [= <-].
  apply bcrypt_compare_sound; auto with auth.
Qed.

(** (C14) Hashing one password twice with two different salts gives two
    different stored strings, and [bcrypt.compare] accepts the password
    against both. *)
Theorem hash_twice_distinct `{EksBlowfish} pw rounds s1 s2 :
  valid_seed s1 -> valid_seed s2 -> s1 <> s2 ->
  exists h1 h2,
    bcrypt_hash pw (gen_salt rounds s1) = Ok h1 /\ bcrypt_hash pw (gen_salt rounds s2) = Ok h2 /\
    h1 <> h2 /\ bcrypt_compare pw h1 = true /\ bcrypt_compare pw h2 = true.
Proof.
  intros H1 H2 Hne. rewrite !bcrypt_hash_gen_salt by done. do 2 eexists. split_and!; [done|done| | |].
  - intros Heq. apply Hne.
    pose proof (parse_hash_string "b" (clamp_rounds rounds) s1 pw
                  valid_minor_b (clamp_rounds_range rounds) H1) as P1.
    rewrite Heq, parse_hash_string in P1 by auto with auth. congruence.
  - apply bcrypt_compare_hash; auto with auth.
  - apply bcrypt_compare_hash; auto with auth.
Qed.

(** ** A symbolic cipher

    An instance of [EksBlowfish] that satisfies the collision law, used to
    run the model on concrete inputs: the digest spells out the binary code
    ([pos_bits], see [Prelude]) of its arguments. *)
#[export] Instance symbolic_eks : EksBlowfish :=
  fun n s k => pos_bits (encode (n, s, k)).

#[export] Instance symbolic_eks_inj : EksBlowfishInj.
Proof.
  intros n s k1 k2 Heq. apply pos_bits_inj, (inj encode) in Heq. congruence.
Qed.

Definition seed_a : list Z := map Z.of_nat (seq 0 16).
Definition seed_b : list Z := map Z.of_nat (seq 16 16).

Lemma hash_twice_distinct_witness :
  exists h1 h2,
    bcrypt_hash "s3cret!" (gen_salt 10 seed_a) = Ok h1 /\
    bcrypt_hash "s3cret!" (gen_salt 10 seed_b) = Ok h2 /\
    h1 <> h2 /\ bcrypt_compare "s3cret!" h1 = true /\ bcrypt_compare "s3cret!" h2 = true.
Proof.
  apply hash_twice_distinct;
    [split; [apply (bool_decide_unpack _); vm_compute; reflexivity | reflexivity]..
    | vm_compute; discriminate].
Defined.
