(* ===== verification/Store.v ===== *)
(** * The MongoDB collections and the process state

    The sources reach MongoDB through Mongoose models ([User], [Task]).  A
    collection is modelled as its documents in natural (insertion) order,
    each with its [_id]; [findOne] returns the first match, as MongoDB does
    on a collection scan.  A unique index ([unique: true] on
    [User.username]) is built by Mongoose in the background after the model
    is compiled ([autoIndex]); [c_index] records whether it exists, and an
    insertion is refused with the duplicate key error only when it does.

    [world] is everything the handlers share: both collections, the
    ObjectId generator, the entropy stream [crypto.randomBytes] draws from,
    the clock ([Date.now()]) and [process.env.JWT_SECRET].  It is
    parameterised by the two document types, so that an operation written
    for any task type cannot touch the tasks. *)

From S2P Require Import Prelude JsValue.
From stdpp Require Import pretty.
From Stdlib Require Import Ascii.

(** ** Collections *)

Definition oid := nat.

(** An [_id] is sent and received as its string spelling (here decimal);
    [parse_oid] is the cast of a route parameter back to an [_id], which
    accepts exactly the spellings of ids. *)
Definition oid_string (i : oid) : string := pretty (N.of_nat i).

Definition digit_value (c : ascii) : option N :=
  let n := nat_of_ascii c in
  if Nat.leb 48 n && Nat.leb n 57 then Some (N.of_nat (n - 48)) else None.

Fixpoint digits_value (acc : N) (s : string) : option N :=
  match s with
  | EmptyString => Some acc
  | String c s' => d ← digit_value c; digits_value (acc * 10 + d)%N s'
  end.

Definition parse_oid (s : string) : option oid :=
  n ← digits_value 0 s;
  let i := N.to_nat n in
  if String.eqb (oid_string i) s then Some i else None.

Record collection (D : Type) := mk_collection {
  c_docs : list (oid * D);
  c_index : bool
}.
Arguments mk_collection {D} _ _.
Arguments c_docs {D} _.
Arguments c_index {D} _.

Section Collection.
Context {D : Type}.
Implicit Types (c : collection D) (d : D) (p : D -> bool).

Definition empty_collection : collection D := mk_collection [] false.

(** [Model.findOne(filter)]: the first document in natural order. *)
Definition find_one p c : option (oid * D) :=
  find (fun '(_, d) => p d) (c_docs c).

(** [Model.find(filter)] *)
Definition find_all p c : list (oid * D) :=
  filter (fun '(_, d) => p d) (c_docs c).

(** [Model.findById(id)] *)
Definition find_by_id (i : oid) c : option D :=
  snd <$> find (fun '(j, _) => bool_decide (i = j)) (c_docs c).

(** [insertOne]: with a unique index on [key], a document whose key is
    already present is refused with MongoDB's E11000 error. *)
Definition insert_doc (key : option (D -> string)) (i : oid) d c
    : result (collection D) exn :=
  match key with
  | Some k =>
      if c_index c && existsb (fun '(_, d') => String.eqb (k d') (k d)) (c_docs c)
      then Err (DuplicateKeyError (k d))
      else Ok (mk_collection (c_docs c ++ [(i, d)]) (c_index c))
  | None => Ok (mk_collection (c_docs c ++ [(i, d)]) (c_index c))
  end.

(** [findByIdAndUpdate] / [findByIdAndDelete] on the stored list. *)
Definition replace_doc (i : oid) d c : collection D :=
  mk_collection (map (fun '(j, d') => if bool_decide (i = j) then (j, d) else (j, d'))
                     (c_docs c)) (c_index c).

Definition delete_doc (i : oid) c : collection D :=
  mk_collection (filter (fun '(j, _) => negb (bool_decide (i = j))) (c_docs c)) (c_index c).

(** Building the unique index fails (and leaves no index) when the
    collection already holds two documents with one key. *)
Definition keys (k : D -> string) c : list string := map (fun '(_, d) => k d) (c_docs c).

Definition build_index (k : D -> string) c : collection D :=
  if bool_decide (NoDup (keys k c)) then mk_collection (c_docs c) true else c.

(** The invariant the unique index is meant to keep. *)
Definition keys_unique (k : D -> string) c : Prop := NoDup (keys k c).
End Collection.

(** ** The shared state of the process *)

Record world (U T : Type) := mk_world {
  w_users : collection U;
  w_tasks : collection T;
  w_next_oid : oid;
  w_entropy : nat -> list Z;
  w_draws : nat;
  w_clock : Z;
  w_secret : option string
}.
Arguments mk_world {U T} _ _ _ _ _ _ _.
Arguments w_users {U T} _.
Arguments w_tasks {U T} _.
Arguments w_next_oid {U T} _.
Arguments w_entropy {U T} _.
Arguments w_draws {U T} _.
Arguments w_clock {U T} _.
Arguments w_secret {U T} _.

Section World.
Context {U T : Type}.
Implicit Types (w : world U T).

Definition set_users (c : collection U) w : world U T :=
  mk_world c (w_tasks w) (w_next_oid w) (w_entropy w) (w_draws w) (w_clock w) (w_secret w).

Definition set_tasks (c : collection T) w : world U T :=
  mk_world (w_users w) c (w_next_oid w) (w_entropy w) (w_draws w) (w_clock w) (w_secret w).

Lemma set_tasks_proj (c : collection T) w :
  w_tasks (set_tasks c w) = c /\ w_users (set_tasks c w) = w_users w /\
  w_next_oid (set_tasks c w) = w_next_oid w.
Proof. done. Qed.

(** [new mongoose.Types.ObjectId()] *)
Definition fresh_oid : ste (world U T) exn oid :=
  fun w => (Ok (w_next_oid w),
            mk_world (w_users w) (w_tasks w) (S (w_next_oid w)) (w_entropy w)
                     (w_draws w) (w_clock w) (w_secret w)).

(** [crypto.randomBytes(16)] *)
Definition random_bytes : ste (world U T) exn (list Z) :=
  fun w => (Ok (w_entropy w (w_draws w)),
            mk_world (w_users w) (w_tasks w) (w_next_oid w) (w_entropy w)
                     (S (w_draws w)) (w_clock w) (w_secret w)).

(** [Date.now()] *)
Definition now_ms : ste (world U T) exn Z := ste_gets w_clock.
End World.

(** ** Frame relations

    What a handler leaves alone, as preorders on worlds for
    [ste_preserves]: the tasks and the users. *)
Section Frames.
Context {U T : Type}.
Implicit Types (w : world U T).

Definition same_tasks w w' : Prop := w_tasks w' = w_tasks w.
Definition same_users w w' : Prop := w_users w' = w_users w.

#[export] Instance same_tasks_preorder : PreOrder same_tasks.
Proof. split; [by intros ?|intros ??? H1 H2; unfold same_tasks in *; congruence]. Qed.
#[export] Instance same_users_preorder : PreOrder same_users.
Proof. split; [by intros ?|intros ??? H1 H2; unfold same_users in *; congruence]. Qed.

Lemma fresh_oid_preserves (R : relation (world U T)) :
  (forall w, R w (mk_world (w_users w) (w_tasks w) (S (w_next_oid w)) (w_entropy w)
                           (w_draws w) (w_clock w) (w_secret w))) ->
  ste_preserves R fresh_oid.
Proof. intros HR w. apply HR. Qed.

Lemma random_bytes_preserves (R : relation (world U T)) :
  (forall w, R w (mk_world (w_users w) (w_tasks w) (w_next_oid w) (w_entropy w)
                           (S (w_draws w)) (w_clock w) (w_secret w))) ->
  ste_preserves R random_bytes.
Proof. intros HR w. apply HR. Qed.
End Frames.

#[export] Hint Extern 1 (ste_preserves _ fresh_oid) =>
  apply fresh_oid_preserves; intros; first [done | split_and!; done | eauto] : auth.
#[export] Hint Extern 1 (ste_preserves _ random_bytes) =>
  apply random_bytes_preserves; intros; first [done | split_and!; done | eauto] : auth.

(** ** Lemmas on collections *)

Section CollectionLemmas.
Context {D : Type}.
Implicit Types (c : collection D) (d : D).

Lemma find_one_Some p c i d :
  find_one p c = Some (i, d) -> (i, d) ∈ c_docs c /\ p d = true.
Proof.
  unfold find_one. intros Hf.
  pose proof (find_some _ _ Hf) as [Hin Hp]. split; [|done].
  by apply list_elem_of_In.
Qed.

Lemma find_one_None p c :
  find_one p c = None -> forall i d, (i, d) ∈ c_docs c -> p d = false.
Proof.
  unfold find_one. intros Hf i d Hin.
  apply list_elem_of_In in Hin. exact (find_none _ _ Hf (i, d) Hin).
Qed.

(** The first match of a collection whose only match is the last
    document. *)
Lemma find_one_app_last (p : D -> bool) c i d idx :
  (forall j e, (j, e) ∈ c_docs c -> p e = false) -> p d = true ->
  find_one p (mk_collection (c_docs c ++ [(i, d)]) idx) = Some (i, d).
Proof.
  intros Hnone Hd. unfold find_one. simpl.
  induction (c_docs c) as [|[j e] l IH]; simpl; [by rewrite Hd|].
  rewrite (Hnone j e) by (left). apply IH.
  intros j' e' Hin. apply (Hnone j' e'). by right.
Qed.

Lemma insert_doc_docs key i d c c' :
  insert_doc key i d c = Ok c' -> c_docs c' = c_docs c ++ [(i, d)] /\ c_index c' = c_index c.
Proof.
  unfold insert_doc. destruct key as [k|]; [destruct (_ && _)|]; by intros [= <-].
Qed.

(** With the index built, an insertion keeps the keys unique. *)
Lemma insert_doc_unique k i d c c' :
  c_index c = true -> keys_unique k c ->
  insert_doc (Some k) i d c = Ok c' -> keys_unique k c'.
Proof.
  unfold insert_doc, keys_unique, keys. intros Hidx Hu.
  rewrite Hidx. simpl. destruct (existsb _ _) eqn:Hex; [discriminate|].
  intros [= <-]. simpl. rewrite map_app. simpl.
  apply NoDup_app. split; [done|]. split; [|apply NoDup_singleton].
  intros x Hx Hx'. apply list_elem_of_singleton in Hx'. subst x.
  apply list_elem_of_In, in_map_iff in Hx as [[j d'] [Hk Hin]].
  enough (existsb (fun '(_, d'') => String.eqb (k d'') (k d)) (c_docs c) = true)
    by congruence.
  apply existsb_exists. exists (j, d'). split; [done|]. by apply String.eqb_eq.
Qed.

Lemma build_index_docs k c : c_docs (build_index k c) = c_docs c.
Proof. unfold build_index. by case_bool_decide. Qed.

(** The index exists after building only when the keys were unique. *)
Lemma build_index_sound k c :
  c_index (build_index k c) = true -> c_index c = true \/ keys_unique k c.
Proof. unfold build_index. case_bool_decide; auto. Qed.
(** [findById] after an insertion of a fresh id, a replacement and a
    deletion. *)
Lemma find_by_id_app_fresh i d c idx :
  (forall j e, (j, e) ∈ c_docs c -> j <> i) ->
  find_by_id i (mk_collection (c_docs c ++ [(i, d)]) idx) = Some d.
Proof.
  intros Hfresh. unfold find_by_id. simpl.
  induction (c_docs c) as [|[j e] l IH]; simpl.
  - by rewrite bool_decide_true.
  - rewrite bool_decide_false by (intros <-; by apply (Hfresh i e); [left|]).
    apply IH. intros j' e' Hin. apply (Hfresh j' e'). by right.
Qed.

Lemma find_by_id_delete i c : find_by_id i (delete_doc i c) = None.
Proof.
  unfold find_by_id, delete_doc. simpl.
  induction (c_docs c) as [|[j e] l IH]; [done|]. rewrite filter_cons.
  case_decide as Hd; [|exact IH].
  simpl. case_bool_decide as Hij; [|exact IH].
  by destruct Hd.
Qed.

Lemma find_by_id_replace i d d' c :
  find_by_id i c = Some d -> find_by_id i (replace_doc i d' c) = Some d'.
Proof.
  unfold find_by_id, replace_doc. simpl.
  induction (c_docs c) as [|[j e] l IH]; [done|]. cbn [map find].
  destruct (decide (i = j)) as [<-|Hne].
  - rewrite !bool_decide_true by done. done.
  - rewrite !bool_decide_false by done. exact IH.
Qed.

Lemma delete_doc_sublist i c : c_docs (delete_doc i c) `sublist_of` c_docs c.
Proof. apply sublist_filter. Qed.

Lemma find_by_id_Some i d c : find_by_id i c = Some d -> (i, d) ∈ c_docs c.
Proof.
  unfold find_by_id. destruct (find _ _) as [[j e]|] eqn:E; [|done].
  simpl. intros [= ->]. apply find_some in E as [Hin Hj].
  apply bool_decide_eq_true in Hj as ->. by apply list_elem_of_In.
Qed.
End CollectionLemmas.

(** ** The spelling of ids *)

Lemma pretty_N_go_app x s : pretty_N_go x s = pretty_N_go x "" +:+ s.
Proof.
  revert s. induction (N.lt_wf_0 x) as [x _ IH]; intros s.
  destruct (decide (x = 0)%N) as [->|Hx]; [by rewrite !pretty_N_go_0|].
  rewrite !(pretty_N_go_step x) by lia.
  assert (Hlt : (x `div` 10 < x)%N) by (apply N.div_lt; lia).
  rewrite (IH _ Hlt (String _ s)), (IH _ Hlt (String _ "")).
  by rewrite <-string_app_assoc.
Qed.

Lemma digits_value_app acc s1 s2 :
  digits_value acc (s1 +:+ s2) = digits_value acc s1 ≫= fun a => digits_value a s2.
Proof.
  revert acc. induction s1 as [|c s1 IH]; intros acc; [done|].
  rewrite string_app_cons. simpl. destruct (digit_value c); simpl; [apply IH|done].
Qed.

Lemma digit_value_char d : (d < 10)%N -> digit_value (pretty_N_char d) = Some d.
Proof.
  intros Hd.
  assert (d = 0 \/ d = 1 \/ d = 2 \/ d = 3 \/ d = 4 \/ d = 5 \/ d = 6 \/ d = 7 \/
          d = 8 \/ d = 9)%N as Hc by lia.
  by repeat destruct Hc as [->|Hc]; subst.
Qed.

Lemma digits_value_pretty x : digits_value 0 (pretty_N_go x "") = Some x.
Proof.
  induction (N.lt_wf_0 x) as [x _ IH].
  destruct (decide (x = 0)%N) as [->|Hx]; [done|].
  rewrite pretty_N_go_step, pretty_N_go_app, digits_value_app by lia.
  rewrite IH by (apply N.div_lt; lia). simpl.
  rewrite digit_value_char by (apply N.mod_lt; lia). simpl.
  f_equal. rewrite (N.div_mod x 10) at 3 by lia. lia.
Qed.

(** The route parameter that spells an id casts back to it, and only
    spellings of ids cast. *)
Lemma parse_oid_string i : parse_oid (oid_string i) = Some i.
Proof.
  unfold parse_oid.
  assert (Hv : digits_value 0 (oid_string i) = Some (N.of_nat i)).
  { unfold oid_string, pretty, pretty_N. case_decide as H0; [by rewrite H0|].
    apply digits_value_pretty. }
  rewrite Hv. simpl. rewrite Nat2N.id, String.eqb_refl. done.
Qed.

Lemma parse_oid_Some s i : parse_oid s = Some i -> s = oid_string i.
Proof.
  unfold parse_oid. destruct (digits_value 0 s) as [n|]; simpl; [|done].
  destruct (String.eqb_spec (oid_string (N.to_nat n)) s); [|done].
  intros [= <-]. done.
Qed.

(** ** A fresh process, for running the model

    Empty collections, no index built yet, the clock at
    2023-11-14T22:13:20Z, and an entropy stream whose [i]-th draw is the
    16 bytes [16 i, ..., 16 i + 15] (mod 256). *)
Definition demo_entropy (i : nat) : list Z :=
  map (fun j => Z.of_nat ((i * 16 + j) mod 256)) (seq 0 16).

Definition fresh_world {U T} (secret : option string) : world U T :=
  mk_world empty_collection empty_collection 0 demo_entropy 0 1700000000000%Z secret.
