(* ===== verification/UserModel.v ===== *)
(** * The [User] model: src/models/User.js

    The schema has two [String] paths, [username] (required, unique) and
    [password] (required).  A pre-save hook replaces a modified password by
    its bcrypt hash with a fresh salt of cost 10; [comparePassword] checks a
    candidate against the stored hash.  This file models:

    - [user_doc], a stored user, and [user_draft], the document
      [new User({ username, password })] builds: each path holds the result
      of Mongoose's cast, and [d_pw_modified] is [isModified('password')];
    - [user_save], [user.save()]: Mongoose's validation (which runs before
      the user's hooks), the pre-save hook [user_presave], then the insertion
      into the collection, where the unique index refuses a duplicate name;
    - [user_find_one], [User.findOne({ username })], with Mongoose's cast of
      the query value: a string matches by equality, an array becomes [$in],
      an object whose keys are operators ([$eq], [$ne], [$in], [$nin],
      [$gt], [$gte], [$lt], [$lte], [$exists]) is a conjunction of
      conditions; other operators ([$regex], [$not], ...) are not modelled
      and fail like an unknown operator;
    - [compare_password], [user.comparePassword(candidate)].

    The operations are stated for any [PasswordHasher] and any task type. *)

From S2P Require Import Prelude JsValue Bcrypt Store.

(** ** Documents *)

Record user_doc := mk_user {
  username : string;
  password : string
}.

#[export] Instance user_doc_eq_dec : EqDecision user_doc.
Proof. solve_decision. Defined.

(** [new User({ username, password })]: the cast of each path, kept until
    [save] reports it. *)
Record user_draft := mk_draft {
  d_id : oid;
  d_username : result (option string) exn;
  d_password : result (option string) exn;
  d_pw_modified : bool
}.

(** ** Validation: [required: true] on a [String] path rejects a missing
    value and the empty string; a failed cast is reported as a validation
    error of its path. *)
Definition validate_required (path : string) (r : result (option string) exn)
    : result string exn :=
  match r with
  | Ok (Some s) => if String.eqb s "" then Err (ValidationError path) else Ok s
  | _ => Err (ValidationError path)
  end.

Definition validate_user (d : user_draft) : result user_doc exn :=
  match validate_required "username" (d_username d), validate_required "password" (d_password d) with
  | Ok u, Ok p => Ok (mk_user u p)
  | Err e, _ => Err e
  | _, Err e => Err e
  end.

(** ** Queries on [username] *)

Inductive str_cond : Type :=
| CEq (v : option string)
| CNe (v : option string)
| CIn (l : list (option string))
| CNin (l : list (option string))
| CGt (v : option string)
| CGte (v : option string)
| CLt (v : option string)
| CLte (v : option string)
| CExists (b : bool).

(** [castForQuery] of a single value: [null] stays [null]. *)
Definition cast_query_value (v : jsval) : result (option string) exn :=
  cast_string "username" v.

Fixpoint cast_query_values (l : list jsval) : result (list (option string)) exn :=
  match l with
  | [] => Ok []
  | v :: l' =>
      match cast_query_value v, cast_query_values l' with
      | Ok x, Ok xs => Ok (x :: xs)
      | Err e, _ | _, Err e => Err e
      end
  end.

Definition as_list (v : jsval) : list jsval :=
  match v with JArray l => l | _ => [v] end.

Definition is_operator (k : string) : bool := String.prefix "$" k.

(** The [$conditionalHandlers] of a [String] path. *)
Definition cast_operator (k : string) (v : jsval) : result str_cond exn :=
  let one f := result_map f (cast_query_value v) in
  let many f := result_map f (cast_query_values (as_list v)) in
  if String.eqb k "$eq" then one CEq
  else if String.eqb k "$ne" then one CNe
  else if String.eqb k "$in" then many CIn
  else if String.eqb k "$nin" then many CNin
  else if String.eqb k "$gt" then one CGt
  else if String.eqb k "$gte" then one CGte
  else if String.eqb k "$lt" then one CLt
  else if String.eqb k "$lte" then one CLte
  else if String.eqb k "$exists" then Ok (CExists (truthy v))
  else Err (CastError "username").

Fixpoint cast_operators (ks : list string) (fs : list (string * jsval))
    : result (list str_cond) exn :=
  match ks with
  | [] => Ok []
  | k :: ks' =>
      match cast_operator k (default JUndefined (obj_get fs k)), cast_operators ks' fs with
      | Ok c, Ok cs => Ok (c :: cs)
      | Err e, _ | _, Err e => Err e
      end
  end.

(** [cast(schema, { username: v })] for the [username] path. *)
Definition cast_username_query (v : jsval) : result (list str_cond) exn :=
  match v with
  | JArray l => result_map (fun xs => [CIn xs]) (cast_query_values l)
  | JObject fs =>
      if existsb (fun '(k, _) => is_operator k) fs
      then cast_operators (remove_dups (map fst fs)) fs
      else result_map (fun x => [CEq x]) (cast_query_value v)
  | _ => result_map (fun x => [CEq x]) (cast_query_value v)
  end.

(** MongoDB's matching of a stored (non-null) string; [null] in a query
    matches only a missing field. *)
Definition opt_eqb (s : string) (v : option string) : bool :=
  match v with Some t => String.eqb s t | None => false end.

Definition opt_cmp (s : string) (v : option string) (ok : comparison -> bool) : bool :=
  match v with Some t => ok (String.compare s t) | None => false end.

Definition cond_matches (s : string) (c : str_cond) : bool :=
  match c with
  | CEq v => opt_eqb s v
  | CNe v => negb (opt_eqb s v)
  | CIn l => existsb (opt_eqb s) l
  | CNin l => negb (existsb (opt_eqb s) l)
  | CGt v => opt_cmp s v (fun c => bool_decide (c = Gt))
  | CGte v => opt_cmp s v (fun c => negb (bool_decide (c = Lt)))
  | CLt v => opt_cmp s v (fun c => bool_decide (c = Lt))
  | CLte v => opt_cmp s v (fun c => negb (bool_decide (c = Gt)))
  | CExists b => b
  end.

Definition query_matches (q : list str_cond) (u : user_doc) : bool :=
  forallb (cond_matches (username u)) q.

Section UserOps.
Context `{PH : PasswordHasher} {T : Type}.

Local Abbreviation W := (world user_doc T).

(** [new User({ username, password })] *)
Definition new_user (uname pw : jsval) : ste W exn user_draft :=
  i <- fresh_oid ;;
  ste_ret (mk_draft i (cast_string "username" uname) (cast_string "password" pw)
                    (match pw with JUndefined => false | _ => true end)).

(** The pre-save hook:
    [if (!this.isModified('password')) return next();
     const salt = await bcrypt.genSalt(10);
     this.password = await bcrypt.hash(this.password, salt);] *)
Definition user_presave (u : user_doc) (modified : bool) : ste W exn user_doc :=
  if negb modified then ste_ret u
  else
    seed <- random_bytes ;;
    let salt := ph_gen_salt 10 seed in
    h <- ste_lift (ph_hash (password u) salt) ;;
    ste_ret (mk_user (username u) h).

(** [await user.save()] *)
Definition user_save (d : user_draft) : ste W exn user_doc :=
  u <- ste_lift (validate_user d) ;;
  u' <- user_presave u (d_pw_modified d) ;;
  w <- ste_get ;;
  c' <- ste_lift (insert_doc (Some username) (d_id d) u' (w_users w)) ;;
  ste_put (set_users c' w) ;;;
  ste_ret u'.

(** [await User.findOne({ username })] *)
Definition user_find_one (uname : jsval) : ste W exn (option (oid * user_doc)) :=
  q <- ste_lift (cast_username_query uname) ;;
  w <- ste_get ;;
  ste_ret (find_one (query_matches q) (w_users w)).

(** Mongoose's background [createIndex] for [unique: true]. *)
Definition ensure_user_index : ste W exn unit :=
  w <- ste_get ;;
  ste_put (set_users (build_index username (w_users w)) w).
End UserOps.

(** [await user.comparePassword(candidatePassword)], that is
    [bcrypt.compare(candidatePassword, this.password)]: node's bcrypt throws
    when the candidate is not a string. *)
Definition compare_password `{PasswordHasher} (u : user_doc) (candidate : jsval)
    : result bool exn :=
  match candidate with
  | JString pw => Ok (ph_compare pw (password u))
  | JUndefined | JNull => Err (BcryptError "data and hash arguments required")
  | _ => Err (BcryptError "data must be a string and hash must be a string")
  end.

(** ** The existence check and the insertion agree on the name

    When [findOne({ username })] casts its filter without error and the
    schema casts [username] to a string [s], the filter is the equality
    [{ username: s }]: an object with an [_id] (the only object the
    schema casts) is refused by the query cast as soon as one of its keys
    is an operator. *)

Lemma cast_operators_Ok ks fs q k :
  cast_operators ks fs = Ok q -> k ∈ ks -> is_ok (cast_operator k (default JUndefined (obj_get fs k))) = true.
Proof.
  revert q. induction ks as [|k' ks IH]; intros q Hq Hk; [by apply elem_of_nil in Hk|].
  simpl in Hq. destruct (cast_operator k' _) eqn:E1, (cast_operators ks fs) eqn:E2; try done.
  apply elem_of_cons in Hk as [->|Hk]; [by rewrite E1|]. by eapply IH.
Qed.

Lemma cast_username_query_key uname q s :
  cast_username_query uname = Ok q -> cast_string "username" uname = Ok (Some s) ->
  q = [CEq (Some s)].
Proof.
  unfold cast_username_query, cast_query_value.
  destruct uname as [| | | | |l|fs]; intros Hq Hc; try (rewrite Hc in Hq; by injection Hq as <-).
  - discriminate.
  - destruct (existsb _ fs) eqn:Hop; [|rewrite Hc in Hq; by injection Hq as <-].
    exfalso. simpl in Hc. destruct (obj_get fs "_id") as [v|] eqn:Hid; [|done].
    pose proof (cast_operators_Ok _ _ _ "_id" Hq) as Hk.
    rewrite Hid in Hk. simpl in Hk. destruct v; try done.
    enough (false = true) by done.
    apply Hk, elem_of_remove_dups. by eapply obj_get_Some_in.
Qed.

(** ** Frame conditions

    [save()] writes the users (and draws a salt); nothing else.  Any
    preorder that such writes respect is respected by [save()]. *)
Section UserFrames.
Context `{PasswordHasher} {T : Type}.

Local Abbreviation W := (world user_doc T).

Lemma user_save_preserves (R : relation W) `{!PreOrder R} d :
  (forall w, R w (mk_world (w_users w) (w_tasks w) (w_next_oid w) (w_entropy w)
                           (S (w_draws w)) (w_clock w) (w_secret w))) ->
  (forall w c, R w (set_users c w)) ->
  ste_preserves R (user_save d).
Proof.
  intros Hdraw Hset. unfold user_save.
  refine (preserves_bind _ _ _ _ _); [eauto with auth|intros u].
  refine (preserves_bind _ _ _ _ _); [unfold user_presave; ste_preserves_solve|intros u'].
  intros s. ste_unfold. cbn -[insert_doc set_users].
  destruct (insert_doc (Some username) (d_id d) u' (w_users s)); [apply Hset|reflexivity].
Qed.
(** What [save()] does to the users: nothing, or it appends the draft's
    document under the draft's [_id], its password hashed when the path
    was modified. *)
Lemma user_save_users d (w : W) :
  w_users (snd (user_save d w)) = w_users w \/
  exists s p h,
    d_username d = Ok (Some s) /\ d_password d = Ok (Some p) /\ s <> "" /\
    (if d_pw_modified d then exists seed, ph_hash p (ph_gen_salt 10 seed) = Ok h else h = p) /\
    w_users (snd (user_save d w)) =
      mk_collection (c_docs (w_users w) ++ [(d_id d, mk_user s h)]) (c_index (w_users w)).
Proof.
  unfold user_save, validate_user, validate_required, user_presave, random_bytes.
  ste_unfold. cbn -[insert_doc ph_hash].
  destruct (d_username d) as [[s|]|] eqn:Hu; cbn -[insert_doc ph_hash]; [|by left|by left].
  destruct (String.eqb_spec s ""); cbn -[insert_doc ph_hash]; [by left|].
  destruct (d_password d) as [[p|]|] eqn:Hp; cbn -[insert_doc ph_hash]; [|by left|by left].
  destruct (String.eqb_spec p ""); cbn -[insert_doc ph_hash]; [by left|].
  destruct (d_pw_modified d); cbn -[insert_doc ph_hash].
  - destruct (ph_hash p _) as [h|] eqn:Hh; cbn -[insert_doc]; [|by left].
    destruct (insert_doc _ _ _ _) as [c|] eqn:Hi; [|by left]. right.
    apply insert_doc_docs in Hi as [Hd Hx]. exists s, p, h. split_and!; eauto.
    cbn. destruct c; simpl in *; by subst.
  - destruct (insert_doc _ _ _ _) as [c|] eqn:Hi; [|by left]. right.
    apply insert_doc_docs in Hi as [Hd Hx]. exists s, p, p. split_and!; eauto.
    cbn. destruct c; simpl in *; by subst.
Qed.
(** The users after [save()]: unchanged, or the result of one insertion
    into the users [save()] started from. *)
Lemma user_save_inserts d (w : W) :
  w_users (snd (user_save d w)) = w_users w \/
  exists u, insert_doc (Some username) (d_id d) u (w_users w) = Ok (w_users (snd (user_save d w))).
Proof.
  unfold user_save, user_presave, random_bytes. ste_unfold.
  cbn -[insert_doc ph_hash validate_user].
  destruct (validate_user d) as [u|]; cbn -[insert_doc ph_hash]; [|by left].
  destruct (d_pw_modified d); cbn -[insert_doc ph_hash];
    [destruct (ph_hash _ _); cbn -[insert_doc]; [|by left]|];
    (destruct (insert_doc _ _ _ _) as [c|] eqn:Hi; [right; eexists; exact Hi|by left]).
Qed.

(** A save that fails leaves the users as they were: validation, the
    hook and the insertion fail before anything is written. *)
Lemma user_save_err_users d (w : W) e :
  fst (user_save d w) = Err e -> w_users (snd (user_save d w)) = w_users w.
Proof.
  unfold user_save, user_presave, random_bytes. ste_unfold.
  cbn -[insert_doc ph_hash validate_user].
  destruct (validate_user d) as [u|]; cbn -[insert_doc ph_hash]; [|done].
  destruct (d_pw_modified d); cbn -[insert_doc ph_hash];
    [destruct (ph_hash _ _); cbn -[insert_doc]; [|done]|];
    (destruct (insert_doc _ _ _ _) as [c|]; done).
Qed.

(** A save that succeeds appends exactly the saved document. *)
Lemma user_save_Ok d (w : W) u :
  fst (user_save d w) = Ok u -> c_docs (w_users (snd (user_save d w))) = c_docs (w_users w) ++ [(d_id d, u)].
Proof.
  unfold user_save, user_presave, random_bytes. ste_unfold.
  cbn -[insert_doc ph_hash validate_user].
  destruct (validate_user d) as [u0|]; cbn -[insert_doc ph_hash]; [|done].
  destruct (d_pw_modified d); cbn -[insert_doc ph_hash];
    [destruct (ph_hash _ _); cbn -[insert_doc]; [|done]|];
    (destruct (insert_doc _ _ _ _) as [c|] eqn:Hi; [|done]); intros [= <-]; cbn;
    by apply insert_doc_docs in Hi as [-> _].
Qed.
End UserFrames.

