(* ===== verification/Jwt.v ===== *)
(** * The jsonwebtoken library as the sources call it

    [loginUser] calls [jwt.sign({ id: user._id }, process.env.JWT_SECRET,
    { expiresIn: '24h' })]; the authorization gate calls [jwt.verify(token,
    secret)].  A token is a header (its algorithm), a payload
    [{ id, iat, exp }] and a signature, an HMAC of the encoded header and
    payload under the secret.  The HMAC ([Hmac]) and the compact
    serialisation ([JwtCodec], with its decode-after-encode law) are
    abstract.  What is modelled is the library's logic:

    - [jwt_sign] refuses a falsy secret, sets [iat] to
      [Math.floor(Date.now() / 1000)] and [exp] to [iat + 86400] (["24h"]);
    - [jwt_verify] refuses a falsy secret, an undecodable token, an
      algorithm outside the HMAC family a string secret allows, a signature
      that differs from the recomputed one, and a token with
      [floor(now / 1000) >= exp] ([TokenExpiredError]). *)

From S2P Require Import Prelude JsValue Store.

Local Open Scope Z_scope.

Record jwt_payload := mk_payload {
  p_id : oid;
  p_iat : Z;
  p_exp : Z
}.

Record jwt := mk_jwt {
  j_alg : string;
  j_payload : jwt_payload;
  j_sig : list Z
}.

#[export] Instance jwt_payload_eq_dec : EqDecision jwt_payload.
Proof. solve_decision. Defined.
#[export] Instance jwt_eq_dec : EqDecision jwt.
Proof. solve_decision. Defined.

(** HMAC: algorithm, key, signing input to signature bytes. *)
Class Hmac := hmac : string -> string -> string -> list Z.

Class JwtCodec := {
  signing_input : string -> jwt_payload -> string;  (* b64url(header).b64url(payload) *)
  jwt_encode : jwt -> string;
  jwt_decode : string -> option jwt
}.

Class JwtCodecLaws `{JwtCodec} := {
  jwt_decode_encode t : jwt_decode (jwt_encode t) = Some t;
  jwt_encode_nonempty t : jwt_encode t <> ""
}.

(** [expiresIn: '24h'], in seconds. *)
Definition token_ttl : Z := 86400.

Definition allowed_algs : list string := ["HS256"; "HS384"; "HS512"].

Definition secret_ok (secret : option string) : option string :=
  match secret with
  | Some k => if String.eqb k "" then None else Some k
  | None => None
  end.

Section JwtOps.
Context `{Hmac} `{JwtCodec}.

Definition sign_payload (alg k : string) (p : jwt_payload) : jwt :=
  mk_jwt alg p (hmac alg k (signing_input alg p)).

(** [jwt.sign({ id }, secret, { expiresIn: '24h' })] at time [now]
    (milliseconds). *)
Definition jwt_sign (id : oid) (secret : option string) (now : Z) : result string exn :=
  match secret_ok secret with
  | None => Err (JwtError "Error" "secretOrPrivateKey must have a value")
  | Some k =>
      let iat := now / 1000 in
      Ok (jwt_encode (sign_payload "HS256" k (mk_payload id iat (iat + token_ttl))))
  end.

(** [jwt.verify(token, secret)] at time [now] (milliseconds). *)
Definition jwt_verify (token : string) (secret : option string) (now : Z)
    : result jwt_payload exn :=
  match secret_ok secret with
  | None => Err (JwtError "JsonWebTokenError" "secret or public key must be provided")
  | Some k =>
      if String.eqb token "" then Err (JwtError "JsonWebTokenError" "jwt must be provided")
      else
        match jwt_decode token with
        | None => Err (JwtError "JsonWebTokenError" "jwt malformed")
        | Some t =>
            if negb (existsb (String.eqb (j_alg t)) allowed_algs)
            then Err (JwtError "JsonWebTokenError" "invalid algorithm")
            else if negb (bool_decide (j_sig t = hmac (j_alg t) k (signing_input (j_alg t) (j_payload t))))
            then Err (JwtError "JsonWebTokenError" "invalid signature")
            else if now / 1000 >=? p_exp (j_payload t)
            then Err (JwtError "TokenExpiredError" "jwt expired")
            else Ok (j_payload t)
        end
  end.

(** A token with bit [k] of byte [i] of its signature flipped. *)
Definition flip_sig_bit (t : jwt) (i : nat) (k : Z) : jwt :=
  mk_jwt (j_alg t) (j_payload t) (alter (fun b => Z.lxor b (2 ^ k)) i (j_sig t)).
End JwtOps.

(** ** Lemmas *)

Section JwtLemmas.
Context `{Hmac} `{JwtCodec} `{!JwtCodecLaws}.

Lemma jwt_sign_ok id k now :
  k <> "" ->
  jwt_sign id (Some k) now =
    Ok (jwt_encode (sign_payload "HS256" k
          (mk_payload id (now / 1000) (now / 1000 + token_ttl)))).
Proof.
  intros Hk. unfold jwt_sign, secret_ok.
  destruct (String.eqb_spec k ""); [done|reflexivity].
Qed.

(** Verification of a token signed with the same secret: it passes every
    check but the expiry. *)
Lemma jwt_verify_signed alg k p now :
  k <> "" -> alg ∈ allowed_algs ->
  jwt_verify (jwt_encode (sign_payload alg k p)) (Some k) now =
    if now / 1000 >=? p_exp p
    then Err (JwtError "TokenExpiredError" "jwt expired")
    else Ok p.
Proof.
  intros Hk Halg. unfold jwt_verify, secret_ok.
  destruct (String.eqb_spec k ""); [done|].
  destruct (String.eqb_spec (jwt_encode (sign_payload alg k p)) "") as [Hne|];
    [by destruct (jwt_encode_nonempty (sign_payload alg k p))|].
  rewrite jwt_decode_encode. cbn [j_alg j_sig j_payload sign_payload].
  replace (existsb (String.eqb alg) allowed_algs) with true; cycle 1.
  { symmetry. apply existsb_exists. exists alg. split.
    - by apply list_elem_of_In.
    - apply String.eqb_refl. }
  by rewrite bool_decide_true.
Qed.

(** Any other signature fails verification. *)
Lemma jwt_verify_bad_sig t k now :
  k <> "" ->
  j_sig t <> hmac (j_alg t) k (signing_input (j_alg t) (j_payload t)) ->
  exists e, jwt_verify (jwt_encode t) (Some k) now = Err e.
Proof.
  intros Hk Hsig. unfold jwt_verify, secret_ok.
  destruct (String.eqb_spec k ""); [done|].
  destruct (String.eqb_spec (jwt_encode t) ""); [by destruct (jwt_encode_nonempty t)|].
  rewrite jwt_decode_encode.
  destruct (negb (existsb _ _)); [eauto|].
  rewrite bool_decide_false by done. eauto.
Qed.

(** Only a token that decodes, is correctly signed and has not expired
    passes; its payload is the one that was signed. *)
Lemma jwt_verify_Ok token k now p :
  jwt_verify token (Some k) now = Ok p ->
  exists t, jwt_decode token = Some t /\ j_payload t = p /\
    j_sig t = hmac (j_alg t) k (signing_input (j_alg t) p) /\
    now / 1000 < p_exp p.
Proof.
  unfold jwt_verify, secret_ok.
  destruct (String.eqb k ""); [discriminate|].
  destruct (String.eqb token ""); [discriminate|].
  destruct (jwt_decode token) as [t|]; [|discriminate].
  destruct (negb _); [discriminate|].
  case_bool_decide as Hs; [|discriminate].
  destruct (Z.geb_spec (now / 1000) (p_exp (j_payload t))); [discriminate|].
  intros [= <-]. exists t. eauto.
Qed.
End JwtLemmas.

Lemma alter_lxor_neq (l : list Z) (i : nat) (k : Z) :
  (i < length l)%nat -> 0 <= k -> alter (fun b => Z.lxor b (2 ^ k)) i l <> l.
Proof.
  intros Hi Hk Heq.
  destruct (lookup_lt_is_Some_2 l i Hi) as [b Hb].
  assert (Hl : alter (fun b => Z.lxor b (2 ^ k)) i l !! i = Some b) by (by rewrite Heq).
  rewrite list_lookup_alter_eq, Hb in Hl. simpl in Hl.
  apply (Z_lxor_pow2_neq b k Hk). congruence.
Qed.

(** ** Tamper detection and expiry of the tokens [loginUser] issues *)

Section JwtTheorems.
Context `{Hmac} `{JwtCodec} `{!JwtCodecLaws}.

(** The token [jwt.sign] issues for [id] at [now0]. *)
Definition issued (id : oid) (k : string) (now0 : Z) : jwt :=
  sign_payload "HS256" k (mk_payload id (now0 / 1000) (now0 / 1000 + token_ttl)).

(** (C12) [jwt.verify] rejects a token whose signature has any single bit
    flipped, whatever the time. *)
Theorem verify_rejects_bit_flip id k now0 now i b :
  k <> "" -> (i < length (j_sig (issued id k now0)))%nat -> 0 <= b ->
  exists e, jwt_verify (jwt_encode (flip_sig_bit (issued id k now0) i b)) (Some k) now = Err e.
Proof.
  intros Hk Hi Hb. apply jwt_verify_bad_sig; [done|].
  cbn [flip_sig_bit j_alg j_payload j_sig issued sign_payload].
  by apply alter_lxor_neq.
Qed.

(** (C13) The validity window of an issued token: [jwt.verify] under the
    same secret accepts it, with its payload, exactly while
    [floor(now / 1000)] is below [iat + 86400], and rejects it with
    [TokenExpiredError] from then on, its signature still valid. *)
Theorem verify_window id k now0 now :
  k <> "" ->
  jwt_sign id (Some k) now0 = Ok (jwt_encode (issued id k now0)) /\
  jwt_verify (jwt_encode (issued id k now0)) (Some k) now =
    if now / 1000 <? now0 / 1000 + token_ttl
    then Ok (mk_payload id (now0 / 1000) (now0 / 1000 + token_ttl))
    else Err (JwtError "TokenExpiredError" "jwt expired").
Proof.
  intros Hk. split; [by apply jwt_sign_ok|].
  unfold issued. rewrite jwt_verify_signed by (done || by left). simpl.
  destruct (Z.geb_spec (now / 1000) (now0 / 1000 + token_ttl)),
    (Z.ltb_spec (now / 1000) (now0 / 1000 + token_ttl)); done || lia.
Qed.
End JwtTheorems.

(** ** Symbolic instances

    A codec and an HMAC to run the model on concrete inputs: a token is
    the binary spelling of its [encode], and the symbolic HMAC spells its
    arguments' [encode]. *)

#[export] Instance jwt_payload_countable : Countable jwt_payload.
Proof.
  apply (inj_countable' (fun p => (p_id p, p_iat p, p_exp p))
                        (fun '(i, a, e) => mk_payload i a e)).
  by intros [].
Defined.

#[export] Instance jwt_countable : Countable jwt.
Proof.
  apply (inj_countable' (fun t => (j_alg t, j_payload t, j_sig t))
                        (fun '(a, p, s) => mk_jwt a p s)).
  by intros [].
Defined.

#[export] Instance symbolic_codec : JwtCodec := {|
  signing_input alg p := pos_bits (encode (alg, p));
  jwt_encode t := pos_bits (encode t);
  jwt_decode s := bits_pos s ≫= decode
|}.

#[export] Instance symbolic_codec_laws : JwtCodecLaws.
Proof.
  split; intros t; cbn [jwt_encode jwt_decode symbolic_codec].
  - rewrite bits_pos_bits. simpl. apply decode_encode.
  - apply pos_bits_neq_nil.
Qed.

(** A four byte polynomial checksum of the algorithm, key and message. *)
Definition checksum (seed : Z) (s : string) : Z :=
  fold_left (fun acc c => (acc * 131 + Z.of_nat (Ascii.nat_of_ascii c)) mod 4294967296)
            (String.list_ascii_of_string s) seed.

#[export] Instance symbolic_hmac : Hmac :=
  fun alg k m =>
    let h := checksum (checksum (checksum 7 alg) k) m in
    [Z.shiftr h 24; Z.land (Z.shiftr h 16) 255; Z.land (Z.shiftr h 8) 255; Z.land h 255].

(** ** Witnesses *)

Lemma verify_rejects_bit_flip_witness :
  exists e, jwt_verify (jwt_encode (flip_sig_bit (issued 0%nat "jwt-secret" 1700000000000) 0%nat 3))
                       (Some "jwt-secret") 1700000000000 = Err e.
Proof. apply verify_rejects_bit_flip; [discriminate | vm_compute; lia | lia]. Defined.

Lemma verify_window_witness :
  jwt_sign 0%nat (Some "jwt-secret") 1700000000000 =
    Ok (jwt_encode (issued 0%nat "jwt-secret" 1700000000000)) /\
  jwt_verify (jwt_encode (issued 0%nat "jwt-secret" 1700000000000)) (Some "jwt-secret") 1700086400000 =
    if 1700086400000 / 1000 <? 1700000000000 / 1000 + token_ttl
    then Ok (mk_payload 0%nat (1700000000000 / 1000) (1700000000000 / 1000 + token_ttl))
    else Err (JwtError "TokenExpiredError" "jwt expired").
Proof. apply verify_window. discriminate. Defined.
