(* ===== verification/AuthController.v ===== *)
(** * The authentication handlers: src/controllers/authController.js

    [registerUser] and [loginUser] are [async] Express handlers whose whole
    body sits in a [try] whose [catch] answers 500 ["Server error"].  Each is
    modelled as a computation in the state and exception monad over the
    [world]: [ste_catch] is the [try]/[catch], [ste_bind] the sequence of
    [await]s and early [return]s.  [registerUser] is split at its second
    [await] into [register_check] (the field check and [User.findOne]) and
    [register_insert] ([new User] and [save]); [registerUser] runs one after
    the other, and the concurrency model runs them as separate steps. *)

From S2P Require Import Prelude JsValue Bcrypt Store UserModel Jwt.
From stdpp Require Import pretty.
From Stdlib Require Import Ascii.

Local Open Scope Z_scope.

Section AuthController.
Context `{PasswordHasher} `{Hmac} `{JwtCodec} {T : Type}.

Local Abbreviation W := (world user_doc T).

Definition server_error : response := mk_resp 500 (error_json "Server error").

(** What the first part of [registerUser] decides: an early response,
    or the values to insert. *)
Inductive reg_phase : Type :=
| RegRespond (r : response)
| RegInsert (uname pw : jsval).

(** [const { username, password } = req.body;
     if (!username || !password) return res.status(400)...;
     const userExists = await User.findOne({ username });
     if (userExists) return res.status(400)...;] *)
Definition register_check (body : jsval) : ste W exn reg_phase :=
  uname <- ste_lift (js_get body "username") ;;
  pw <- ste_lift (js_get body "password") ;;
  if negb (truthy uname) || negb (truthy pw)
  then ste_ret (RegRespond (mk_resp 400 (error_json "Username and password are required")))
  else
    user_exists <- user_find_one uname ;;
    match user_exists with
    | Some _ => ste_ret (RegRespond (mk_resp 400 (error_json "Username is already taken")))
    | None => ste_ret (RegInsert uname pw)
    end.

(** [const user = new User({ username, password });
     await user.save();
     res.status(201).json({ message: 'User registered successfully' });] *)
Definition register_insert (uname pw : jsval) : ste W exn response :=
  d <- new_user uname pw ;;
  user_save d ;;;
  ste_ret (mk_resp 201 (message_json "User registered successfully")).

Definition register_try (body : jsval) : ste W exn response :=
  ph <- register_check body ;;
  match ph with
  | RegRespond r => ste_ret r
  | RegInsert uname pw => register_insert uname pw
  end.

(** [exports.registerUser] *)
Definition registerUser (body : jsval) : ste W exn response :=
  ste_catch (register_try body) (fun _ => ste_ret server_error).

Definition invalid_credentials : response :=
  mk_resp 400 (error_json "Invalid username or password").

Definition login_json (token : string) : jsval :=
  JObject [("message", JString "Login successful"); ("token", JString token)].

(** The body of [loginUser]'s [try]. *)
Definition login_try (body : jsval) : ste W exn response :=
  uname <- ste_lift (js_get body "username") ;;
  pw <- ste_lift (js_get body "password") ;;
  if negb (truthy uname) || negb (truthy pw)
  then ste_ret (mk_resp 400 (error_json "Username and password are required"))
  else
    found <- user_find_one uname ;;
    match found with
    | None => ste_ret invalid_credentials
    | Some (id, user) =>
        is_match <- ste_lift (compare_password user pw) ;;
        if negb is_match then ste_ret invalid_credentials
        else
          w <- ste_get ;;
          token <- ste_lift (jwt_sign id (w_secret w) (w_clock w)) ;;
          ste_ret (mk_resp 200 (login_json token))
    end.

(** [exports.loginUser] *)
Definition loginUser (body : jsval) : ste W exn response :=
  ste_catch (login_try body) (fun _ => ste_ret server_error).
End AuthController.

(** The body [{ "username": u, "password": p }] of a request. *)
Definition credentials (u p : jsval) : jsval :=
  JObject [("username", u); ("password", p)].

(** ** Running the handlers *)

Section Runs.
Context `{PH : PasswordHasher} `{!PasswordHasherLaws PH} `{Hmac} `{JwtCodec} {T : Type}.

Local Abbreviation W := (world user_doc T).
Implicit Types (w : W) (u p : string).

(** No stored user has the name [u]. *)
Definition no_user_named u w : Prop :=
  forall i d, (i, d) ∈ c_docs (w_users w) -> username d <> u.

(** The world after [registerUser] stored user [u] with hash [h]. *)
Definition after_register w u h : W :=
  mk_world (mk_collection (c_docs (w_users w) ++ [(w_next_oid w, mk_user u h)])
                          (c_index (w_users w)))
           (w_tasks w) (S (w_next_oid w)) (w_entropy w) (S (w_draws w))
           (w_clock w) (w_secret w).

Lemma query_matches_eq u d : query_matches [CEq (Some u)] d = String.eqb (username d) u.
Proof. unfold query_matches. simpl. apply andb_true_r. Qed.

Lemma user_find_one_string u w :
  user_find_one (JString u) w = (Ok (find_one (query_matches [CEq (Some u)]) (w_users w)), w).
Proof. reflexivity. Qed.

Lemma find_one_no_user u w :
  no_user_named u w -> find_one (query_matches [CEq (Some u)]) (w_users w) = None.
Proof.
  intros Hno. unfold find_one.
  destruct (find _ _) as [[i d]|] eqn:E; [|done].
  apply find_some in E as [Hin Hm]. rewrite query_matches_eq in Hm.
  apply String.eqb_eq in Hm. apply list_elem_of_In in Hin. by destruct (Hno i d Hin).
Qed.

Lemma find_one_user u w i d :
  find_one (query_matches [CEq (Some u)]) (w_users w) = Some (i, d) -> username d = u.
Proof.
  intros Hf. apply find_one_Some in Hf as [_ Hm].
  rewrite query_matches_eq in Hm. by apply String.eqb_eq.
Qed.

Lemma no_user_named_index u w :
  no_user_named u w ->
  existsb (fun '(_, d') => String.eqb (username d') u) (c_docs (w_users w)) = false.
Proof.
  intros Hno. apply not_true_iff_false. intros Hex.
  apply existsb_exists in Hex as [[i d] [Hin Heq]].
  apply String.eqb_eq in Heq. apply list_elem_of_In in Hin. by destruct (Hno i d Hin).
Qed.

Lemma find_one_after_register u w h :
  no_user_named u w ->
  find_one (query_matches [CEq (Some u)]) (w_users (after_register w u h)) =
    Some (w_next_oid w, mk_user u h).
Proof.
  intros Hno. apply find_one_app_last.
  - intros j e Hin. rewrite query_matches_eq. apply String.eqb_neq, (Hno j e Hin).
  - rewrite query_matches_eq. apply String.eqb_refl.
Qed.

(** The checks of [registerUser] on a name nobody has. *)
Lemma register_check_fresh u pw w :
  u <> "" -> truthy pw = true -> no_user_named u w ->
  register_check (credentials (JString u) pw) w = (Ok (RegInsert (JString u) pw), w).
Proof.
  intros Hu Hpw Hno. unfold register_check, user_find_one. ste_unfold.
  cbn -[find_one truthy]. rewrite Hpw. cbn -[find_one].
  rewrite (proj2 (String.eqb_neq u "") Hu). cbn -[find_one].
  by rewrite find_one_no_user.
Qed.

(** The world after [registerUser] drew an [_id] and a salt but stored
    nothing. *)
Definition after_draws w : W :=
  mk_world (w_users w) (w_tasks w) (S (w_next_oid w)) (w_entropy w) (S (w_draws w))
           (w_clock w) (w_secret w).

(** Saving a user whose password hashes: the unique index, when built,
    refuses a name already stored; otherwise the document is appended. *)
Lemma register_insert_run u pw p w h :
  u <> "" -> cast_string "password" pw = Ok (Some p) -> p <> "" ->
  ph_hash p (ph_gen_salt 10 (w_entropy w (w_draws w))) = Ok h ->
  register_insert (JString u) pw w =
    if c_index (w_users w) && existsb (fun '(_, d') => String.eqb (username d') u) (c_docs (w_users w))
    then (Err (DuplicateKeyError u), after_draws w)
    else (Ok (mk_resp 201 (message_json "User registered successfully")), after_register w u h).
Proof.
  intros Hu Hcast Hp Hh.
  assert (Hmod : match pw with JUndefined => false | _ => true end = true)
    by (destruct pw; done).
  unfold register_insert, new_user, user_save, validate_user, validate_required,
    user_presave, insert_doc, fresh_oid, random_bytes.
  ste_unfold. cbn -[ph_hash ph_gen_salt cast_string].
  rewrite Hcast, Hmod, cast_string_string. cbn -[ph_hash ph_gen_salt].
  rewrite (proj2 (String.eqb_neq u "") Hu), (proj2 (String.eqb_neq p "") Hp).
  cbn -[ph_hash ph_gen_salt]. rewrite Hh. cbn -[existsb].
  by destruct (c_index _ && existsb _ _).
Qed.

(** Saving a fresh user: the password (after Mongoose's cast) is hashed
    with a salt drawn from the entropy stream, and the document is
    appended to the users. *)
Lemma register_insert_fresh u pw p w h :
  u <> "" -> cast_string "password" pw = Ok (Some p) -> p <> "" -> no_user_named u w ->
  ph_hash p (ph_gen_salt 10 (w_entropy w (w_draws w))) = Ok h ->
  register_insert (JString u) pw w =
    (Ok (mk_resp 201 (message_json "User registered successfully")), after_register w u h).
Proof.
  intros Hu Hcast Hp Hno Hh. rewrite (register_insert_run u pw p w h) by done.
  by rewrite (no_user_named_index u w Hno), andb_false_r.
Qed.

Lemma register_fresh u pw p w h :
  u <> "" -> truthy pw = true -> cast_string "password" pw = Ok (Some p) -> p <> "" ->
  no_user_named u w ->
  ph_hash p (ph_gen_salt 10 (w_entropy w (w_draws w))) = Ok h ->
  registerUser (credentials (JString u) pw) w =
    (Ok (mk_resp 201 (message_json "User registered successfully")), after_register w u h).
Proof.
  intros Hu Hpw Hcast Hp Hno Hh. unfold registerUser, register_try, ste_catch, ste_bind at 1.
  rewrite register_check_fresh by done.
  by rewrite (register_insert_fresh u pw p w h).
Qed.

(** [loginUser] once [findOne] has found the user: every branch, the
    thrown ones included. *)
Lemma login_found u pw w i d :
  u <> "" -> truthy pw = true ->
  find_one (query_matches [CEq (Some u)]) (w_users w) = Some (i, d) ->
  loginUser (credentials (JString u) pw) w =
    (Ok (match compare_password d pw with
         | Err _ => server_error
         | Ok false => invalid_credentials
         | Ok true =>
             match jwt_sign i (w_secret w) (w_clock w) with
             | Ok token => mk_resp 200 (login_json token)
             | Err _ => server_error
             end
         end), w).
Proof.
  intros Hu Hpw Hf. unfold loginUser, login_try, user_find_one. ste_unfold.
  cbn -[find_one truthy compare_password jwt_sign]. rewrite Hpw.
  cbn -[find_one compare_password jwt_sign].
  rewrite (proj2 (String.eqb_neq u "") Hu). cbn -[find_one compare_password jwt_sign].
  rewrite Hf. cbn -[compare_password jwt_sign].
  destruct (compare_password d pw) as [[]|]; cbn -[jwt_sign]; [|done|done].
  by destruct (jwt_sign i (w_secret w) (w_clock w)).
Qed.
End Runs.

(** ** Frame conditions

    [registerUser] draws an [_id] and a salt and writes the users;
    [loginUser] only reads. *)
Section AuthFrames.
Context `{PasswordHasher} `{Hmac} `{JwtCodec} {T : Type}.

Local Abbreviation W := (world user_doc T).
Implicit Types (w : W).

Lemma registerUser_preserves (R : relation W) `{!PreOrder R} body :
  (forall w, R w (mk_world (w_users w) (w_tasks w) (S (w_next_oid w)) (w_entropy w)
                           (w_draws w) (w_clock w) (w_secret w))) ->
  (forall w, R w (mk_world (w_users w) (w_tasks w) (w_next_oid w) (w_entropy w)
                           (S (w_draws w)) (w_clock w) (w_secret w))) ->
  (forall w c, R w (set_users c w)) ->
  ste_preserves R (registerUser body).
Proof.
  intros Hoid Hdraw Hset.
  unfold registerUser, register_try, register_check, register_insert, new_user, user_find_one.
  ste_preserves_solve. by apply user_save_preserves.
Qed.

Lemma loginUser_preserves (R : relation W) `{!PreOrder R} body :
  ste_preserves R (loginUser body).
Proof.
  unfold loginUser, login_try, user_find_one. ste_preserves_solve.
Qed.
Lemma registerUser_total body : ste_total (registerUser (T := T) body).
Proof. unfold registerUser. ste_total_solve. Qed.

Lemma loginUser_total body : ste_total (loginUser (T := T) body).
Proof. unfold loginUser. ste_total_solve. Qed.

(** The check answers only 400: a missing field or a taken name. *)
Lemma register_check_post body :
  ste_post (fun ph => match ph with RegRespond r => status r = 400%Z | RegInsert _ _ => True end)
    (register_check (T := T) body).
Proof. unfold register_check. ste_solve. Qed.

(** The statuses [registerUser] answers: 201, 400 (a missing field or a
    taken name) and 500 (anything thrown). *)
Lemma registerUser_statuses body :
  ste_post (fun r => status r = 201 \/ status r = 400 \/ status r = 500)%Z (registerUser (T := T) body).
Proof.
  unfold registerUser, register_try. apply post_catch; [|intros; apply post_ret; simpl; auto].
  refine (post_bind_with _ _ _ _ (register_check_post body) _). intros [r|u p] Hr.
  - apply post_ret. auto.
  - unfold register_insert. ste_solve.
Qed.

(** The statuses [loginUser] answers: 200, 400 (a missing field or bad
    credentials) and 500 (anything thrown). *)
Lemma loginUser_statuses body :
  ste_post (fun r => status r = 200 \/ status r = 400 \/ status r = 500)%Z (loginUser (T := T) body).
Proof. unfold loginUser, login_try, invalid_credentials. ste_solve; simpl; auto. Qed.

Lemma user_find_one_state u w : snd (user_find_one u w) = w.
Proof.
  unfold user_find_one. ste_unfold. simpl. by destruct (cast_username_query u).
Qed.

(** The check only reads; when it lets the registration through, the
    password is truthy and [findOne] found nobody. *)
Lemma register_check_spec body w :
  snd (register_check body w) = w /\
  forall u p, fst (register_check body w) = Ok (RegInsert u p) ->
    truthy p = true /\ fst (user_find_one u w) = Ok None.
Proof.
  unfold register_check. ste_unfold. cbn -[user_find_one truthy].
  destruct (js_get body "username") as [u|]; cbn -[user_find_one truthy]; [|done].
  destruct (js_get body "password") as [p|]; cbn -[user_find_one truthy]; [|done].
  destruct (negb (truthy u) || negb (truthy p)) eqn:Ht; [done|].
  apply orb_false_iff in Ht as [_ Hp%negb_false_iff].
  pose proof (user_find_one_state u w) as Hs.
  destruct (user_find_one u w) as [[[[i d]|]|e] w'] eqn:Hf; simpl in Hs; subst w'; [done| |done].
  split; [done|]. intros u' p' [= <- <-]. by rewrite Hf.
Qed.

End AuthFrames.

Section Theorems.
Context `{PH : PasswordHasher} `{!PasswordHasherLaws PH} `{Hmac} `{JwtCodec}
        `{!JwtCodecLaws} {T : Type}.

Local Abbreviation W := (world user_doc T).
Implicit Types (w : W) (u p : string).

(** (C1) Registration followed by login with the same credentials
    succeeds, and the token the login returns is accepted by [jwt.verify]
    for 24 hours, resolving to the identifier of the registered user. *)
Theorem register_then_login u p k w :
  u <> "" -> p <> "" -> valid_seed (w_entropy w (w_draws w)) ->
  no_user_named u w -> w_secret w = Some k -> k <> "" ->
  exists w1 token,
    registerUser (credentials (JString u) (JString p)) w =
      (Ok (mk_resp 201 (message_json "User registered successfully")), w1) /\
    loginUser (credentials (JString u) (JString p)) w1 =
      (Ok (mk_resp 200 (login_json token)), w1) /\
    (exists h, (w_next_oid w, mk_user u h) ∈ c_docs (w_users w1)) /\
    forall now, now / 1000 < w_clock w / 1000 + token_ttl ->
      exists pl, jwt_verify token (Some k) now = Ok pl /\ p_id pl = w_next_oid w.
Proof.
  intros Hu Hp Hseed Hno Hk Hkne.
  destruct (ph_hash_gen_salt_ok 10 _ p Hseed) as [h Hh].
  set (iat := w_clock w / 1000).
  exists (after_register w u h),
    (jwt_encode (sign_payload "HS256" k (mk_payload (w_next_oid w) iat (iat + token_ttl)))).
  assert (Hpw : truthy (JString p) = true) by (by apply truthy_string).
  split; [by apply (register_fresh u (JString p) p)|]. split; [|split].
  - rewrite (login_found u (JString p) _ (w_next_oid w) (mk_user u h)) by
      (done || by apply find_one_after_register).
    cbn -[jwt_sign ph_compare]. rewrite (ph_compare_hash 10 _ p h Hseed Hh).
    rewrite Hk, jwt_sign_ok by done. reflexivity.
  - exists h. cbn. apply list_elem_of_In, in_or_app. right. by left.
  - intros now Hnow. rewrite jwt_verify_signed by (done || by left).
    simpl. destruct (Z.geb_spec (now / 1000) (iat + token_ttl)); [lia|]. by eexists.
Qed.

Definition registered : response := mk_resp 201 (message_json "User registered successfully").

(** (C6) After registering [u] with [p], a login with a password whose
    hashed key differs from [p]'s answers 400 "Invalid username or
    password" (under the collision law of the hasher). *)
Theorem login_wrong_password `{!PasswordHasherSound PH} u p p' w w1 :
  u <> "" -> p <> "" -> p' <> "" -> valid_seed (w_entropy w (w_draws w)) ->
  no_user_named u w -> ph_key p' <> ph_key p ->
  registerUser (credentials (JString u) (JString p)) w = (Ok registered, w1) ->
  loginUser (credentials (JString u) (JString p')) w1 = (Ok invalid_credentials, w1).
Proof.
  intros Hu Hp Hp' Hseed Hno Hkey Hreg.
  destruct (ph_hash_gen_salt_ok 10 _ p Hseed) as [h Hh].
  rewrite (register_fresh u (JString p) p w h) in Hreg
    by (done || by apply truthy_string). injection Hreg as <-.
  rewrite (login_found u (JString p') _ (w_next_oid w) (mk_user u h))
    by (done || by apply truthy_string || by apply find_one_after_register).
  cbn -[ph_compare]. destruct (ph_compare p' h) eqn:E; [|done].
  by destruct (Hkey (ph_compare_sound 10 _ p p' h Hseed Hh E)).
Qed.

(** (C18) A numeric password is accepted at registration (Mongoose casts
    it to its decimal string before hashing) but a login sending the same
    JSON body answers 500, because [bcrypt.compare] throws on a
    non-string; only the string spelling logs in. *)
Theorem numeric_password_login u n k w :
  u <> "" -> n <> 0 -> valid_seed (w_entropy w (w_draws w)) ->
  no_user_named u w -> w_secret w = Some k -> k <> "" ->
  exists w1 token,
    registerUser (credentials (JString u) (JNumber n)) w = (Ok registered, w1) /\
    loginUser (credentials (JString u) (JNumber n)) w1 = (Ok server_error, w1) /\
    loginUser (credentials (JString u) (JString (pretty n))) w1 =
      (Ok (mk_resp 200 (login_json token)), w1).
Proof.
  intros Hu Hn Hseed Hno Hk Hkne.
  destruct (ph_hash_gen_salt_ok 10 _ (pretty n) Hseed) as [h Hh].
  assert (Hnum : truthy (JNumber n) = true) by (simpl; by destruct (Z.eqb_spec n 0)).
  eexists (after_register w u h), _. split; [|split].
  - apply (register_fresh u (JNumber n) (pretty n)); auto using pretty_Z_nonempty.
  - rewrite (login_found u (JNumber n) _ (w_next_oid w) (mk_user u h))
      by (done || by apply find_one_after_register). reflexivity.
  - rewrite (login_found u (JString (pretty n)) _ (w_next_oid w) (mk_user u h))
      by (done || by apply truthy_string, pretty_Z_nonempty
          || by apply find_one_after_register).
    cbn -[jwt_sign ph_compare]. rewrite (ph_compare_hash 10 _ _ h Hseed Hh).
    rewrite Hk, jwt_sign_ok by done. reflexivity.
Qed.

(** (C19) Without a usable [JWT_SECRET] (unset or empty) the server still
    runs: registration succeeds, and a login with the right password
    answers 500 once [jwt.sign] throws. *)
Theorem login_without_secret u p w :
  u <> "" -> p <> "" -> valid_seed (w_entropy w (w_draws w)) ->
  no_user_named u w -> secret_ok (w_secret w) = None ->
  exists w1,
    registerUser (credentials (JString u) (JString p)) w = (Ok registered, w1) /\
    loginUser (credentials (JString u) (JString p)) w1 = (Ok server_error, w1).
Proof.
  intros Hu Hp Hseed Hno Hsec.
  destruct (ph_hash_gen_salt_ok 10 _ p Hseed) as [h Hh].
  exists (after_register w u h). split.
  - apply (register_fresh u (JString p) p); auto. by apply truthy_string.
  - rewrite (login_found u (JString p) _ (w_next_oid w) (mk_user u h))
      by (done || by apply truthy_string || by apply find_one_after_register).
    cbn -[jwt_sign ph_compare]. rewrite (ph_compare_hash 10 _ _ h Hseed Hh).
    unfold jwt_sign. cbn [after_register w_secret]. by rewrite Hsec.
Qed.
End Theorems.

(** ** With node's bcrypt as the hasher *)

Section WithBcrypt.
Context `{EksBlowfish} `{Hmac} `{JwtCodec} {T : Type}.

Local Abbreviation W := (world user_doc T).

(** (C17) bcrypt reads only the first 72 bytes of a password: after
    registering a password of 72 bytes or more, any other password with
    the same first 72 bytes logs in. *)
Theorem login_accepts_72_byte_prefix u p p' k (w : W) :
  u <> "" -> p <> "" -> p' <> "" -> valid_seed (w_entropy w (w_draws w)) ->
  no_user_named u w -> w_secret w = Some k -> k <> "" ->
  (72 <= String.length p)%nat -> (72 <= String.length p')%nat ->
  take 72 (string_bytes p) = take 72 (string_bytes p') ->
  exists w1 token,
    registerUser (credentials (JString u) (JString p)) w = (Ok registered, w1) /\
    loginUser (credentials (JString u) (JString p')) w1 =
      (Ok (mk_resp 200 (login_json token)), w1).
Proof.
  intros Hu Hp Hp' Hseed Hno Hk Hkne Hl Hl' Htake.
  set (h := hash_string "b"%char (clamp_rounds 10) (w_entropy w (w_draws w)) p).
  assert (Hh : ph_hash p (ph_gen_salt 10 (w_entropy w (w_draws w))) = Ok h)
    by (by apply bcrypt_hash_gen_salt).
  eexists (after_register w u h), _. split.
  - apply (register_fresh u (JString p) p); auto. by apply truthy_string.
  - rewrite (login_found u (JString p') _ (w_next_oid w) (mk_user u h))
      by (done || by apply truthy_string || by apply find_one_after_register).
    cbn -[jwt_sign bcrypt_compare hash_string].
    unfold h. rewrite bcrypt_compare_key by (auto with auth; done || by apply key_stream_trunc).
    rewrite Hk, jwt_sign_ok by done. reflexivity.
Qed.
End WithBcrypt.

(** ** Error paths *)

Section ErrorPaths.
Context `{PH : PasswordHasher} `{Hmac} `{JwtCodec} {T : Type}.

Local Abbreviation W := (world user_doc T).
Implicit Types (w : W) (u p : string).

(** A user named [u] exists when [findOne({ username: u })] finds one. *)
Definition user_named u w : Prop :=
  exists i d, find_one (query_matches [CEq (Some u)]) (w_users w) = Some (i, d).

(** (C5) Registering a name that is already stored answers 400 "Username
    is already taken" and writes nothing. *)
Theorem register_taken u p w :
  u <> "" -> p <> "" -> user_named u w ->
  registerUser (credentials (JString u) (JString p)) w =
    (Ok (mk_resp 400 (error_json "Username is already taken")), w).
Proof.
  intros Hu Hp [i [d Hf]].
  unfold registerUser, register_try, register_check, user_find_one. ste_unfold.
  cbn -[find_one].
  rewrite (proj2 (String.eqb_neq u "") Hu), (proj2 (String.eqb_neq p "") Hp).
  cbn -[find_one]. by rewrite Hf.
Qed.

Definition missing_fields : response :=
  mk_resp 400 (error_json "Username and password are required").

(** (C15) A body whose [username] or [password] is falsy (missing, empty,
    [0], [false], [null]) is answered 400 by both handlers before the
    database is read, and nothing is written. *)
Theorem auth_missing_fields fs w :
  let body := JObject fs in
  orb (negb (truthy (default JUndefined (obj_get fs "username"))))
      (negb (truthy (default JUndefined (obj_get fs "password")))) = true ->
  registerUser body w = (Ok missing_fields, w) /\
  loginUser body w = (Ok missing_fields, w).
Proof.
  intros body Hf. unfold registerUser, register_try, register_check,
    loginUser, login_try, body. ste_unfold. cbn [js_get]. by rewrite Hf.
Qed.

(** (C16) Login with a name nobody has answers 400 "Invalid username or
    password", the same answer as a wrong password. *)
Theorem login_unknown_user u pw w :
  u <> "" -> truthy pw = true -> no_user_named u w ->
  loginUser (credentials (JString u) pw) w = (Ok invalid_credentials, w).
Proof.
  intros Hu Hpw Hno. unfold loginUser, login_try, user_find_one. ste_unfold.
  cbn -[find_one truthy]. rewrite Hpw. cbn -[find_one].
  rewrite (proj2 (String.eqb_neq u "") Hu). cbn -[find_one].
  by rewrite find_one_no_user.
Qed.

End ErrorPaths.

(** ** No partial registration *)

Section NoPartial.
Context `{PasswordHasher} `{Hmac} `{JwtCodec} {T : Type}.

Local Abbreviation W := (world user_doc T).
Implicit Types (w : W).

(** (C32) No partial registration (specification, section 7): a
    registration that does not answer 201 leaves the users as they were,
    whether it failed the field check, found the name taken, or failed in
    the hasher or at the insertion. *)
Theorem failed_registration_no_record body w :
  fst (registerUser body w) <> Ok registered -> w_users (snd (registerUser body w)) = w_users w.
Proof.
  destruct (register_check_spec body w) as [Hs _].
  unfold registerUser, register_try, register_insert, new_user, ste_catch, ste_bind.
  destruct (register_check body w) as [[[r|u p]|e] w1]; simpl in Hs; subst w1; [done| |done].
  unfold fresh_oid, ste_ret. cbn [fst snd].
  match goal with |- context [user_save ?d ?w1] =>
    pose proof (user_save_err_users d w1) as He; destruct (user_save d w1) as [[u'|e] w2] end;
    cbn [fst snd] in *; [done|]. intros _. by rewrite (He e eq_refl).
Qed.
End NoPartial.

(** ** Witnesses *)

Definition alice_world : world user_doc unit := fresh_world (Some "jwt-secret").

Lemma no_user_named_fresh u (secret : option string) :
  no_user_named u (fresh_world (U := user_doc) (T := unit) secret).
Proof. intros i d Hin. inversion Hin. Qed.

Lemma register_then_login_witness :
  exists w1 token,
    registerUser (credentials (JString "alice") (JString "s3cret!")) alice_world =
      (Ok (mk_resp 201 (message_json "User registered successfully")), w1) /\
    loginUser (credentials (JString "alice") (JString "s3cret!")) w1 =
      (Ok (mk_resp 200 (login_json token)), w1) /\
    (exists h, (0%nat, mk_user "alice" h) ∈ c_docs (w_users w1)) /\
    forall now, now / 1000 < 1700000000 + token_ttl ->
      exists pl, jwt_verify token (Some "jwt-secret") now = Ok pl /\ p_id pl = 0%nat.
Proof.
  apply (register_then_login "alice" "s3cret!" "jwt-secret" alice_world).
  - discriminate.
  - discriminate.
  - split; [apply (bool_decide_unpack _); vm_compute; reflexivity | reflexivity].
  - apply no_user_named_fresh.
  - reflexivity.
  - discriminate.
Defined.

(** A world where "alice" is stored (with a placeholder hash). *)
Definition alice_stored : world user_doc unit := after_register alice_world "alice" "x".

Lemma register_taken_witness :
  registerUser (credentials (JString "alice") (JString "pw")) alice_stored =
    (Ok (mk_resp 400 (error_json "Username is already taken")), alice_stored).
Proof.
  apply register_taken; [discriminate | discriminate |].
  exists 0%nat, (mk_user "alice" "x"). reflexivity.
Defined.

Lemma auth_missing_fields_witness :
  registerUser (JObject [("username", JString "alice"); ("password", JString "")]) alice_world =
    (Ok missing_fields, alice_world) /\
  loginUser (JObject [("username", JString "alice"); ("password", JString "")]) alice_world =
    (Ok missing_fields, alice_world).
Proof. apply auth_missing_fields. reflexivity. Defined.

Lemma login_unknown_user_witness :
  loginUser (credentials (JString "bob") (JString "pw")) alice_stored =
    (Ok invalid_credentials, alice_stored).
Proof.
  apply login_unknown_user; [discriminate | reflexivity |].
  intros i d Hin. apply list_elem_of_In in Hin. simpl in Hin.
  destruct Hin as [Hin|[]]. injection Hin as _ <-. discriminate.
Defined.

Definition alice_registered : world user_doc unit :=
  snd (registerUser (credentials (JString "alice") (JString "s3cret!")) alice_world).

Lemma login_wrong_password_witness :
  loginUser (credentials (JString "alice") (JString "wrong")) alice_registered =
    (Ok invalid_credentials, alice_registered).
Proof.
  apply (login_wrong_password "alice" "s3cret!" "wrong" alice_world);
    [discriminate | discriminate | discriminate | | apply no_user_named_fresh | |].
  - split; [apply (bool_decide_unpack _); vm_compute; reflexivity | reflexivity].
  - intros Hc. vm_compute in Hc. discriminate.
  - vm_compute. reflexivity.
Defined.

Definition long_pw1 : string :=
  "aaaaaaaaaaaaaaaaaaaaaaaaaaaaaaaaaaaaaaaaaaaaaaaaaaaaaaaaaaaaaaaaaaaaaaaa1".
Definition long_pw2 : string :=
  "aaaaaaaaaaaaaaaaaaaaaaaaaaaaaaaaaaaaaaaaaaaaaaaaaaaaaaaaaaaaaaaaaaaaaaaa2".

Lemma login_accepts_72_byte_prefix_witness :
  exists w1 token,
    registerUser (credentials (JString "alice") (JString long_pw1)) alice_world =
      (Ok registered, w1) /\
    loginUser (credentials (JString "alice") (JString long_pw2)) w1 =
      (Ok (mk_resp 200 (login_json token)), w1).
Proof.
  apply (login_accepts_72_byte_prefix "alice" long_pw1 long_pw2 "jwt-secret" alice_world);
    try discriminate; try reflexivity; try (vm_compute; lia).
  - split; [apply (bool_decide_unpack _); vm_compute; reflexivity | reflexivity].
  - apply no_user_named_fresh.
Defined.

Lemma numeric_password_login_witness :
  exists w1 token,
    registerUser (credentials (JString "alice") (JNumber 123)) alice_world = (Ok registered, w1) /\
    loginUser (credentials (JString "alice") (JNumber 123)) w1 = (Ok server_error, w1) /\
    loginUser (credentials (JString "alice") (JString "123")) w1 =
      (Ok (mk_resp 200 (login_json token)), w1).
Proof.
  apply (numeric_password_login "alice" 123 "jwt-secret" alice_world);
    try discriminate; try reflexivity.
  - split; [apply (bool_decide_unpack _); vm_compute; reflexivity | reflexivity].
  - apply no_user_named_fresh.
Defined.

Lemma login_without_secret_witness :
  exists w1,
    registerUser (credentials (JString "alice") (JString "s3cret!"))
      (fresh_world (U := user_doc) (T := unit) None) = (Ok registered, w1) /\
    loginUser (credentials (JString "alice") (JString "s3cret!")) w1 = (Ok server_error, w1).
Proof.
  apply login_without_secret; try discriminate; try reflexivity.
  - split; [apply (bool_decide_unpack _); vm_compute; reflexivity | reflexivity].
  - apply no_user_named_fresh.
Defined.

Lemma failed_registration_no_record_witness :
  fst (registerUser (credentials (JString "alice") (JString "s3cret!")) alice_registered) <> Ok registered /\
  w_users (snd (registerUser (credentials (JString "alice") (JString "s3cret!")) alice_registered)) =
    w_users alice_registered.
Proof.
  assert (H : fst (registerUser (credentials (JString "alice") (JString "s3cret!")) alice_registered)
                <> Ok registered) by (vm_compute; congruence).
  split; [exact H|apply failed_registration_no_record; exact H].
Defined.
