(* ===== verification/TaskModel.v ===== *)
(** * The [Task] model: src/models/Task.js

    [title] is a required [String], [description] an optional [String],
    [status] a [String] restricted to ['pending', 'completed'] with default
    'pending'.  A task document is built from a request body by casting
    each path ([task_cast]); the default applies when the body has no
    [status]; validation ([task_validate]) checks [required] and [enum]
    (the enum validator lets [null] through, as Mongoose's does).  The
    stored document ([task_doc]) keeps [status] as a value of the enum
    type, so every stored status is one of the two strings by
    construction. *)

From S2P Require Import Prelude JsValue Store.

Inductive task_status := Pending | Completed.

#[export] Instance task_status_eq_dec : EqDecision task_status.
Proof. solve_decision. Defined.

Definition status_to_string (s : task_status) : string :=
  match s with Pending => "pending" | Completed => "completed" end.

(** [enum: ['pending', 'completed']] *)
Definition status_of_string (s : string) : option task_status :=
  if String.eqb s "pending" then Some Pending
  else if String.eqb s "completed" then Some Completed
  else None.

(** [description] is unset ([None]), [null] ([Some None]) or a string:
    Mongoose stores an explicit [null] and [toJSON] writes it out, while
    an unset path is absent. *)
Record task_doc := mk_task {
  title : string;
  description : option (option string);
  tstatus : option task_status
}.

#[export] Instance task_doc_eq_dec : EqDecision task_doc.
Proof. solve_decision. Defined.

(** The document [new Task(fields)] holds before validation: each path's
    cast, [status] defaulted when the body leaves it out. *)
Record task_draft := mk_tdraft {
  td_title : result (option string) exn;
  td_description : result (option (option string)) exn;
  td_status : result (option string) exn
}.

Definition field (fs : list (string * jsval)) (k : string) : jsval :=
  default JUndefined (obj_get fs k).

(** The cast of an optional [String] path: [undefined] leaves it unset,
    anything else is cast ([null] stays [null]). *)
Definition cast_optional (path : string) (v : jsval) : result (option (option string)) exn :=
  match v with
  | JUndefined => Ok None
  | _ => result_map Some (cast_string path v)
  end.

(** [default: 'pending'] applies when the value is [undefined]. *)
Definition task_cast (fs : list (string * jsval)) : task_draft :=
  mk_tdraft (cast_string "title" (field fs "title"))
            (cast_optional "description" (field fs "description"))
            (match field fs "status" with
             | JUndefined => Ok (Some "pending")
             | v => cast_string "status" v
             end).

(** The enum validator: [null] passes, other values must be listed. *)
Definition validate_enum (r : result (option string) exn) : result (option task_status) exn :=
  match r with
  | Ok None => Ok None
  | Ok (Some s) =>
      match status_of_string s with
      | Some st => Ok (Some st)
      | None => Err (ValidationError "status")
      end
  | Err _ => Err (ValidationError "status")
  end.

Definition validate_optional {A} (path : string) (r : result A exn) : result A exn :=
  match r with Ok v => Ok v | Err _ => Err (ValidationError path) end.

(** [required: true] on a [String] path: unset and the empty string
    fail. *)
Definition validate_title (r : result (option string) exn) : result string exn :=
  match r with
  | Ok (Some t) => if String.eqb t "" then Err (ValidationError "title") else Ok t
  | _ => Err (ValidationError "title")
  end.

(** [task.validate()]: [required] on [title], the cast of [description],
    [enum] on [status]; the first failing path is reported. *)
Definition task_validate (d : task_draft) : result task_doc exn :=
  match validate_title (td_title d), validate_optional "description" (td_description d),
        validate_enum (td_status d) with
  | Ok t, Ok desc, Ok st => Ok (mk_task t desc st)
  | Err e, _, _ | _, Err e, _ | _, _, Err e => Err e
  end.

(** The JSON a task is sent back as ([toJSON]): [_id], the paths that are
    set ([null] included) and the version key [__v], which is 0 since no
    update of the program touches an array. *)
Definition task_json (i : oid) (t : task_doc) : jsval :=
  JObject ([("_id", JString (oid_string i)); ("title", JString (title t))] ++
           match description t with
           | Some (Some d) => [("description", JString d)]
           | Some None => [("description", JNull)]
           | None => []
           end ++
           match tstatus t with
           | Some s => [("status", JString (status_to_string s))]
           | None => [("status", JNull)]
           end ++
           [("__v", JNumber 0)]).

(** ** Lemmas *)

Lemma status_of_string_to_string s : status_of_string (status_to_string s) = Some s.
Proof. by destruct s. Qed.

Lemma status_of_string_Some str s :
  status_of_string str = Some s -> str = status_to_string s.
Proof.
  unfold status_of_string.
  destruct (String.eqb_spec str "pending"); [by intros [= <-]|].
  destruct (String.eqb_spec str "completed"); [by intros [= <-]|done].
Qed.

Lemma validate_title_Ok r t : validate_title r = Ok t -> r = Ok (Some t) /\ t <> "".
Proof.
  destruct r as [[t'|]|]; simpl; [|done|done].
  destruct (String.eqb_spec t' ""); [done|]. by intros [= <-].
Qed.

Lemma validate_enum_Ok r st :
  validate_enum r = Ok st ->
  match st with
  | Some s => r = Ok (Some (status_to_string s))
  | None => r = Ok None
  end.
Proof.
  destruct r as [[str|]|]; simpl; [|by intros [= <-]|done].
  destruct (status_of_string str) as [s|] eqn:E; [|done].
  intros [= <-]. by rewrite (status_of_string_Some _ _ E).
Qed.

Lemma task_validate_Ok d t :
  task_validate d = Ok t ->
  validate_title (td_title d) = Ok (title t) /\
  validate_optional "description" (td_description d) = Ok (description t) /\
  validate_enum (td_status d) = Ok (tstatus t).
Proof.
  unfold task_validate.
  destruct (validate_title _), (validate_optional _ _), (validate_enum _);
    try discriminate. by intros [= <-].
Qed.

Lemma task_validate_title d t : task_validate d = Ok t -> title t <> "".
Proof. intros [Ht _]%task_validate_Ok. by apply validate_title_Ok in Ht as [_ ?]. Qed.
