(* ===== verification/Http.v ===== *)
(** * Requests as Express sees them

    A request is its method, its path (without the query string), its
    headers and its body.  [server.js] installs [express.json()] in front of
    every route: a JSON body is parsed into [req.body]; a body that is not
    JSON, or JSON whose top level is not an object or an array ([strict]
    mode), is refused with 400 before any route runs; a request without a
    JSON body gets [req.body = {}] (body-parser 1.x, as Express 4 ships it).

    Express matches paths segment by segment, case-insensitively and with
    an optional trailing slash (its defaults [caseSensitive: false] and
    [strict: false]); [path_segments] and [seg_eqi] are the pieces the
    routing model of [App.v] uses. *)

From S2P Require Import Prelude JsValue.
From Stdlib Require Import Ascii.

Local Open Scope string_scope.

(** ** Strings *)

Definition ascii_lower (c : ascii) : ascii :=
  if Nat.leb 65 (nat_of_ascii c) && Nat.leb (nat_of_ascii c) 90
  then ascii_of_nat (nat_of_ascii c + 32) else c.

Fixpoint string_lower (s : string) : string :=
  match s with
  | EmptyString => EmptyString
  | String c s' => String (ascii_lower c) (string_lower s')
  end.

(** [s.split(sep)] *)
Fixpoint split_on (sep : ascii) (s : string) : list string :=
  match s with
  | EmptyString => [EmptyString]
  | String c s' =>
      match split_on sep s' with
      | [] => [String c EmptyString]
      | seg :: segs =>
          if Ascii.eqb c sep then EmptyString :: seg :: segs
          else String c seg :: segs
      end
  end.

(** Case-insensitive equality of path segments (the [i] flag of the
    regular expressions [path-to-regexp] builds). *)
Definition seg_eqi (a b : string) : bool := String.eqb (string_lower a) (string_lower b).

(** The segments of an absolute path: ["/api/tasks"] is
    [["api"; "tasks"]], ["/api/tasks/"] is [["api"; "tasks"; ""]]. *)
Definition path_segments (p : string) : list string :=
  match split_on "/"%char p with
  | EmptyString :: segs => segs
  | segs => segs
  end.

(** ** Requests *)

Inductive http_method := GET | HEAD | POST | PUT | DELETE | PATCH | OPTIONS.

#[export] Instance http_method_eq_dec : EqDecision http_method.
Proof. solve_decision. Defined.

Definition method_name (m : http_method) : string :=
  match m with
  | GET => "GET" | HEAD => "HEAD" | POST => "POST" | PUT => "PUT"
  | DELETE => "DELETE" | PATCH => "PATCH" | OPTIONS => "OPTIONS"
  end.

Inductive req_body_kind :=
| NoBody
| JsonBody (v : jsval)
| BadJson.

Record request := mk_req {
  req_method : http_method;
  req_path : string;
  req_headers : list (string * string);
  req_body : req_body_kind
}.

(** [req.header(name)]: header names are case-insensitive (Node lowercases
    them); the first occurrence is kept. *)
Fixpoint header_get (hs : list (string * string)) (name : string) : option string :=
  match hs with
  | [] => None
  | (k, v) :: hs' => if seg_eqi k name then Some v else header_get hs' name
  end.

Definition bad_request : response := mk_resp 400 (JString "Bad Request").

(** [app.use(express.json())] *)
Definition json_body (b : req_body_kind) : result jsval response :=
  match b with
  | NoBody => Ok (JObject [])
  | JsonBody v =>
      match v with
      | JObject _ | JArray _ => Ok v
      | _ => Err bad_request
      end
  | BadJson => Err bad_request
  end.

(** ** Lemmas *)

Lemma split_on_nonempty sep s : split_on sep s <> [].
Proof. destruct s; simpl; [done|]. by repeat case_match. Qed.
