(* ===== verification/AuthMiddleware.v ===== *)
(** * The authorization gate: src/middleware/authMiddleware.js

    [taskRoutes.js] requires [../middleware/authMiddleware], a file the
    repository does not contain; this model follows the specification
    (section 4.4).  The gate reads the [Authorization] header, requires the
    form [Bearer <token>], verifies the token with [jwt.verify] under
    [process.env.JWT_SECRET] at the current time, and either answers 401
    with one generic message (whatever failed) or lets the request through
    with the token's payload as [req.user].  It only reads the world. *)

From S2P Require Import Prelude JsValue Store Jwt Http.

Local Open Scope string_scope.

Definition unauthorized : response := mk_resp 401 (error_json "Unauthorized").

Definition bearer_prefix : string := "Bearer ".

(** [Authorization: Bearer <token>]: the token is what follows the
    prefix; a missing header or another scheme has none. *)
Definition bearer_token (h : option string) : option string :=
  match h with
  | Some v =>
      if String.prefix bearer_prefix v
      then Some (String.substring (String.length bearer_prefix)
                   (String.length v - String.length bearer_prefix) v)
      else None
  | None => None
  end.

(** What the gate decides: answer now, or call [next()] with [req.user]
    set. *)
Inductive gate_result :=
| GateReject (r : response)
| GatePass (user : jwt_payload).

Section Gate.
Context `{Hmac} `{JwtCodec} {U T : Type}.

Definition authMiddleware (r : request) : ste (world U T) exn gate_result :=
  w <- ste_get ;;
  match bearer_token (header_get (req_headers r) "Authorization") with
  | None => ste_ret (GateReject unauthorized)
  | Some token =>
      match jwt_verify token (w_secret w) (w_clock w) with
      | Ok p => ste_ret (GatePass p)
      | Err _ => ste_ret (GateReject unauthorized)
      end
  end.
End Gate.

(** Whether the request carries a token that verifies in world [w]. *)
Definition token_verifies `{Hmac} `{JwtCodec} {U T} (r : request) (w : world U T) : bool :=
  match bearer_token (header_get (req_headers r) "Authorization") with
  | Some t => is_ok (jwt_verify t (w_secret w) (w_clock w))
  | None => false
  end.

(** The header a client sends with a token. *)
Definition bearer (token : string) : string * string := ("Authorization", bearer_prefix +:+ token).

(** ** Lemmas *)

Lemma bearer_token_bearer t : bearer_token (Some (bearer_prefix +:+ t)) = Some t.
Proof.
  unfold bearer_token. rewrite string_prefix_app, string_app_length.
  replace (String.length bearer_prefix + String.length t - String.length bearer_prefix)%nat
    with (String.length t) by lia.
  by rewrite string_substring_app.
Qed.

Section GateLemmas.
Context `{Hmac} `{JwtCodec} {U T : Type}.
Implicit Types (w : world U T).

(** The gate only reads the world, and what it decides: the token's
    payload exactly when the header carries a token that verifies now;
    otherwise the one 401 answer. *)
Lemma authMiddleware_run r w :
  authMiddleware r w =
    (Ok (match bearer_token (header_get (req_headers r) "Authorization") with
         | Some token =>
             match jwt_verify token (w_secret w) (w_clock w) with
             | Ok p => GatePass p
             | Err _ => GateReject unauthorized
             end
         | None => GateReject unauthorized
         end), w).
Proof.
  unfold authMiddleware. ste_unfold. cbn -[jwt_verify bearer_token].
  destruct (bearer_token _); [|done]. by destruct (jwt_verify _ _ _).
Qed.

(** A request carrying [Bearer t] passes with the payload [t] verifies
    to; a request without the header is refused. *)
Lemma authMiddleware_pass r t p w :
  header_get (req_headers r) "Authorization" = Some (bearer_prefix +:+ t) ->
  jwt_verify t (w_secret w) (w_clock w) = Ok p ->
  authMiddleware r w = (Ok (GatePass p), w).
Proof.
  intros Hh Hv. rewrite authMiddleware_run, Hh, bearer_token_bearer, Hv. reflexivity.
Qed.

Lemma authMiddleware_no_header r w :
  header_get (req_headers r) "Authorization" = None ->
  authMiddleware r w = (Ok (GateReject unauthorized), w).
Proof. intros Hh. by rewrite authMiddleware_run, Hh. Qed.

(** The gate refuses exactly the requests without a verifying token. *)
Lemma authMiddleware_reject r w :
  token_verifies r w = false -> authMiddleware r w = (Ok (GateReject unauthorized), w).
Proof.
  unfold token_verifies. intros Hv. rewrite authMiddleware_run.
  destruct (bearer_token _); [|done]. by destruct (jwt_verify _ _ _).
Qed.

Lemma authMiddleware_preserves (R : relation (world U T)) `{!Reflexive R} r :
  ste_preserves R (authMiddleware r).
Proof. intros w. rewrite authMiddleware_run. simpl. reflexivity. Qed.
(** The gate's verdict is decided by [token_verifies] alone: only the
    payload it passes on depends on the token itself. *)
Lemma authMiddleware_verdict r w :
  (token_verifies r w = false /\ authMiddleware r w = (Ok (GateReject unauthorized), w)) \/
  (token_verifies r w = true /\ exists p, authMiddleware r w = (Ok (GatePass p), w)).
Proof.
  unfold token_verifies. rewrite authMiddleware_run.
  destruct (bearer_token _); [|by left]. destruct (jwt_verify _ _ _); [right|left]; eauto.
Qed.

Lemma authMiddleware_total r : ste_total (authMiddleware (U := U) (T := T) r).
Proof. intros w. by rewrite authMiddleware_run. Qed.
End GateLemmas.
