(* ===== verification/TaskController.v ===== *)
(** * The task handlers: src/controllers/taskController.js

    [taskRoutes.js] requires [getAllTasks], [getTaskById], [addTask],
    [updateTask] and [deleteTask] from [../controllers/taskController], a
    file the repository does not contain; the handlers follow the
    specification (sections 4.5, 6 and 7) over the [Task] model of
    [TaskModel.v]:

    - [getAllTasks]: [Task.find()], 200 with every task;
    - [getTaskById]: [Task.findById(id)], 404 when no task has the id (an
      id that is not the spelling of one included), 200 with the task;
    - [addTask]: [new Task(req.body)] (which draws its [_id]), [save()]:
      201 with the task, 400 with the validation error;
    - [updateTask]: [findByIdAndUpdate(id, req.body, { new: true,
      runValidators: true })]: the paths the body sets are cast and
      validated, the others kept; 404, 400 or 200 with the new task;
    - [deleteTask]: [findByIdAndDelete(id)]: 404 or 200.

    No handler reads [req.user]: every authenticated user acts on every
    task (specification, section 9). *)

From S2P Require Import Prelude JsValue Store TaskModel.

Local Open Scope string_scope.

Definition task_not_found : response := mk_resp 404 (error_json "Task not found").

Definition exn_message (e : exn) : string :=
  match e with
  | ValidationError p => "Task validation failed: " +:+ p
  | CastError p => "Cast to string failed for path " +:+ p
  | TypeError m | BcryptError m => m
  | DuplicateKeyError k => "E11000 duplicate key error: " +:+ k
  | JwtError _ m => m
  end.

Definition invalid_task (e : exn) : response := mk_resp 400 (error_json (exn_message e)).

(** The fields of [req.body]; a body that is not an object sets none. *)
Definition body_fields (body : jsval) : list (string * jsval) :=
  match body with JObject fs => fs | _ => [] end.

(** A path of an update: kept when the body does not set it, else cast
    and validated. *)
Definition update_path {A} (fs : list (string * jsval)) (k : string) (keep : A)
    (f : jsval -> result A exn) : result A exn :=
  match field fs k with
  | JUndefined => Ok keep
  | v => f v
  end.

(** The document [findByIdAndUpdate] writes, with the update validators
    ([runValidators]) on the paths the body sets. *)
Definition task_update (t : task_doc) (fs : list (string * jsval)) : result task_doc exn :=
  match update_path fs "title" (title t) (fun v => validate_title (cast_string "title" v)),
        update_path fs "description" (description t)
          (fun v => validate_optional "description" (cast_optional "description" v)),
        update_path fs "status" (tstatus t) (fun v => validate_enum (cast_string "status" v)) with
  | Ok ti, Ok de, Ok st => Ok (mk_task ti de st)
  | Err e, _, _ | _, Err e, _ | _, _, Err e => Err e
  end.

(** Case on the three paths of an update. *)
Ltac destruct_update_paths fs t :=
  destruct (update_path fs "title" (title t) (fun v => validate_title (cast_string "title" v))),
    (update_path fs "description" (description t)
       (fun v => validate_optional "description" (cast_optional "description" v))),
    (update_path fs "status" (tstatus t) (fun v => validate_enum (cast_string "status" v))).

Section TaskController.
Context {U : Type}.

Local Abbreviation W := (world U task_doc).

Definition tasks_json (c : collection task_doc) : jsval :=
  JArray (map (fun '(i, t) => task_json i t) (c_docs c)).

Definition put_tasks (c : collection task_doc) : ste W exn unit :=
  w <- ste_get ;; ste_put (set_tasks c w).

(** [exports.getAllTasks] *)
Definition getAllTasks : ste W exn response :=
  c <- ste_gets w_tasks ;;
  ste_ret (mk_resp 200 (tasks_json c)).

(** [exports.getTaskById] *)
Definition getTaskById (id : string) : ste W exn response :=
  match parse_oid id with
  | None => ste_ret task_not_found
  | Some i =>
      c <- ste_gets w_tasks ;;
      match find_by_id i c with
      | None => ste_ret task_not_found
      | Some t => ste_ret (mk_resp 200 (task_json i t))
      end
  end.

(** [exports.addTask] *)
Definition addTask (body : jsval) : ste W exn response :=
  ste_catch
    (i <- fresh_oid ;;
     t <- ste_lift (task_validate (task_cast (body_fields body))) ;;
     c <- ste_gets w_tasks ;;
     c' <- ste_lift (insert_doc None i t c) ;;
     put_tasks c' ;;;
     ste_ret (mk_resp 201 (task_json i t)))
    (fun e => ste_ret (invalid_task e)).

(** [exports.updateTask] *)
Definition updateTask (id : string) (body : jsval) : ste W exn response :=
  match parse_oid id with
  | None => ste_ret task_not_found
  | Some i =>
      c <- ste_gets w_tasks ;;
      match find_by_id i c with
      | None => ste_ret task_not_found
      | Some t =>
          match task_update t (body_fields body) with
          | Err e => ste_ret (invalid_task e)
          | Ok t' =>
              put_tasks (replace_doc i t' c) ;;;
              ste_ret (mk_resp 200 (task_json i t'))
          end
      end
  end.

(** [exports.deleteTask] *)
Definition deleteTask (id : string) : ste W exn response :=
  match parse_oid id with
  | None => ste_ret task_not_found
  | Some i =>
      c <- ste_gets w_tasks ;;
      match find_by_id i c with
      | None => ste_ret task_not_found
      | Some _ =>
          put_tasks (delete_doc i c) ;;;
          ste_ret (mk_resp 200 (message_json "Task deleted"))
      end
  end.
End TaskController.

(** ** Frame conditions

    The task handlers draw [_id]s and write the tasks; nothing else. *)
Section TaskFrames.
Context {U : Type}.

Local Abbreviation W := (world U task_doc).

Lemma put_tasks_preserves (R : relation W) c :
  (forall w c', R w (set_tasks c' w)) -> ste_preserves R (put_tasks c).
Proof. intros HR w. apply HR. Qed.

Lemma task_handlers_preserve (R : relation W) `{!PreOrder R} :
  (forall w, R w (mk_world (w_users w) (w_tasks w) (S (w_next_oid w)) (w_entropy w)
                           (w_draws w) (w_clock w) (w_secret w))) ->
  (forall w c, R w (set_tasks c w)) ->
  ste_preserves R getAllTasks /\ (forall id, ste_preserves R (getTaskById id)) /\
  (forall body, ste_preserves R (addTask body)) /\
  (forall id body, ste_preserves R (updateTask id body)) /\
  (forall id, ste_preserves R (deleteTask id)).
Proof.
  intros Hoid Hset.
  split_and!; intros; unfold getAllTasks, getTaskById, addTask, updateTask, deleteTask;
    ste_preserves_solve; by apply put_tasks_preserves.
Qed.
(** No task handler throws: every outcome, the validation error of
    [addTask] included, is a response. *)
Lemma task_handlers_total :
  ste_total (S := W) getAllTasks /\ (forall id, ste_total (S := W) (getTaskById id)) /\
  (forall body, ste_total (S := W) (addTask body)) /\
  (forall id body, ste_total (S := W) (updateTask id body)) /\
  (forall id, ste_total (S := W) (deleteTask id)).
Proof.
  split_and!; intros; unfold getAllTasks, getTaskById, addTask, updateTask, deleteTask, put_tasks;
    ste_total_solve.
Qed.
End TaskFrames.

(** ** Running the handlers *)

Section TaskRuns.
Context {U : Type}.

Local Abbreviation W := (world U task_doc).
Implicit Types (w : W).

(** Every stored task's id was drawn before: it is below the generator. *)
Definition ids_below w : Prop :=
  forall j d, (j, d) ∈ c_docs (w_tasks w) -> (j < w_next_oid w)%nat.

Definition bump_oid w : W :=
  mk_world (w_users w) (w_tasks w) (S (w_next_oid w)) (w_entropy w) (w_draws w)
           (w_clock w) (w_secret w).

(** The world after [addTask] stored [t] under the next id. *)
Definition after_add w (t : task_doc) : W :=
  set_tasks (mk_collection (c_docs (w_tasks w) ++ [(w_next_oid w, t)]) (c_index (w_tasks w)))
            (bump_oid w).

Lemma addTask_run body w :
  addTask body w =
    match task_validate (task_cast (body_fields body)) with
    | Ok t => (Ok (mk_resp 201 (task_json (w_next_oid w) t)), after_add w t)
    | Err e => (Ok (invalid_task e), bump_oid w)
    end.
Proof.
  unfold addTask, put_tasks, fresh_oid. ste_unfold. cbn -[task_validate task_cast].
  by destruct (task_validate _).
Qed.

Lemma getTaskById_run i w :
  getTaskById (oid_string i) w =
    (Ok (match find_by_id i (w_tasks w) with
         | Some t => mk_resp 200 (task_json i t)
         | None => task_not_found
         end), w).
Proof.
  unfold getTaskById. rewrite parse_oid_string. ste_unfold. simpl.
  by destruct (find_by_id i (w_tasks w)).
Qed.

Lemma updateTask_run i body w :
  updateTask (oid_string i) body w =
    match find_by_id i (w_tasks w) with
    | None => (Ok task_not_found, w)
    | Some t =>
        match task_update t (body_fields body) with
        | Err e => (Ok (invalid_task e), w)
        | Ok t' => (Ok (mk_resp 200 (task_json i t')), set_tasks (replace_doc i t' (w_tasks w)) w)
        end
    end.
Proof.
  unfold updateTask, put_tasks. rewrite parse_oid_string. ste_unfold. cbn -[task_update].
  destruct (find_by_id i (w_tasks w)); [|done]. by destruct (task_update _ _).
Qed.

Lemma deleteTask_run i w :
  deleteTask (oid_string i) w =
    match find_by_id i (w_tasks w) with
    | None => (Ok task_not_found, w)
    | Some _ => (Ok (mk_resp 200 (message_json "Task deleted")), set_tasks (delete_doc i (w_tasks w)) w)
    end.
Proof.
  unfold deleteTask, put_tasks. rewrite parse_oid_string. ste_unfold. simpl.
  by destruct (find_by_id i (w_tasks w)).
Qed.

(** An update keeps every path the body does not set. *)
Lemma task_update_keeps t fs t' :
  task_update t fs = Ok t' ->
  (field fs "title" = JUndefined -> title t' = title t) /\
  (field fs "description" = JUndefined -> description t' = description t) /\
  (field fs "status" = JUndefined -> tstatus t' = tstatus t).
Proof.
  unfold task_update, update_path.
  destruct (field fs "title") eqn:Et, (field fs "description") eqn:Ed,
    (field fs "status") eqn:Es; simpl;
  repeat match goal with
    | |- context [match ?r with Ok _ => _ | Err _ => _ end] => destruct r
    end; intros; simplify_eq/=; split_and!; done.
Qed.
End TaskRuns.

(** ** Properties of the task handlers *)

Section TaskTheorems.
Context {U : Type}.

Local Abbreviation W := (world U task_doc).
Implicit Types (w : W).

Lemma ids_below_fresh w i d : ids_below w -> (i, d) ∈ c_docs (w_tasks w) -> i <> w_next_oid w.
Proof. intros Hb Hin ->. specialize (Hb _ _ Hin). lia. Qed.

(** (C20) Creating then reading a task: a body that validates is stored
    under the next id and answered 201; [GET /tasks/:id] with that id then
    answers 200 with the same task. *)
Theorem add_then_get body w t :
  ids_below w -> task_validate (task_cast (body_fields body)) = Ok t ->
  addTask body w = (Ok (mk_resp 201 (task_json (w_next_oid w) t)), after_add w t) /\
  getTaskById (oid_string (w_next_oid w)) (after_add w t) =
    (Ok (mk_resp 200 (task_json (w_next_oid w) t)), after_add w t).
Proof.
  intros Hb Ht. rewrite addTask_run, Ht. split; [done|].
  rewrite getTaskById_run. cbn [after_add set_tasks w_tasks].
  rewrite find_by_id_app_fresh; [done|]. intros j e Hin ->. by apply (ids_below_fresh w (w_next_oid w) e).
Qed.

(** (C22) The [status] default: a body with a non-empty string [title],
    no [description] and no [status] creates the task
    [{ title, status: 'pending' }]. *)
Theorem add_defaults_pending fs ti w :
  field fs "title" = JString ti -> ti <> "" ->
  field fs "description" = JUndefined -> field fs "status" = JUndefined ->
  addTask (JObject fs) w =
    (Ok (mk_resp 201 (task_json (w_next_oid w) (mk_task ti None (Some Pending)))),
     after_add w (mk_task ti None (Some Pending))).
Proof.
  intros Hti Hne Hd Hs. rewrite addTask_run.
  unfold task_cast, task_validate. cbn [body_fields td_title td_description td_status].
  rewrite Hti, Hd, Hs. cbn. by rewrite (proj2 (String.eqb_neq ti "") Hne).
Qed.

(** (C21) [create] requires a non-empty title: a body whose [title] is
    missing, [null], empty, an array or an object is answered 400 and no
    task is written (only an [_id] is drawn, by [new Task]). *)
Theorem add_requires_title body w :
  match field (body_fields body) "title" with
  | JUndefined | JNull | JArray _ => True
  | JString s => s = ""
  | JObject fs => match obj_get fs "_id" with Some (JString s) => s = "" | _ => True end
  | _ => False
  end ->
  exists e, addTask body w = (Ok (invalid_task e), bump_oid w) /\
            w_tasks (bump_oid w) = w_tasks w.
Proof.
  intros Hti. rewrite addTask_run. unfold task_validate, task_cast.
  cbn [td_title td_description td_status].
  enough (Hv : exists e, validate_title (cast_string "title" (field (body_fields body) "title")) = Err e).
  { destruct Hv as [e ->]. by eexists. }
  destruct (field _ "title") as [| | | |s|l|fs]; try done; try (by eexists).
  - subst s. by eexists.
  - simpl. destruct (obj_get fs "_id") as [[]|]; try (by eexists). subst. by eexists.
Qed.

(** (C23) [update] applies a partial field set: when the new document
    validates it is answered 200 and stored, [findById] returns it, and
    every path the body does not set keeps its old value. *)
Theorem update_partial i body w t t' :
  find_by_id i (w_tasks w) = Some t -> task_update t (body_fields body) = Ok t' ->
  let w' := set_tasks (replace_doc i t' (w_tasks w)) w in
  updateTask (oid_string i) body w = (Ok (mk_resp 200 (task_json i t')), w') /\
  find_by_id i (w_tasks w') = Some t' /\
  (field (body_fields body) "title" = JUndefined -> title t' = title t) /\
  (field (body_fields body) "description" = JUndefined -> description t' = description t) /\
  (field (body_fields body) "status" = JUndefined -> tstatus t' = tstatus t).
Proof.
  intros Hf Hu w'. rewrite updateTask_run, Hf, Hu. split; [done|]. split.
  - by apply (find_by_id_replace i t).
  - by apply task_update_keeps.
Qed.

(** (C24) The status enum on update: a body whose [status] is a string
    other than ['pending'] and ['completed'] is answered 400 and nothing is
    written. *)
Theorem update_rejects_bad_status i body w t s :
  find_by_id i (w_tasks w) = Some t ->
  field (body_fields body) "status" = JString s -> status_of_string s = None ->
  exists e, updateTask (oid_string i) body w = (Ok (invalid_task e), w).
Proof.
  intros Hf Hs Hbad. rewrite updateTask_run, Hf.
  unfold task_update.
  assert (Hst : update_path (body_fields body) "status" (tstatus t)
                  (fun v => validate_enum (cast_string "status" v)) = Err (ValidationError "status")).
  { unfold update_path. rewrite Hs. simpl. by rewrite Hbad. }
  rewrite Hst. destruct_update_paths (body_fields body) t; eauto.
Qed.

(** (C25) Deleting a task: the first [DELETE] answers 200, after which
    [GET] and a second [DELETE] of the same id answer 404. *)
Theorem delete_then_gone i w t :
  find_by_id i (w_tasks w) = Some t ->
  let w' := set_tasks (delete_doc i (w_tasks w)) w in
  deleteTask (oid_string i) w = (Ok (mk_resp 200 (message_json "Task deleted")), w') /\
  getTaskById (oid_string i) w' = (Ok task_not_found, w') /\
  deleteTask (oid_string i) w' = (Ok task_not_found, w').
Proof.
  intros Hf w'. rewrite deleteTask_run, Hf. split; [done|].
  rewrite getTaskById_run, deleteTask_run. cbn [w' set_tasks w_tasks].
  by rewrite find_by_id_delete.
Qed.
End TaskTheorems.

(** ** The invariant of the task collection

    Every stored task has a non-empty title, ids are pairwise distinct
    and below the generator.  (Its status is in the enum by its type.) *)

Section TaskInvariant.
Context {U : Type}.

Local Abbreviation W := (world U task_doc).
Implicit Types (w : W).

Definition tasks_ok w : Prop :=
  ids_below w /\ NoDup (map fst (c_docs (w_tasks w))) /\
  Forall (fun '(_, t) => title t <> "") (c_docs (w_tasks w)).

(** The preorder "keeps [tasks_ok]". *)
Definition keeps_tasks_ok w w' : Prop := tasks_ok w -> tasks_ok w'.

#[export] Instance keeps_tasks_ok_preorder : PreOrder keeps_tasks_ok.
Proof. split; [by intros ??|intros ??? H1 H2 ?; auto]. Qed.

Lemma task_update_Ok t fs t' :
  task_update t fs = Ok t' ->
  update_path fs "title" (title t) (fun v => validate_title (cast_string "title" v)) = Ok (title t').
Proof.
  unfold task_update. destruct_update_paths fs t; by intros [= <-].
Qed.

Lemma task_update_title t fs t' : task_update t fs = Ok t' -> title t <> "" -> title t' <> "".
Proof.
  intros Hu%task_update_Ok Ht. unfold update_path in Hu.
  destruct (field fs "title"); try (by apply validate_title_Ok in Hu as [_ ?]).
  by injection Hu as <-.
Qed.

Lemma map_fst_replace_doc i (t : task_doc) c :
  map fst (c_docs (replace_doc i t c)) = map fst (c_docs c).
Proof.
  unfold replace_doc. simpl. rewrite map_map.
  apply map_ext. intros [j d]. by case_bool_decide.
Qed.

Lemma replace_doc_elem i (t : task_doc) c j d :
  (j, d) ∈ c_docs (replace_doc i t c) -> ((j, d) ∈ c_docs c \/ (j = i /\ d = t)) /\
                                           exists d0, (j, d0) ∈ c_docs c.
Proof.
  unfold replace_doc. simpl. intros ((j', d') & Heq & Hin)%list_elem_of_fmap.
  case_bool_decide; simplify_eq; eauto.
Qed.

Lemma addTask_keeps body : ste_preserves keeps_tasks_ok (addTask (U := U) body).
Proof.
  intros w (Hb & Hnd & Ht). rewrite addTask_run.
  destruct (task_validate _) as [t|e] eqn:Hv; simpl; split_and!; unfold ids_below;
    cbn [after_add set_tasks bump_oid w_tasks c_docs w_next_oid].
  - intros j d. rewrite elem_of_app, list_elem_of_singleton.
    intros [Hin|[= -> ->]]; [specialize (Hb j d Hin)|]; simpl; lia.
  - rewrite map_app. apply NoDup_app. split_and!; [done| |apply NoDup_singleton].
    intros x Hx ->%list_elem_of_singleton.
    apply list_elem_of_fmap in Hx as [[j d] [Hj Hin]]. simpl in Hj. subst j.
    specialize (Hb _ _ Hin). lia.
  - apply Forall_app. split; [done|]. apply Forall_singleton. by apply (task_validate_title _ _ Hv).
  - intros j d Hin. specialize (Hb j d Hin). simpl. lia.
  - done.
  - done.
Qed.

Lemma updateTask_keeps id body : ste_preserves keeps_tasks_ok (updateTask (U := U) id body).
Proof.
  intros w (Hb & Hnd & Ht). destruct (parse_oid id) as [i|] eqn:Hid; cycle 1.
  { unfold updateTask. rewrite Hid. done. }
  apply parse_oid_Some in Hid as ->. rewrite updateTask_run.
  destruct (find_by_id i _) as [t|] eqn:Hf; [|done].
  destruct (task_update t _) as [t'|] eqn:Hu; [|done].
  unfold tasks_ok, ids_below; cbn [snd]. rewrite !(proj1 (set_tasks_proj _ _)), (proj2 (proj2 (set_tasks_proj _ _))).
  split_and!.
  - intros j d [_ [d0 Hin]]%replace_doc_elem. by apply (Hb j d0).
  - by rewrite map_fst_replace_doc.
  - apply Forall_forall. intros [j d] [[Hin|[-> ->]] _]%replace_doc_elem.
    + exact (proj1 (Forall_forall _ _) Ht (j, d) Hin).
    + apply (task_update_title t _ _ Hu).
      exact (proj1 (Forall_forall _ _) Ht (i, t) (find_by_id_Some _ _ _ Hf)).
Qed.

Lemma deleteTask_keeps id : ste_preserves keeps_tasks_ok (deleteTask (U := U) id).
Proof.
  intros w (Hb & Hnd & Ht). destruct (parse_oid id) as [i|] eqn:Hid; cycle 1.
  { unfold deleteTask. rewrite Hid. done. }
  apply parse_oid_Some in Hid as ->. rewrite deleteTask_run.
  destruct (find_by_id i _); [|done].
  unfold tasks_ok, ids_below; cbn [snd]. rewrite !(proj1 (set_tasks_proj _ _)), (proj2 (proj2 (set_tasks_proj _ _))).
  cbn [delete_doc c_docs].
  pose proof (delete_doc_sublist i (w_tasks w)) as Hs. split_and!.
  - intros j d Hin. apply (Hb j d). by eapply elem_of_sublist.
  - eapply sublist_NoDup; [exact Hnd|]. by apply (fmap_sublist fst).
  - apply Forall_forall. intros x Hx. apply (proj1 (Forall_forall _ _) Ht).
    by eapply elem_of_sublist.
Qed.

Lemma read_handlers_keep id :
  ste_preserves keeps_tasks_ok (getAllTasks (U := U)) /\
  ste_preserves keeps_tasks_ok (getTaskById (U := U) id).
Proof.
  split; unfold getAllTasks, getTaskById; ste_preserves_solve.
Qed.
End TaskInvariant.

(** ** Witnesses *)

Definition empty_board : world unit task_doc := fresh_world None.
Definition milk : task_doc := mk_task "buy milk" None (Some Pending).
Definition milk_board : world unit task_doc := after_add empty_board milk.

Lemma ids_below_empty : ids_below empty_board.
Proof. intros j d Hin. inversion Hin. Qed.

Lemma add_then_get_witness :
  addTask (JObject [("title", JString "buy milk")]) empty_board =
    (Ok (mk_resp 201 (task_json 0 milk)), milk_board) /\
  getTaskById (oid_string 0) milk_board = (Ok (mk_resp 200 (task_json 0 milk)), milk_board).
Proof. apply add_then_get; [apply ids_below_empty | reflexivity]. Defined.

Lemma add_defaults_pending_witness :
  addTask (JObject [("title", JString "buy milk")]) empty_board =
    (Ok (mk_resp 201 (task_json 0 milk)), milk_board).
Proof. apply add_defaults_pending; [reflexivity | discriminate | reflexivity | reflexivity]. Defined.

Lemma add_requires_title_witness :
  exists e, addTask (JObject [("title", JString "")]) empty_board =
              (Ok (invalid_task e), bump_oid empty_board) /\
            w_tasks (bump_oid empty_board) = w_tasks empty_board.
Proof. apply add_requires_title. reflexivity. Defined.

Lemma update_partial_witness :
  let done_milk := mk_task "buy milk" None (Some Completed) in
  let w' := set_tasks (replace_doc 0 done_milk (w_tasks milk_board)) milk_board in
  updateTask (oid_string 0) (JObject [("status", JString "completed")]) milk_board =
    (Ok (mk_resp 200 (task_json 0 done_milk)), w') /\
  find_by_id 0 (w_tasks w') = Some done_milk /\
  (field [("status", JString "completed")] "title" = JUndefined -> title done_milk = title milk) /\
  (field [("status", JString "completed")] "description" = JUndefined ->
     description done_milk = description milk) /\
  (field [("status", JString "completed")] "status" = JUndefined -> tstatus done_milk = tstatus milk).
Proof. apply update_partial; reflexivity. Defined.

Lemma update_rejects_bad_status_witness :
  exists e, updateTask (oid_string 0) (JObject [("status", JString "done")]) milk_board =
              (Ok (invalid_task e), milk_board).
Proof. apply (update_rejects_bad_status 0 _ milk_board milk "done"); reflexivity. Defined.

Lemma delete_then_gone_witness :
  let w' := set_tasks (delete_doc 0 (w_tasks milk_board)) milk_board in
  deleteTask (oid_string 0) milk_board = (Ok (mk_resp 200 (message_json "Task deleted")), w') /\
  getTaskById (oid_string 0) w' = (Ok task_not_found, w') /\
  deleteTask (oid_string 0) w' = (Ok task_not_found, w').
Proof. apply (delete_then_gone 0 milk_board milk). reflexivity. Defined.
