(* ===== verification/App.v ===== *)
(** * The Express application: src/server.js and src/routes

    [server.js] builds the application: [express.json()] first, then
    [taskRoutes] and [authRoutes] both mounted at ['/api'], then the
    Swagger page at ['/api-docs'].  A router tries its routes in the order
    they were declared; a route whose method and path match runs its
    stack ([authMiddleware] then the handler for the task routes, the
    handler alone for the auth routes).  A request no router answers gets
    Express's final 404 ["Cannot <METHOD> <path>"].  Two behaviours of the
    router are modelled besides: [router.get] also answers [HEAD], and an
    [OPTIONS] request whose path matches routes of a router is answered 200
    with the methods they allow.

    [app_handle] is one request, from the body parser to the response, as
    a computation over the world; an exception escaping it is a rejected
    promise of an [async] handler, which Express 4 leaves unanswered;
    [every_request_answered] shows that this never happens.  The Swagger
    page's content is not modelled. *)

From S2P Require Import Prelude JsValue Bcrypt Store UserModel Jwt AuthController.
From S2P Require Import TaskModel Http AuthMiddleware TaskController.

Local Open Scope string_scope.

(** ** Paths *)

(** A segment of a route path: ['tasks'] or [':id']. *)
Inductive seg_pat := Lit (s : string) | Param.

(** [path-to-regexp] with Express's defaults: literal segments compare
    case-insensitively, a parameter is one non-empty segment, and one
    trailing slash is allowed ([strict: false]).  The result is the list of
    parameter values. *)
Fixpoint match_segs (pat : list seg_pat) (segs : list string) : option (list string) :=
  match pat, segs with
  | [], [] => Some []
  | [], [EmptyString] => Some []
  | Lit l :: pat', s :: segs' => if seg_eqi l s then match_segs pat' segs' else None
  | Param :: pat', s :: segs' =>
      if String.eqb s "" then None else ps ← match_segs pat' segs'; Some (s :: ps)
  | _, _ => None
  end.

(** [app.use('/api', router)]: the first segment names the mount point;
    the router sees the rest. *)
Definition mount (prefix : string) (segs : list string) : option (list string) :=
  match segs with
  | s :: rest => if seg_eqi prefix s then Some rest else None
  | [] => None
  end.

(** [router.get] registers [GET] and answers [HEAD] as well. *)
Definition method_handles (route_m req_m : http_method) : bool :=
  bool_decide (route_m = req_m) || bool_decide (route_m = GET /\ req_m = HEAD).

(** The methods a route answers, as Express lists them in [Allow]. *)
Definition route_allow (m : http_method) : list string :=
  if bool_decide (m = GET) then ["GET"; "HEAD"] else [method_name m].

Section Routing.
Context `{PasswordHasher} `{Hmac} `{JwtCodec}.

Local Abbreviation W := (world user_doc task_doc).

(** A handler gets [req.body] and [req.params]. *)
Definition handler : Type := jsval -> list string -> ste W exn response.

(** A layer of a route's stack: a middleware deciding whether to go on,
    or the final handler. *)
Inductive layer :=
| Mw (f : request -> ste W exn gate_result)
| Handler (h : handler).

Record route := mk_route {
  rt_method : http_method;
  rt_path : list seg_pat;
  rt_stack : list layer
}.

(** Run a route's stack: [None] when every layer called [next()]. *)
Fixpoint run_stack (st : list layer) (r : request) (body : jsval) (ps : list string)
    : ste W exn (option response) :=
  match st with
  | [] => ste_ret None
  | Mw f :: st' =>
      g <- f r ;;
      match g with
      | GateReject resp => ste_ret (Some resp)
      | GatePass _ => run_stack st' r body ps
      end
  | Handler h :: _ => resp <- h body ps ;; ste_ret (Some resp)
  end.

(** A route's method and path against the request's: the parameters. *)
Definition route_match (rt : route) (m : http_method) (segs : list string) : option (list string) :=
  if method_handles (rt_method rt) m then match_segs (rt_path rt) segs else None.

(** The routes of a router in order; the first whose method and path
    match and whose stack answers gives the response. *)
Fixpoint run_routes (rs : list route) (r : request) (body : jsval) (segs : list string)
    : ste W exn (option response) :=
  match rs with
  | [] => ste_ret None
  | rt :: rs' =>
      match route_match rt (req_method r) segs with
      | Some ps =>
          o <- run_stack (rt_stack rt) r body ps ;;
          match o with
          | Some resp => ste_ret (Some resp)
          | None => run_routes rs' r body segs
          end
      | None => run_routes rs' r body segs
      end
  end.

(** The methods of the routes whose path matches, without repetition. *)
Definition router_allow (rs : list route) (segs : list string) : list string :=
  remove_dups (concat (map (fun rt => match match_segs (rt_path rt) segs with
                                      | Some _ => route_allow (rt_method rt)
                                      | None => []
                                      end) rs)).

Fixpoint join (sep : string) (l : list string) : string :=
  match l with
  | [] => ""
  | [x] => x
  | x :: l' => x +:+ sep +:+ join sep l'
  end.

(** A router: its routes, then the automatic [OPTIONS] answer. *)
Definition run_router (rs : list route) (r : request) (body : jsval) (segs : list string)
    : ste W exn (option response) :=
  o <- run_routes rs r body segs ;;
  match o with
  | Some resp => ste_ret (Some resp)
  | None =>
      let allow := router_allow rs segs in
      if bool_decide (req_method r = OPTIONS) && negb (bool_decide (allow = []))
      then ste_ret (Some (mk_resp 200 (JString (join "," allow))))
      else ste_ret None
  end.

(** src/routes/authRoutes.js *)
Definition authRoutes : list route :=
  [mk_route POST [Lit "auth"; Lit "register"] [Handler (fun body _ => registerUser body)];
   mk_route POST [Lit "auth"; Lit "login"] [Handler (fun body _ => loginUser body)]].

Definition param (ps : list string) : string := default "" (head ps).

(** src/routes/taskRoutes.js *)
Definition taskRoutes : list route :=
  [mk_route GET [Lit "tasks"] [Mw authMiddleware; Handler (fun _ _ => getAllTasks)];
   mk_route GET [Lit "tasks"; Param] [Mw authMiddleware; Handler (fun _ ps => getTaskById (param ps))];
   mk_route POST [Lit "tasks"] [Mw authMiddleware; Handler (fun body _ => addTask body)];
   mk_route PUT [Lit "tasks"; Param] [Mw authMiddleware; Handler (fun body ps => updateTask (param ps) body)];
   mk_route DELETE [Lit "tasks"; Param] [Mw authMiddleware; Handler (fun _ ps => deleteTask (param ps))]].

(** Express's final handler. *)
Definition not_found (r : request) : response :=
  mk_resp 404 (JString ("Cannot " +:+ method_name (req_method r) +:+ " " +:+ req_path r)).

(** The Swagger UI page (its content is not modelled). *)
Definition docs_page : response := mk_resp 200 (JString "Swagger UI").

(** One request through the application of src/server.js. *)
Definition app_handle (r : request) : ste W exn response :=
  match json_body (req_body r) with
  | Err resp => ste_ret resp
  | Ok body =>
      let segs := path_segments (req_path r) in
      match mount "api" segs with
      | Some rest =>
          o <- run_router taskRoutes r body rest ;;
          match o with
          | Some resp => ste_ret resp
          | None =>
              o' <- run_router authRoutes r body rest ;;
              match o' with
              | Some resp => ste_ret resp
              | None => ste_ret (not_found r)
              end
          end
      | None =>
          match mount "api-docs" segs with
          | Some _ => ste_ret docs_page
          | None => ste_ret (not_found r)
          end
      end
  end.
End Routing.

(** ** Dispatch

    Where the application sends the requests of the API: the body parser,
    the mounts and both routers run on a method and a path. *)

Section Dispatch.
Context `{PasswordHasher} `{Hmac} `{JwtCodec}.

Local Abbreviation W := (world user_doc task_doc).

(** A task route: the gate, then the handler. *)
Definition guarded (r : request) (h : ste W exn response) : ste W exn response :=
  g <- authMiddleware r ;;
  match g with
  | GateReject resp => ste_ret resp
  | GatePass _ => h
  end.

End Dispatch.

(** Unfold the application down to the handlers and the gate, evaluating
    the routing decisions on the concrete method and path. *)
Ltac eval_routing :=
  repeat match goal with
    | |- context [mount ?p ?s] =>
        let v := eval vm_compute in (mount p s) in change (mount p s) with v
    | |- context [route_match ?rt ?m ?s] =>
        let v := eval vm_compute in (route_match rt m s) in change (route_match rt m s) with v
    | |- context [router_allow ?rs ?s] =>
        let v := eval vm_compute in (router_allow rs s) in change (router_allow rs s) with v
    | |- context [@bool_decide (@eq http_method ?a ?b) ?d] =>
        let v := eval vm_compute in (@bool_decide (@eq http_method a b) d) in
        change (@bool_decide (@eq http_method a b) d) with v
    end.

Ltac dispatch :=
  unfold app_handle, run_router, guarded; cbn [json_body req_body req_path req_method];
  do 3 (ste_unfold;
        cbn -[registerUser loginUser authMiddleware getAllTasks getTaskById addTask
              updateTask deleteTask route_match mount router_allow path_segments];
        eval_routing);
  cbn -[registerUser loginUser authMiddleware getAllTasks getTaskById
        addTask updateTask deleteTask].

Section DispatchLemmas.
Context `{PasswordHasher} `{Hmac} `{JwtCodec}.

Local Abbreviation W := (world user_doc task_doc).

Lemma app_register hs fs w :
  app_handle (mk_req POST "/api/auth/register" hs (JsonBody (JObject fs))) w =
    registerUser (JObject fs) w.
Proof. dispatch. by destruct (registerUser _ w) as [[]]. Qed.

Lemma app_login hs fs w :
  app_handle (mk_req POST "/api/auth/login" hs (JsonBody (JObject fs))) w =
    loginUser (JObject fs) w.
Proof. dispatch. by destruct (loginUser _ w) as [[]]. Qed.

Lemma app_get_tasks hs w :
  let r := mk_req GET "/api/tasks" hs NoBody in
  app_handle r w = guarded r getAllTasks w.
Proof.
  dispatch. destruct (authMiddleware _ w) as [[[]|] w']; [done| |done].
  by destruct (getAllTasks w') as [[]].
Qed.

Lemma app_post_task hs fs w :
  let r := mk_req POST "/api/tasks" hs (JsonBody (JObject fs)) in
  app_handle r w = guarded r (addTask (JObject fs)) w.
Proof.
  dispatch. destruct (authMiddleware _ w) as [[[]|] w']; [done| |done].
  by destruct (addTask _ w') as [[]].
Qed.
End DispatchLemmas.

(** ** Frame conditions of the application

    A request preserves a preorder on worlds when every layer of every
    route does. *)
Section AppFrames.
Context `{PasswordHasher} `{Hmac} `{JwtCodec}.

Local Abbreviation W := (world user_doc task_doc).

Context (R : relation W) `{!PreOrder R}.

Definition layer_preserves (l : layer) : Prop :=
  match l with
  | Mw f => forall r, ste_preserves R (f r)
  | Handler h => forall body ps, ste_preserves R (h body ps)
  end.

Definition routes_preserve (rs : list route) : Prop :=
  Forall (fun rt => Forall layer_preserves (rt_stack rt)) rs.

Lemma run_stack_preserves st r body ps :
  Forall layer_preserves st -> ste_preserves R (run_stack st r body ps).
Proof.
  induction st as [|[f|h] st IH]; intros Hst; simpl; [eauto with auth| |];
    apply Forall_cons in Hst as [Hl Hst]; refine (preserves_bind _ _ _ _ _); try apply Hl.
  - intros [resp|p]; [eauto with auth|by apply IH].
  - intros. eauto with auth.
Qed.

Lemma run_router_preserves rs r body segs :
  routes_preserve rs -> ste_preserves R (run_router rs r body segs).
Proof.
  intros Hrs. unfold run_router. refine (preserves_bind _ _ _ _ _); [|ste_preserves_solve].
  induction Hrs as [|rt rs Hrt Hrs IH]; simpl; [eauto with auth|].
  destruct (route_match rt _ segs); [|done].
  refine (preserves_bind _ _ _ _ _); [by apply run_stack_preserves|].
  intros [resp|]; [eauto with auth|done].
Qed.

Lemma app_handle_preserves r :
  routes_preserve taskRoutes -> routes_preserve authRoutes -> ste_preserves R (app_handle r).
Proof.
  intros Ht Ha. unfold app_handle.
  destruct (json_body _); [|eauto with auth]. cbv zeta.
  destruct (mount "api" _); [|destruct (mount "api-docs" _); eauto with auth].
  refine (preserves_bind _ _ _ _ _); [by apply run_router_preserves|].
  intros [resp|]; [eauto with auth|].
  refine (preserves_bind _ _ _ _ _); [by apply run_router_preserves|].
  intros [resp|]; eauto with auth.
Qed.

(** The auth routes preserve every preorder that drawing an [_id],
    drawing a salt and writing the users preserve; the task routes every
    preorder that drawing an [_id] and writing the tasks preserve. *)
Lemma authRoutes_preserve :
  (forall w, R w (mk_world (w_users w) (w_tasks w) (S (w_next_oid w)) (w_entropy w)
                           (w_draws w) (w_clock w) (w_secret w))) ->
  (forall w, R w (mk_world (w_users w) (w_tasks w) (w_next_oid w) (w_entropy w)
                           (S (w_draws w)) (w_clock w) (w_secret w))) ->
  (forall w c, R w (set_users c w)) ->
  routes_preserve authRoutes.
Proof.
  intros Hoid Hdraw Hu.
  repeat constructor; simpl; intros; [by apply registerUser_preserves | by apply loginUser_preserves].
Qed.

Lemma taskRoutes_preserve :
  (forall w, R w (mk_world (w_users w) (w_tasks w) (S (w_next_oid w)) (w_entropy w)
                           (w_draws w) (w_clock w) (w_secret w))) ->
  (forall w c, R w (set_tasks c w)) ->
  routes_preserve taskRoutes.
Proof.
  intros Hoid Ht. destruct (task_handlers_preserve R Hoid Ht) as (?&?&?&?&?).
  repeat constructor; simpl; intros; first [by apply authMiddleware_preserves | done].
Qed.
End AppFrames.

(** ** Every request is answered

    Express 4 does not catch the rejection of an [async] handler: a
    handler that throws leaves its request without a response.  Both
    routers are made of layers that never throw, so [app_handle] never
    does. *)
Section Answers.
Context `{PasswordHasher} `{Hmac} `{JwtCodec}.

Local Abbreviation W := (world user_doc task_doc).

Definition layer_total (l : layer) : Prop :=
  match l with
  | Mw f => forall r, ste_total (f r)
  | Handler h => forall body ps, ste_total (h body ps)
  end.

Definition routes_total (rs : list route) : Prop :=
  Forall (fun rt => Forall layer_total (rt_stack rt)) rs.

Lemma run_stack_total st r body ps : Forall layer_total st -> ste_total (run_stack st r body ps).
Proof.
  induction st as [|[f|h] st IH]; intros Hst; simpl; [eauto with auth| |];
    apply Forall_cons in Hst as [Hl Hst]; refine (total_bind _ _ _ _); try apply Hl.
  - intros [resp|p]; [eauto with auth|by apply IH].
  - eauto with auth.
Qed.

Lemma run_router_total rs r body segs : routes_total rs -> ste_total (run_router rs r body segs).
Proof.
  intros Hrs. unfold run_router. refine (total_bind _ _ _ _); [|ste_total_solve].
  induction Hrs as [|rt rs Hrt Hrs IH]; simpl; [eauto with auth|].
  destruct (route_match rt _ segs); [|done].
  refine (total_bind _ _ _ _); [by apply run_stack_total|].
  intros [resp|]; [eauto with auth|done].
Qed.

Lemma authRoutes_total : routes_total authRoutes.
Proof. repeat constructor; intros ??; [apply registerUser_total|apply loginUser_total]. Qed.

Lemma taskRoutes_total : routes_total taskRoutes.
Proof.
  destruct (task_handlers_total (U := user_doc)) as (?&?&?&?&?).
  repeat constructor; simpl; intros; first [apply authMiddleware_total | done | auto].
Qed.

(** (C30) Every request gets a response: whatever its method, path,
    headers and body, and whatever the state, [app_handle] ends in a
    response and never in an exception that Express 4 would leave
    unanswered. *)
Theorem every_request_answered r w : exists resp, fst (app_handle r w) = Ok resp.
Proof.
  assert (Hm : ste_total (app_handle r)).
  { unfold app_handle. destruct (json_body _); [|eauto with auth]. cbv zeta.
    destruct (mount "api" _); [|destruct (mount "api-docs" _); eauto with auth].
    refine (total_bind _ _ _ _); [by apply run_router_total, taskRoutes_total|].
    intros [resp|]; [eauto with auth|].
    refine (total_bind _ _ _ _); [by apply run_router_total, authRoutes_total|].
    intros [resp|]; eauto with auth. }
  specialize (Hm w). destruct (fst (app_handle r w)) as [resp|]; [by exists resp|done].
Qed.
End Answers.

(** ** The gate in front of the task routes *)

Section Gate.
Context `{PasswordHasher} `{Hmac} `{JwtCodec}.

Local Abbreviation W := (world user_doc task_doc).

Definition gated (rs : list route) : Prop :=
  Forall (fun rt => exists st, rt_stack rt = Mw authMiddleware :: st) rs.

Lemma taskRoutes_gated : gated taskRoutes.
Proof. repeat constructor; eexists; reflexivity. Qed.

(** When the gate refuses a request, a router whose routes all start with
    the gate answers the refusal if a route matches, and nothing
    otherwise; the world is unchanged. *)
Lemma run_routes_gated rs r body segs w resp :
  gated rs -> authMiddleware r w = (Ok (GateReject resp), w) ->
  run_routes rs r body segs w =
    (Ok (if existsb (fun rt => bool_decide (is_Some (route_match rt (req_method r) segs))) rs
         then Some resp else None), w).
Proof.
  intros Hg Hmw. induction Hg as [|rt rs [st Hst] Hg IH]; [done|].
  cbn [run_routes existsb]. destruct (route_match rt _ segs) eqn:E.
  - rewrite bool_decide_true by done. unfold ste_bind at 1. rewrite Hst. simpl.
    unfold ste_bind at 1. by rewrite Hmw.
  - rewrite bool_decide_false by (intros [? ?]; congruence). exact IH.
Qed.

Lemma run_router_gated rs r body segs w :
  gated rs -> token_verifies r w = false ->
  exists o, run_router rs r body segs w = (Ok o, w).
Proof.
  intros Hg Hv. unfold run_router, ste_bind at 1.
  rewrite (run_routes_gated rs r body segs w unauthorized Hg (authMiddleware_reject r w Hv)).
  destruct (existsb _ _); [eauto|]. cbn -[router_allow]. destruct (_ && _); eauto.
Qed.

(** (C3) The authorization gate: a request to a task route (any method
    and path the task router matches, [HEAD] and letter case included)
    that carries no token verifying under the current secret and time is
    answered 401, and the world is unchanged. *)
Theorem gate_blocks_task_routes r w body rest :
  json_body (req_body r) = Ok body ->
  mount "api" (path_segments (req_path r)) = Some rest ->
  existsb (fun rt => bool_decide (is_Some (route_match rt (req_method r) rest))) taskRoutes = true ->
  token_verifies r w = false ->
  app_handle r w = (Ok unauthorized, w).
Proof.
  intros Hb Hm Hrt Hv. unfold app_handle. rewrite Hb. cbv zeta. rewrite Hm.
  unfold ste_bind at 1, run_router, ste_bind at 1.
  rewrite (run_routes_gated taskRoutes r body rest w unauthorized taskRoutes_gated
             (authMiddleware_reject r w Hv)), Hrt.
  reflexivity.
Qed.

(** (C4) No request without a verifying token changes the tasks,
    whatever its method and path: the task routes refuse it and the auth
    routes only write the users. *)
Theorem unauthenticated_keeps_tasks r w :
  token_verifies r w = false -> w_tasks (snd (app_handle r w)) = w_tasks w.
Proof.
  intros Hv. unfold app_handle.
  destruct (json_body _) as [body|]; [|done]. cbv zeta.
  destruct (mount "api" _) as [rest|]; [|by destruct (mount "api-docs" _)].
  unfold ste_bind at 1.
  destruct (run_router_gated taskRoutes r body rest w taskRoutes_gated Hv) as [o ->].
  destruct o as [resp|]; [done|].
  unfold ste_bind. pose proof (run_router_preserves same_tasks authRoutes r body rest
    (authRoutes_preserve same_tasks (fun _ => eq_refl) (fun _ => eq_refl) (fun _ _ => eq_refl)) w)
    as Hp.
  destruct (run_router authRoutes r body rest w) as [[[]|] w']; exact Hp.
Qed.

End Gate.

(** ** Sequences of requests *)

Section Reachable.
Context `{PasswordHasher} `{Hmac} `{JwtCodec}.

Local Abbreviation W := (world user_doc task_doc).

(** One request handled to its end; a sequence of requests handled one
    after the other is the reflexive-transitive closure [rtc app_step]. *)
Definition app_step (w w' : W) : Prop := exists r, snd (app_handle r w) = w'.

(** A property every request preserves holds in every world a sequence
    of requests reaches (rule induction on [rtc app_step]). *)
Lemma reachable_preserved (P : W -> Prop) w0 w :
  (forall r, ste_preserves (fun w w' => P w -> P w') (app_handle r)) -> P w0 -> rtc app_step w0 w -> P w.
Proof. intros Hp Hok Hr. induction Hr as [|w1 w2 w3 [r <-] _ IH]; [done|]. apply IH, (Hp r w1 Hok). Qed.

Lemma keeps_tasks_ok_bump (w : W) w' :
  w_tasks w' = w_tasks w -> (w_next_oid w <= w_next_oid w')%nat -> keeps_tasks_ok w w'.
Proof.
  intros Ht Hn (Hb & Hnd & Hf). unfold tasks_ok, ids_below. rewrite Ht.
  split_and!; [|done|done]. intros j d Hin. specialize (Hb j d Hin). lia.
Qed.

Lemma app_keeps_tasks_ok r : ste_preserves keeps_tasks_ok (app_handle r).
Proof.
  refine (app_handle_preserves keeps_tasks_ok r _ _).
  - destruct (read_handlers_keep (U := user_doc) "") as [Hall _].
    repeat (apply List.Forall_cons || apply List.Forall_nil); cbn [layer_preserves];
      intros;
      first [ apply authMiddleware_preserves; apply _ | exact Hall
            | apply (read_handlers_keep _) | apply addTask_keeps
            | apply updateTask_keeps | apply deleteTask_keeps ].
  - refine (authRoutes_preserve keeps_tasks_ok _ _ _); intros; apply keeps_tasks_ok_bump;
      first [reflexivity | simpl; lia].
Qed.
(** (C11) The task collection's invariant holds in every world a
    sequence of requests leads to: each stored task has a non-empty title,
    ids are distinct and below the generator. *)
Theorem reachable_tasks_ok w0 w : tasks_ok w0 -> rtc app_step w0 w -> tasks_ok w.
Proof. apply reachable_preserved. exact app_keeps_tasks_ok. Qed.
End Reachable.

(** ** The scenario of the specification *)

Definition alice : jsval := credentials (JString "alice") (JString "s3cret!").
Definition buy_milk : jsval := JObject [("title", JString "buy milk")].
Definition mark_completed : jsval := JObject [("status", JString "completed")].

Section Scenario.
Context `{PH : PasswordHasher} `{!PasswordHasherLaws PH} `{Hmac} `{JwtCodec} `{!JwtCodecLaws}.

Local Abbreviation W := (world user_doc task_doc).

(** (C2) The end-to-end scenario of the specification (section 8), for
    any lawful hasher and JWT codec and any non-empty secret, from a fresh
    process: register alice, log in and get a token [T]; [GET /tasks]
    with [Bearer T] answers 200 with no tasks and without it 401;
    [POST /tasks] creates a pending task; [PUT /tasks/<id>] completes it;
    [GET /tasks/bad-id] answers 404. *)
Theorem end_to_end_scenario k :
  k <> "" ->
  exists token w1 w2 w3,
    app_handle (mk_req POST "/api/auth/register" [] (JsonBody alice)) (fresh_world (Some k)) =
      (Ok registered, w1) /\
    app_handle (mk_req POST "/api/auth/login" [] (JsonBody alice)) w1 =
      (Ok (mk_resp 200 (login_json token)), w1) /\
    app_handle (mk_req GET "/api/tasks" [bearer token] NoBody) w1 =
      (Ok (mk_resp 200 (JArray [])), w1) /\
    app_handle (mk_req GET "/api/tasks" [] NoBody) w1 = (Ok unauthorized, w1) /\
    app_handle (mk_req POST "/api/tasks" [bearer token] (JsonBody buy_milk)) w1 =
      (Ok (mk_resp 201 (task_json 1 (mk_task "buy milk" None (Some Pending)))), w2) /\
    app_handle (mk_req PUT "/api/tasks/1" [bearer token] (JsonBody mark_completed)) w2 =
      (Ok (mk_resp 200 (task_json 1 (mk_task "buy milk" None (Some Completed)))), w3) /\
    app_handle (mk_req GET "/api/tasks/bad-id" [bearer token] NoBody) w3 =
      (Ok task_not_found, w3).
Proof.
  intros Hk. set (w0 := fresh_world (U := user_doc) (T := task_doc) (Some k)).
  assert (Hseed : valid_seed (w_entropy w0 (w_draws w0))).
  { split; [apply (bool_decide_unpack _); vm_compute; reflexivity | reflexivity]. }
  destruct (ph_hash_gen_salt_ok 10 _ "s3cret!" Hseed) as [h Hh].
  set (token := jwt_encode (sign_payload "HS256" k
                  (mk_payload 0 (w_clock w0 / 1000) (w_clock w0 / 1000 + token_ttl)))).
  assert (Hv : jwt_verify token (Some k) (w_clock w0) =
                 Ok (mk_payload 0 (w_clock w0 / 1000) (w_clock w0 / 1000 + token_ttl))).
  { unfold token. rewrite jwt_verify_signed by (done || by left). reflexivity. }
  exists token, (after_register w0 "alice" h). eexists _, _. split_and!.
  - unfold alice, credentials. rewrite app_register.
    apply (register_fresh "alice" (JString "s3cret!") "s3cret!"); try done.
    apply (no_user_named_fresh "alice" (Some k)).
  - unfold alice, credentials. rewrite app_login.
    rewrite (login_found "alice" (JString "s3cret!") _ 0 (mk_user "alice" h)) by
      (done || by apply (find_one_after_register "alice" w0), (no_user_named_fresh "alice" (Some k))).
    cbn -[jwt_sign ph_compare]. rewrite (ph_compare_hash 10 _ _ h Hseed Hh).
    rewrite jwt_sign_ok by done. reflexivity.
  - rewrite app_get_tasks. unfold guarded. ste_unfold.
    erewrite (authMiddleware_pass _ token); [reflexivity..|exact Hv].
  - rewrite app_get_tasks. unfold guarded. ste_unfold.
    rewrite authMiddleware_no_header by reflexivity. reflexivity.
  - unfold buy_milk. rewrite app_post_task. unfold guarded. ste_unfold.
    erewrite (authMiddleware_pass _ token); [reflexivity..|exact Hv].
  - dispatch. erewrite (authMiddleware_pass _ token); [reflexivity..|exact Hv].
  - dispatch. erewrite (authMiddleware_pass _ token); [reflexivity..|exact Hv].
Qed.
End Scenario.

(** ** Witnesses

    With node's bcrypt over the symbolic EksBlowfish, and the symbolic
    JWT codec and HMAC. *)

Definition board0 : world user_doc task_doc := fresh_world (Some "jwt-secret").
Definition list_tasks_anon : request := mk_req GET "/api/tasks" [] NoBody.

Lemma gate_blocks_task_routes_witness :
  app_handle list_tasks_anon board0 = (Ok unauthorized, board0).
Proof.
  apply (gate_blocks_task_routes _ _ (JObject []) ["tasks"]);
    [reflexivity | vm_compute; reflexivity | vm_compute; reflexivity | vm_compute; reflexivity].
Defined.

Lemma unauthenticated_keeps_tasks_witness :
  w_tasks (snd (app_handle (mk_req POST "/api/tasks" [] (JsonBody buy_milk)) board0)) =
    w_tasks board0.
Proof. apply unauthenticated_keeps_tasks. vm_compute. reflexivity. Defined.

Lemma tasks_ok_board0 : tasks_ok board0.
Proof. split_and!; [intros j d Hin; inversion Hin | constructor | constructor]. Qed.

Lemma reachable_tasks_ok_witness :
  tasks_ok (snd (app_handle (mk_req POST "/api/tasks" [] (JsonBody buy_milk)) board0)).
Proof.
  apply (reachable_tasks_ok board0); [apply tasks_ok_board0|].
  apply rtc_once. eexists. reflexivity.
Defined.

Lemma end_to_end_scenario_witness :
  exists token w1 w2 w3,
    app_handle (mk_req POST "/api/auth/register" [] (JsonBody alice)) board0 =
      (Ok registered, w1) /\
    app_handle (mk_req POST "/api/auth/login" [] (JsonBody alice)) w1 =
      (Ok (mk_resp 200 (login_json token)), w1) /\
    app_handle (mk_req GET "/api/tasks" [bearer token] NoBody) w1 =
      (Ok (mk_resp 200 (JArray [])), w1) /\
    app_handle (mk_req GET "/api/tasks" [] NoBody) w1 = (Ok unauthorized, w1) /\
    app_handle (mk_req POST "/api/tasks" [bearer token] (JsonBody buy_milk)) w1 =
      (Ok (mk_resp 201 (task_json 1 (mk_task "buy milk" None (Some Pending)))), w2) /\
    app_handle (mk_req PUT "/api/tasks/1" [bearer token] (JsonBody mark_completed)) w2 =
      (Ok (mk_resp 200 (task_json 1 (mk_task "buy milk" None (Some Completed)))), w3) /\
    app_handle (mk_req GET "/api/tasks/bad-id" [bearer token] NoBody) w3 =
      (Ok task_not_found, w3).
Proof. apply end_to_end_scenario. discriminate. Defined.

