(* ===== verification/Registration.v ===== *)
(** * Registrations: the users' invariant and interleavings

    [registerUser] checks with [User.findOne] that the name is free, then
    saves the new user; the [unique: true] index on [username] is the
    only guard the storage layer adds.  Handled one request after the
    other, the check is enough: every world a sequence of requests leads
    to has distinct usernames, and every stored password is the output of
    the hasher ([users_ok], [reachable_users_ok]).

    Node runs handlers concurrently and [registerUser] awaits between the
    check and the save.  [reg_thread] and [conc_step] model several
    registrations in flight: each is started, checked, then saved, in any
    order the scheduler picks.  Without the index two registrations of one
    name both pass the check and both save; with the index built the
    second save fails with E11000, which the [catch] turns into 500, not
    the 400 "Username is already taken" of the sequential path.  Whatever
    the interleaving, each 201 answer stored exactly one user and nothing
    else stores one ([successes_are_records]). *)

From S2P Require Import Prelude JsValue Bcrypt Blowfish Store UserModel Jwt AuthController.
From S2P Require Import TaskModel Http AuthMiddleware TaskController App.

Local Open Scope string_scope.

(** ** One registration, as it changes the users *)

Section RegisterUsers.
Context `{PasswordHasher} `{Hmac} `{JwtCodec} {T : Type}.

Local Abbreviation W := (world user_doc T).
Implicit Types (w : W).

(** A name [findOne] did not find is the name of no stored user. *)
Lemma user_find_one_none_name u s w :
  fst (user_find_one u w) = Ok None -> cast_string "username" u = Ok (Some s) ->
  forall i d, (i, d) ∈ c_docs (w_users w) -> username d <> s.
Proof.
  unfold user_find_one. ste_unfold. simpl.
  destruct (cast_username_query u) as [q|] eqn:Hq; [|done]. simpl. intros Hf Hc i d Hin.
  rewrite (cast_username_query_key u q s Hq Hc) in Hf. injection Hf as Hf.
  pose proof (find_one_None _ _ Hf i d Hin) as Hm.
  rewrite query_matches_eq in Hm. by apply String.eqb_neq.
Qed.

(** What [registerUser] does to the users: nothing, or it appends a user
    whose name nobody had, under the [_id] drawn first, with a hashed
    password. *)
Lemma registerUser_users body w :
  w_users (snd (registerUser body w)) = w_users w \/
  exists s h,
    (forall i d, (i, d) ∈ c_docs (w_users w) -> username d <> s) /\
    (exists p seed, ph_hash p (ph_gen_salt 10 seed) = Ok h) /\
    w_users (snd (registerUser body w)) =
      mk_collection (c_docs (w_users w) ++ [(w_next_oid w, mk_user s h)]) (c_index (w_users w)).
Proof.
  destruct (register_check_spec body w) as [Hs Hins].
  unfold registerUser, register_try, register_insert, new_user, ste_catch, ste_bind.
  destruct (register_check body w) as [[[r|u p]|e] w1] eqn:Hc; simpl in Hs; subst w1;
    [by left| |by left].
  destruct (Hins u p eq_refl) as [Hp Hf].
  unfold fresh_oid, ste_ret. cbn [fst snd].
  set (w1 := mk_world (w_users w) (w_tasks w) (S (w_next_oid w)) (w_entropy w)
                      (w_draws w) (w_clock w) (w_secret w)).
  set (d := mk_draft (w_next_oid w) (cast_string "username" u) (cast_string "password" p)
                     (match p with JUndefined => false | _ => true end)).
  assert (Hmod : d_pw_modified d = true) by (destruct p; done).
  destruct (user_save_users d w1) as [Hkeep|(s & pw & h & Hu & Hpw & _ & Hh & Hnew)];
    destruct (user_save d w1) as [[u'|e] w2]; cbn [fst snd] in *; try (by left).
  - right. exists s, h. split_and!.
    + by apply (user_find_one_none_name u s w).
    + rewrite Hmod in Hh. destruct Hh as [seed Hh]. eauto.
    + exact Hnew.
  - right. exists s, h. split_and!.
    + by apply (user_find_one_none_name u s w).
    + rewrite Hmod in Hh. destruct Hh as [seed Hh]. eauto.
    + exact Hnew.
Qed.
End RegisterUsers.

(** ** The users' invariant under sequential requests *)

Section UsersInvariant.
Context `{PasswordHasher} `{Hmac} `{JwtCodec}.

Local Abbreviation W := (world user_doc task_doc).
Implicit Types (w : W).

(** Usernames are pairwise distinct, and every stored password is what
    the hasher produced (never the plaintext). *)
Definition users_ok w : Prop :=
  keys_unique username (w_users w) /\
  Forall (fun '(_, u) => exists p seed, ph_hash p (ph_gen_salt 10 seed) = Ok (password u))
    (c_docs (w_users w)).

Definition keeps_users_ok w w' : Prop := users_ok w -> users_ok w'.

#[export] Instance keeps_users_ok_preorder : PreOrder keeps_users_ok.
Proof. split; [by intros ??|intros ??? Ha Hb ?; auto]. Qed.

Lemma keeps_users_ok_same w w' : w_users w' = w_users w -> keeps_users_ok w w'.
Proof. unfold keeps_users_ok, users_ok. by intros ->. Qed.

Lemma registerUser_keeps body : ste_preserves keeps_users_ok (registerUser body).
Proof.
  intros w [Hk Hf]. destruct (registerUser_users body w) as [Hs|(s & h & Hno & Hh & Hs)].
  - by apply (keeps_users_ok_same w).
  - unfold users_ok, keys_unique, keys. rewrite Hs. cbn [c_docs]. split.
    + rewrite map_app. apply NoDup_app. split_and!; [done| |apply NoDup_singleton].
      intros x Hx ->%list_elem_of_singleton.
      apply list_elem_of_In, in_map_iff in Hx as [[i d] [Hd Hin]].
      apply (Hno i d); [by apply list_elem_of_In|done].
    + apply Forall_app. split; [done|]. apply Forall_singleton. exact Hh.
Qed.

Lemma app_keeps_users_ok r : ste_preserves keeps_users_ok (app_handle r).
Proof.
  refine (app_handle_preserves keeps_users_ok r _ _).
  - refine (taskRoutes_preserve keeps_users_ok _ _); intros; by apply keeps_users_ok_same.
  - repeat (apply List.Forall_cons || apply List.Forall_nil); cbn [layer_preserves]; intros;
      [apply registerUser_keeps | apply loginUser_preserves; apply _].
Qed.

(** (C10) Handled one after the other, requests keep the users'
    invariant: the [findOne] check of [registerUser] keeps usernames
    distinct even without the unique index, and every stored password is
    an output of the hasher. *)
Theorem reachable_users_ok w0 w : users_ok w0 -> rtc app_step w0 w -> users_ok w.
Proof. apply reachable_preserved. exact app_keeps_users_ok. Qed.
End UsersInvariant.

(** ** Stored passwords with node's bcrypt *)

Section NodeBcrypt.
Context `{Hmac} `{JwtCodec}.

(** (C26) With node's bcrypt (the Eksblowfish of [Blowfish.v]), in every
    world a sequence of requests reaches from one satisfying [users_ok],
    every stored password is a 60-character string beginning with ["$2"]:
    a bcrypt hash, never the plaintext. *)
Theorem stored_passwords_are_bcrypt w0 w :
  users_ok (H := node_bcrypt) w0 -> rtc (app_step (H := node_bcrypt)) w0 w ->
  Forall (fun '(_, u) => String.length (password u) = 60%nat /\ String.prefix "$2" (password u) = true)
    (c_docs (w_users w)).
Proof.
  intros Hok Hr. destruct (reachable_preserved (H := node_bcrypt) users_ok w0 w app_keeps_users_ok Hok Hr)
    as [_ Hf].
  eapply Forall_impl; [exact Hf|]. intros [i u] (p & seed & Hh).
  split; [exact (bcrypt_hash_length p 10 seed _ Hh)|exact (bcrypt_hash_prefix p _ _ Hh)].
Qed.
End NodeBcrypt.

(** ** Registrations in flight

    A registration is started (its body), checked (the name and password
    it will insert), or done (its response).  The [try]/[catch] of
    [registerUser] covers both phases. *)

Inductive reg_thread :=
| RStart (body : jsval)
| RChecked (uname pw : jsval)
| RDone (r : response).

Section Interleavings.
Context `{PasswordHasher} `{Hmac} `{JwtCodec} {T : Type}.

Local Abbreviation W := (world user_doc T).
Implicit Types (w : W).

(** The next phase of one registration. *)
Definition reg_thread_step (t : reg_thread) : ste W exn reg_thread :=
  match t with
  | RStart body =>
      ste_catch (ph <- register_check body ;;
                 ste_ret (match ph with
                          | RegRespond r => RDone r
                          | RegInsert u p => RChecked u p
                          end))
                (fun _ => ste_ret (RDone server_error))
  | RChecked u p =>
      ste_catch (r <- register_insert u p ;; ste_ret (RDone r))
                (fun _ => ste_ret (RDone server_error))
  | RDone r => ste_ret (RDone r)
  end.

(** The phase a step leaves (a step never throws: the [catch] answers). *)
Definition thread_result (r : result reg_thread exn) : reg_thread :=
  match r with Ok t => t | Err _ => RDone server_error end.

Definition reg_running (t : reg_thread) : bool :=
  match t with RDone _ => false | _ => true end.

(** The scheduler runs the next phase of any registration in flight
    ([thread_step]), or Mongoose's background [createIndex] for
    [unique: true]. *)
Inductive thread_step : W * list reg_thread -> W * list reg_thread -> Prop :=
| thread_run w ts (i : nat) t :
    ts !! i = Some t -> reg_running t = true ->
    thread_step (w, ts) (snd (reg_thread_step t w), <[i := thread_result (fst (reg_thread_step t w))]> ts).

Inductive conc_step : W * list reg_thread -> W * list reg_thread -> Prop :=
| conc_thread s s' : thread_step s s' -> conc_step s s'
| conc_index w ts : conc_step (w, ts) (snd (ensure_user_index w), ts).

End Interleavings.

(** ** With the unique index built *)

Section WithIndex.
Context `{PasswordHasher} `{Hmac} `{JwtCodec} {T : Type}.

Local Abbreviation W := (world user_doc T).
Implicit Types (w : W).

Definition idx_unique w : Prop :=
  c_index (w_users w) = true /\ keys_unique username (w_users w).

Definition keeps_idx_unique w w' : Prop := idx_unique w -> idx_unique w'.

#[export] Instance keeps_idx_unique_preorder : PreOrder keeps_idx_unique.
Proof. split; [by intros ??|intros ??? Ha Hb ?; auto]. Qed.

Lemma keeps_idx_same w w' : w_users w' = w_users w -> keeps_idx_unique w w'.
Proof. unfold keeps_idx_unique, idx_unique. by intros ->. Qed.

Lemma register_check_preserves (R : relation W) `{!Reflexive R} body :
  ste_preserves R (register_check body).
Proof. intros w. destruct (register_check_spec body w) as [Hs _]. rewrite Hs. reflexivity. Qed.

Lemma user_save_keeps_idx d : ste_preserves keeps_idx_unique (user_save d).
Proof.
  intros w [Hi Hu]. destruct (user_save_inserts d w) as [Hs|[u Hins]].
  - by apply (keeps_idx_same w).
  - pose proof (insert_doc_docs _ _ _ _ _ Hins) as [_ Hx]. split; [by rewrite Hx|].
    by eapply insert_doc_unique.
Qed.

Lemma reg_thread_step_keeps_idx t : ste_preserves keeps_idx_unique (reg_thread_step t).
Proof.
  destruct t as [body|u p|r]; unfold reg_thread_step, register_insert, new_user;
    ste_preserves_solve.
  - apply register_check_preserves, _.
  - apply fresh_oid_preserves. intros w. by apply keeps_idx_same.
  - apply user_save_keeps_idx.
Qed.

Lemma ensure_user_index_keeps_idx : ste_preserves keeps_idx_unique ensure_user_index.
Proof.
  intros w [Hi Hu]. unfold ensure_user_index, idx_unique, keys_unique, build_index, keys in *.
  ste_unfold. simpl. by case_bool_decide.
Qed.

(** (C9) Once the unique index on [username] is built, no interleaving
    of registrations stores two users with one name: the index, not the
    [findOne] check, keeps the names distinct. *)
Theorem conc_index_unique w0 ts0 w ts :
  idx_unique w0 -> rtc conc_step (w0, ts0) (w, ts) -> idx_unique w.
Proof.
  intros Hok Hr. change w with (fst (w, ts)). change w0 with (fst (w0, ts0)) in Hok.
  induction Hr as [c|c1 c2 c3 Hs _ IH]; [done|]. apply IH.
  destruct Hs as [? ? []|]; simplify_eq/=;
    [by apply reg_thread_step_keeps_idx | by apply ensure_user_index_keeps_idx].
Qed.
End WithIndex.

(** ** Every success is one record

    A registration answers 201 only after its [save] appended its user,
    and no other step appends one: along any execution of the scheduler,
    the users stored since the start are exactly the 201 answers given
    since the start (specification, section 5: registration fully
    completes before a success response). *)

Section Successes.
Context `{PasswordHasher} `{Hmac} `{JwtCodec} {T : Type}.

Local Abbreviation W := (world user_doc T).
Implicit Types (w : W).

Definition answered_201 (t : reg_thread) : nat :=
  match t with RDone r => if Z.eqb (status r) 201 then 1 else 0 | _ => 0 end.

Definition successes (ts : list reg_thread) : nat := sum_list_with answered_201 ts.

Lemma register_check_respond body w r :
  fst (register_check body w) = Ok (RegRespond r) -> status r = 400%Z.
Proof.
  unfold register_check, user_find_one. ste_unfold. cbn -[truthy].
  destruct (js_get body "username"); cbn -[truthy]; [|done].
  destruct (js_get body "password"); cbn -[truthy]; [|done].
  destruct (_ || _); cbn; [intros Heq; by simplify_eq|].
  destruct (cast_username_query _); cbn; [|done].
  destruct (find_one _ _); cbn; intros Heq; by simplify_eq.
Qed.

Lemma register_insert_users u p w :
  match fst (register_insert u p w) with
  | Ok r => status r = 201%Z /\
            length (c_docs (w_users (snd (register_insert u p w)))) = S (length (c_docs (w_users w)))
  | Err _ => w_users (snd (register_insert u p w)) = w_users w
  end.
Proof.
  unfold register_insert, new_user, fresh_oid, ste_bind, ste_ret. cbn [fst snd].
  match goal with |- context [user_save ?d ?w1] =>
    pose proof (user_save_Ok d w1) as Hok; pose proof (user_save_err_users d w1) as He;
    destruct (user_save d w1) as [[u'|e] w2] end; cbn [fst snd] in *.
  - split; [done|]. rewrite (Hok u' eq_refl), length_app. simpl. lia.
  - exact (He e eq_refl).
Qed.

Lemma reg_thread_step_users t w :
  reg_running t = true ->
  length (c_docs (w_users (snd (reg_thread_step t w)))) =
    length (c_docs (w_users w)) + answered_201 (thread_result (fst (reg_thread_step t w))).
Proof.
  destruct t as [body|u p|r]; [intros _..|done]; unfold reg_thread_step, ste_catch, ste_bind.
  - pose proof (register_check_respond body w) as Hr. destruct (register_check_spec body w) as [Hs _].
    destruct (register_check body w) as [[[r|u p]|e] w1]; simpl in Hs, Hr |- *; subst w1; [|lia|lia].
    rewrite (Hr r eq_refl). simpl. lia.
  - pose proof (register_insert_users u p w) as Hi.
    destruct (register_insert u p w) as [[r|e] w1]; simpl in Hi |- *.
    + destruct Hi as [-> ->]. simpl. lia.
    + rewrite Hi. simpl. lia.
Qed.

Lemma conc_step_users (s s' : W * list reg_thread) :
  conc_step s s' ->
  length (c_docs (w_users (fst s'))) + successes (snd s) = length (c_docs (w_users (fst s))) + successes (snd s').
Proof.
  destruct 1 as [? ? [w ts i t Hi Hr]|w ts]; unfold successes; simpl.
  - pose proof (sum_list_with_insert answered_201 ts i t (thread_result (fst (reg_thread_step t w))) Hi).
    pose proof (reg_thread_step_users t w Hr). assert (answered_201 t = 0) by (by destruct t). lia.
  - unfold ensure_user_index. ste_unfold. simpl. rewrite build_index_docs. lia.
Qed.

(** (C34) Along any execution of concurrent registrations (with or
    without the index, in any interleaving), the number of users stored
    grows by exactly the number of registrations that answered 201. *)
Theorem successes_are_records w0 ts0 w ts :
  rtc conc_step (w0, ts0) (w, ts) ->
  length (c_docs (w_users w)) + successes ts0 = length (c_docs (w_users w0)) + successes ts.
Proof.
  enough (Hgen : forall s s', rtc conc_step s s' ->
    length (c_docs (w_users (fst s'))) + successes (snd s) =
    length (c_docs (w_users (fst s))) + successes (snd s')) by exact (Hgen _ _).
  induction 1 as [c|c1 c2 c3 Hs _ IH]; [lia|]. pose proof (conc_step_users c1 c2 Hs). lia.
Qed.
End Successes.

(** ** Two registrations of one name, interleaved *)

Section Race.
Context `{PH : PasswordHasher} `{!PasswordHasherLaws PH} `{Hmac} `{JwtCodec} {T : Type}.

Local Abbreviation W := (world user_doc T).
Implicit Types (w : W).

Lemma conc_run w ts i t t' w' :
  ts !! i = Some t -> reg_running t = true -> reg_thread_step t w = (Ok t', w') ->
  conc_step (w, ts) (w', <[i := t']> ts).
Proof.
  intros Hi Hr Hs. pose proof (conc_thread _ _ (thread_run w ts i t Hi Hr)) as Hc.
  by rewrite Hs in Hc.
Qed.

Lemma reg_check_step u p w :
  u <> "" -> p <> "" -> no_user_named u w ->
  reg_thread_step (RStart (credentials (JString u) (JString p))) w =
    (Ok (RChecked (JString u) (JString p)), w).
Proof.
  intros Hu Hp Hno. unfold reg_thread_step, ste_catch, ste_bind.
  rewrite register_check_fresh by (done || by apply truthy_string). reflexivity.
Qed.

Lemma reg_insert_step u p w h :
  u <> "" -> p <> "" -> ph_hash p (ph_gen_salt 10 (w_entropy w (w_draws w))) = Ok h ->
  reg_thread_step (RChecked (JString u) (JString p)) w =
    if c_index (w_users w) && existsb (fun '(_, d') => String.eqb (username d') u) (c_docs (w_users w))
    then (Ok (RDone server_error), after_draws w)
    else (Ok (RDone registered), after_register w u h).
Proof.
  intros Hu Hp Hh. unfold reg_thread_step, ste_catch, ste_bind.
  rewrite (register_insert_run u (JString p) p w h) by done.
  by destruct (_ && _).
Qed.

Definition alice_twice : list reg_thread :=
  [RStart (credentials (JString "alice") (JString "s3cret!"));
   RStart (credentials (JString "alice") (JString "other-pw"))].

Lemma valid_seed_demo i : (i < 16)%nat -> valid_seed (demo_entropy i).
Proof.
  intros Hi. split; [|unfold demo_entropy; by rewrite length_map, length_seq].
  apply Forall_forall. intros x (j & -> & Hj)%list_elem_of_fmap.
  apply list_elem_of_In, in_seq in Hj. unfold is_byte. split; [lia|].
  pose proof (Nat.mod_upper_bound (i * 16 + j) 256 ltac:(lia)). lia.
Qed.

(** The schedule "check, check, save, save" of two registrations of
    one name, from a world with no user of that name. *)
Lemma race_schedule w h1 h2 :
  no_user_named "alice" w ->
  ph_hash "s3cret!" (ph_gen_salt 10 (w_entropy w (w_draws w))) = Ok h1 ->
  ph_hash "other-pw" (ph_gen_salt 10 (w_entropy w (S (w_draws w)))) = Ok h2 ->
  let w1 := after_register w "alice" h1 in
  rtc conc_step (w, alice_twice)
    (snd (reg_thread_step (RChecked (JString "alice") (JString "other-pw")) w1),
     [RDone registered; thread_result (fst (reg_thread_step (RChecked (JString "alice") (JString "other-pw")) w1))]).
Proof.
  intros Hno Hh1 Hh2 w1.
  eapply rtc_l; [eapply (conc_run _ _ 0); [done|done|by apply reg_check_step]|].
  eapply rtc_l; [eapply (conc_run _ _ 1); [done|done|by apply reg_check_step]|].
  eapply rtc_l; [eapply (conc_run _ _ 0); [done|done|]|].
  { rewrite (reg_insert_step "alice" "s3cret!" w h1) by done.
    by rewrite (no_user_named_index "alice" w Hno), andb_false_r. }
  apply rtc_once.
  exact (conc_thread _ _ (thread_run w1 [RDone registered; RChecked (JString "alice") (JString "other-pw")] 1
           (RChecked (JString "alice") (JString "other-pw")) eq_refl eq_refl)).
Qed.
(** (C7) Without the unique index (before Mongoose has built it, or
    with [autoIndex] off), the [findOne] check does not make registration
    atomic: two registrations of "alice" that both pass the check before
    either saves both answer 201 and store two users named "alice". *)
Theorem race_without_index (secret : option string) :
  exists w, rtc conc_step (fresh_world secret, alice_twice) (w, [RDone registered; RDone registered]) /\
            ~ keys_unique username (w_users w) /\
            keys username (w_users w) = ["alice"; "alice"].
Proof.
  set (w0 := fresh_world (U := user_doc) (T := T) secret).
  destruct (ph_hash_gen_salt_ok 10 (demo_entropy 0) "s3cret!" (valid_seed_demo 0 ltac:(lia)))
    as [h1 Hh1].
  destruct (ph_hash_gen_salt_ok 10 (demo_entropy 1) "other-pw" (valid_seed_demo 1 ltac:(lia)))
    as [h2 Hh2].
  pose proof (race_schedule w0 h1 h2 (no_user_named_fresh "alice" secret) Hh1 Hh2) as Hr.
  cbv zeta in Hr. rewrite (reg_insert_step "alice" "other-pw" _ h2) in Hr by done. cbn -[after_register] in Hr.
  eexists. split_and!; [exact Hr| |reflexivity].
  unfold keys_unique, keys. cbn. intros Hnd. inversion Hnd as [|? ? Hn _]. apply Hn. by left.
Qed.

(** (C8) With the index built, the same interleaving stores one user,
    but the second registration gets 500 "Server error" (the E11000 error
    reaches the [catch]), not the 400 "Username is already taken" the
    check answers when the registrations do not overlap. *)
Theorem race_with_index (secret : option string) :
  exists w, rtc conc_step (fresh_world secret, alice_twice) (w, [RDone registered; RDone server_error]) /\
            keys username (w_users w) = ["alice"].
Proof.
  set (w0 := fresh_world (U := user_doc) (T := T) secret).
  set (wi := snd (ensure_user_index w0)).
  destruct (ph_hash_gen_salt_ok 10 (demo_entropy 0) "s3cret!" (valid_seed_demo 0 ltac:(lia)))
    as [h1 Hh1].
  destruct (ph_hash_gen_salt_ok 10 (demo_entropy 1) "other-pw" (valid_seed_demo 1 ltac:(lia)))
    as [h2 Hh2].
  assert (Hno : no_user_named "alice" wi) by (intros i d Hin; inversion Hin).
  pose proof (race_schedule wi h1 h2 Hno Hh1 Hh2) as Hr.
  cbv zeta in Hr. rewrite (reg_insert_step "alice" "other-pw" _ h2) in Hr by done. cbn -[after_draws after_register] in Hr.
  eexists. split; [eapply rtc_l; [apply conc_index|exact Hr]|reflexivity].
Qed.
End Race.

(** ** Witnesses *)

Lemma users_ok_board0 : users_ok board0.
Proof. split; [constructor | constructor]. Qed.

Lemma reachable_users_ok_witness :
  users_ok (snd (app_handle (mk_req POST "/api/auth/register" [] (JsonBody alice)) board0)).
Proof.
  apply (reachable_users_ok board0); [apply users_ok_board0|].
  apply rtc_once. eexists. reflexivity.
Defined.

Definition indexed0 : world user_doc task_doc := snd (ensure_user_index board0).

Lemma conc_index_unique_witness :
  idx_unique (snd (reg_thread_step (RStart (credentials (JString "alice") (JString "s3cret!"))) indexed0)).
Proof.
  apply (conc_index_unique indexed0 alice_twice _
           [RChecked (JString "alice") (JString "s3cret!"); RStart (credentials (JString "alice") (JString "other-pw"))]).
  - split; [reflexivity | constructor].
  - apply rtc_once. exact (conc_thread _ _ (thread_run indexed0 alice_twice 0 _ eq_refl eq_refl)).
Defined.

Lemma race_without_index_witness :
  exists w, rtc conc_step (board0, alice_twice) (w, [RDone registered; RDone registered]) /\
            ~ keys_unique username (w_users w) /\
            keys username (w_users w) = ["alice"; "alice"].
Proof. apply (race_without_index (Some "jwt-secret")). Defined.

Lemma race_with_index_witness :
  exists w, rtc conc_step (board0, alice_twice) (w, [RDone registered; RDone server_error]) /\
            keys username (w_users w) = ["alice"].
Proof. apply (race_with_index (Some "jwt-secret")). Defined.

Lemma successes_are_records_witness :
  exists s', rtc conc_step (board0, [RStart alice]) s' /\
    length (c_docs (w_users (fst s'))) + successes [RStart alice] =
    length (c_docs (w_users board0)) + successes (snd s').
Proof.
  assert (Hr : exists s', rtc conc_step (board0, [RStart alice]) s').
  { eexists. eapply rtc_l; [apply conc_thread; eapply (thread_run _ _ 0); reflexivity|].
    eapply rtc_l; [apply conc_thread; eapply (thread_run _ _ 0); reflexivity|]. apply rtc_refl. }
  destruct Hr as [[w ts] Hr]. exists (w, ts). split; [exact Hr|exact (successes_are_records _ _ _ _ Hr)].
Defined.

(** A world after alice's registration, with node's bcrypt. *)
Lemma stored_passwords_are_bcrypt_witness :
  Forall (fun '(_, u) => String.length (password u) = 60%nat /\ String.prefix "$2" (password u) = true)
    (c_docs (w_users (snd (app_handle (H := node_bcrypt) (mk_req POST "/api/auth/register" [] (JsonBody alice))
                                       board0)))).
Proof.
  apply (stored_passwords_are_bcrypt board0); [split; constructor|].
  apply rtc_once. eexists. reflexivity.
Defined.
