(* ===== verification/Boot.v ===== *)
(** * Process start-up: src/server.js, lines 1 and 25-26

    [require('dotenv').config()] reads the [.env] file into
    [process.env] without overriding a variable the environment already
    sets.  [process.env.JWT_SECRET] is then read by every [jwt.sign] and
    [jwt.verify]; nothing checks it at start-up.  [const PORT =
    process.env.PORT || 3000] takes the variable when it is a non-empty
    string and 3000 otherwise, and [app.listen(PORT)] starts serving
    unconditionally, whatever the outcome of [mongoose.connect], whose
    rejection is only logged.

    The environment is a list of name/value pairs; a lookup returns the
    last binding of a name, as assignments to [process.env] do.  The
    world a process starts with is [fresh_world] under the secret the
    environment ends up with. *)

From S2P Require Import Prelude JsValue Bcrypt Store UserModel Jwt TaskModel.

Local Open Scope string_scope.

Definition env : Type := list (string * string).

(** [process.env[k]]: the last binding of [k]. *)
Fixpoint env_get (e : env) (k : string) : option string :=
  match e with
  | [] => None
  | (k', v) :: e' =>
      match env_get e' k with
      | Some v' => Some v'
      | None => if String.eqb k k' then Some v else None
      end
  end.

(** [require('dotenv').config()]: every variable of the parsed file
    that [process.env] does not have yet is added. *)
Definition dotenv_config (file : env) (e : env) : env :=
  (e ++ List.filter (fun '(k, _) => negb (bool_decide (is_Some (env_get e k)))) file)%list.

(** A variable as JavaScript reads it: a string, or [undefined]. *)
Definition env_val (e : env) (k : string) : jsval :=
  match env_get e k with Some v => JString v | None => JUndefined end.

(** [a || b] *)
Definition js_or (a b : jsval) : jsval := if truthy a then a else b.

(** [const PORT = process.env.PORT || 3000;] *)
Definition port_of (e : env) : jsval := js_or (env_val e "PORT") (JNumber 3000).

(** The process after start-up: the port [app.listen] was given and the
    world the handlers share. *)
Record server := mk_server {
  srv_port : jsval;
  srv_world : world user_doc task_doc
}.

Definition boot (e file : env) : server :=
  let e' := dotenv_config file e in
  mk_server (port_of e') (fresh_world (env_get e' "JWT_SECRET")).

(** ** Lemmas *)

Lemma env_get_app e1 e2 k :
  env_get (e1 ++ e2)%list k = match env_get e2 k with Some v => Some v | None => env_get e1 k end.
Proof.
  induction e1 as [|[k' v] e1 IH]; simpl; [by destruct (env_get e2 k)|].
  rewrite IH. by destruct (env_get e2 k).
Qed.

Lemma env_get_filter_in (P : string * string -> bool) e k :
  (forall v, P (k, v) = true) -> env_get (List.filter P e) k = env_get e k.
Proof.
  intros HP. induction e as [|[k' v] e IH]; [done|]. simpl.
  destruct (String.eqb_spec k k') as [<-|Hne].
  - rewrite HP. simpl. by rewrite IH, String.eqb_refl.
  - simpl. destruct (P (k', v)); simpl; rewrite IH; destruct (env_get e k); try done;
      by apply String.eqb_neq in Hne as ->.
Qed.

Lemma env_get_filter_out (P : string * string -> bool) e k :
  (forall v, P (k, v) = false) -> env_get (List.filter P e) k = None.
Proof.
  intros HP. induction e as [|[k' v] e IH]; [done|]. simpl.
  destruct (String.eqb_spec k k') as [<-|Hne].
  - by rewrite HP.
  - destruct (P (k', v)); simpl; rewrite IH; [|done]. by apply String.eqb_neq in Hne as ->.
Qed.

(** What [dotenv] leaves in [process.env]: the environment's own value
    when it has one, else the file's. *)
Lemma dotenv_config_get file e k :
  env_get (dotenv_config file e) k =
    match env_get e k with Some v => Some v | None => env_get file k end.
Proof.
  unfold dotenv_config. rewrite env_get_app.
  destruct (env_get e k) as [v|] eqn:Ek.
  - rewrite env_get_filter_out; [done|]. intros v'. simpl. rewrite Ek. by rewrite bool_decide_true.
  - rewrite env_get_filter_in; [by destruct (env_get file k)|]. intros v'. simpl. by rewrite Ek.
Qed.

(** (C33) Start-up configuration: the signing secret is the
    environment's [JWT_SECRET] when it sets one and the [.env] file's
    otherwise (absent from both, the server starts without one); the port
    is [PORT] taken the same way, unless it is unset or empty, in which
    case [|| 3000] gives 3000. *)
Theorem boot_config e file :
  let pick k := match env_get e k with Some v => Some v | None => env_get file k end in
  w_secret (srv_world (boot e file)) = pick "JWT_SECRET" /\
  srv_port (boot e file) =
    match pick "PORT" with
    | Some p => if String.eqb p "" then JNumber 3000 else JString p
    | None => JNumber 3000
    end.
Proof.
  intros pick. unfold boot, port_of, env_val, js_or, pick. cbn [srv_world srv_port w_secret fresh_world].
  rewrite !dotenv_config_get. split; [done|].
  destruct (match env_get e "PORT" with Some v => Some v | None => env_get file "PORT" end) as [p|];
    [|done].
  simpl. by destruct (String.eqb p "").
Qed.
