(* ===== verification/ApiDocs.v ===== *)
(** * The API documentation: the [@swagger] comments of src/routes

    [authRoutes.js] and [taskRoutes.js] carry OpenAPI fragments that
    [swagger-jsdoc] assembles into the page served at ['/api-docs']: two
    schemas ([UserCredentials], [Task]) and four operations
    ([POST /auth/register], [POST /auth/login], [GET /tasks],
    [POST /tasks]) with their security requirement and their documented
    responses.  They are modelled as data ([doc_schema], [doc_op]) with
    OpenAPI's reading of a body against a schema ([body_conforms]); the
    theorems compare the documentation with the handlers. *)

From S2P Require Import Prelude JsValue Bcrypt Store UserModel Jwt AuthController.
From S2P Require Import TaskModel Http AuthMiddleware TaskController App.

Local Open Scope string_scope.

(** A property of a schema: its type is [string] throughout; [enum] and
    [default] when given. *)
Record doc_prop := mk_prop {
  prop_enum : list string;
  prop_default : option string
}.

Record doc_schema := mk_schema {
  sch_required : list string;
  sch_props : list (string * doc_prop)
}.

Definition str_prop : doc_prop := mk_prop [] None.

(** [components.schemas.UserCredentials] (authRoutes.js) *)
Definition user_credentials_schema : doc_schema :=
  mk_schema ["username"; "password"] [("username", str_prop); ("password", str_prop)].

(** [components.schemas.Task] (taskRoutes.js) *)
Definition task_schema : doc_schema :=
  mk_schema ["title"]
    [("title", str_prop); ("description", str_prop);
     ("status", mk_prop ["pending"; "completed"] (Some "pending"))].

(** An operation: path, method, [security: bearerAuth], the schema of
    its request body and the response codes it lists. *)
Record doc_op := mk_op {
  op_path : string;
  op_method : http_method;
  op_secured : bool;
  op_body : option doc_schema;
  op_responses : list Z
}.

(** The [/auth/register] and [/auth/login] operations (authRoutes.js). *)
Definition auth_ops : list doc_op :=
  [mk_op "/auth/register" POST false (Some user_credentials_schema) [201; 400]%Z;
   mk_op "/auth/login" POST false (Some user_credentials_schema) [200; 400]%Z].

(** The [/tasks] operations (taskRoutes.js). *)
Definition task_ops : list doc_op :=
  [mk_op "/tasks" GET true None [200; 401]%Z;
   mk_op "/tasks" POST true (Some task_schema) [201; 400]%Z].

(** Whether the documentation lists [code] among the responses of the
    operation at [path] with method [m]. *)
Definition documented (ops : list doc_op) (path : string) (m : http_method) (code : Z) : bool :=
  existsb (fun o => bool_decide (op_path o = path /\ op_method o = m /\ code ∈ op_responses o)) ops.

(** OpenAPI's validation of a JSON object against a schema: the required
    properties are present, and each present property is a string (from
    its [enum] when it has one). *)
Definition prop_conforms (p : doc_prop) (v : jsval) : bool :=
  match v with
  | JUndefined => true
  | JString s => bool_decide (prop_enum p = []) || bool_decide (s ∈ prop_enum p)
  | _ => false
  end.

Definition body_conforms (sch : doc_schema) (fs : list (string * jsval)) : bool :=
  forallb (fun k => match field fs k with JUndefined => false | _ => true end) (sch_required sch) &&
  forallb (fun '(k, p) => prop_conforms p (field fs k)) (sch_props sch).

(** ** The documented schema and the model *)

Lemma conforms_task_fields fs :
  body_conforms task_schema fs = true ->
  (exists ti, field fs "title" = JString ti) /\
  (field fs "description" = JUndefined \/ exists de, field fs "description" = JString de) /\
  (field fs "status" = JUndefined \/ exists st, field fs "status" = JString (status_to_string st)).
Proof.
  unfold body_conforms. cbn. rewrite !andb_true_r, !andb_true_iff.
  intros (Hreq & Ht & Hd & Hs).
  split_and!.
  - destruct (field fs "title"); done || eauto.
  - destruct (field fs "description"); try done; eauto.
  - destruct (field fs "status") as [| | | |s| |]; try done; [by left|right].
    apply orb_prop in Hs as [Hs|Hs]; [by apply bool_decide_eq_true in Hs|].
    apply bool_decide_eq_true in Hs.
    repeat (apply elem_of_cons in Hs as [->|Hs]); [by exists Pending|by exists Completed|].
    by apply elem_of_nil in Hs.
Qed.

(** (C28) The documented [Task] schema against [POST /tasks]: a body the
    documentation accepts is created with 201, its [status] the
    documented default when absent, unless its [title] is the empty
    string, which OpenAPI's [required] allows and the model's [required]
    validator refuses with 400. *)
Theorem documented_task_bodies fs (w : world user_doc task_doc) :
  body_conforms task_schema fs = true ->
  match field fs "title" with
  | JString "" => exists e, addTask (JObject fs) w = (Ok (invalid_task e), bump_oid w)
  | _ => exists t, addTask (JObject fs) w = (Ok (mk_resp 201 (task_json (w_next_oid w) t)), after_add w t) /\
                   (field fs "status" = JUndefined -> tstatus t = Some Pending)
  end.
Proof.
  intros Hc. destruct (conforms_task_fields fs Hc) as ([ti Hti] & Hd & Hs).
  rewrite Hti, addTask_run. unfold task_validate, task_cast.
  cbn [body_fields td_title td_description td_status]. rewrite Hti.
  destruct ti as [|c ti]; [by eexists|].
  destruct Hd as [Hd|[de Hd]], Hs as [Hs|[st Hs]]; rewrite Hd, Hs; cbn;
    rewrite ?status_of_string_to_string; (eexists; split; [reflexivity|]); by intros.
Qed.

(** (C29) The auth handlers against their documentation: from every world
    and for every body, [registerUser] and [loginUser] answer (neither
    rejects), and the status they answer is one that [auth_ops] lists for
    their operation exactly when it is not 500.  500 does occur: a
    [username] that Mongoose's query cast refuses (an object without
    operators) is answered 500 from every world, which it leaves as it
    was. *)
Theorem undocumented_statuses body (w : world user_doc task_doc) :
  (exists r, fst (registerUser body w) = Ok r /\
     documented auth_ops "/auth/register" POST (status r) = negb (bool_decide (status r = 500%Z))) /\
  (exists r, fst (loginUser body w) = Ok r /\
     documented auth_ops "/auth/login" POST (status r) = negb (bool_decide (status r = 500%Z))) /\
  registerUser (JObject [("username", JObject [("a", JNumber 1)]); ("password", JString "pw")]) w =
    (Ok server_error, w).
Proof.
  split_and!.
  - pose proof (registerUser_total body w) as Ht. pose proof (registerUser_statuses body w) as Hs.
    destruct (fst (registerUser body w)) as [r|e]; [|done]. exists r. split; [done|].
    by destruct Hs as [-> | [-> | ->]].
  - pose proof (loginUser_total body w) as Ht. pose proof (loginUser_statuses body w) as Hs.
    destruct (fst (loginUser body w)) as [r|e]; [|done]. exists r. split; [done|].
    by destruct Hs as [-> | [-> | ->]].
  - reflexivity.
Qed.

(** ** The documented type of a task

    Mongoose's [enum] validator lets [null] through (its test is
    [v == null || values.includes(v)]) and the default applies only to
    [undefined], so a body with ["status": null] stores a task without a
    status, which [toJSON] renders as [null]. *)

(** (C31) [POST /tasks] with ["status": null] is accepted: 201, a stored
    task without a status, and a response body outside the documented
    schema. *)
Theorem null_status_accepted ti (w : world user_doc task_doc) :
  let body := JObject [("title", JString ti); ("status", JNull)] in
  ti <> "" ->
  addTask body w = (Ok (mk_resp 201 (task_json (w_next_oid w) (mk_task ti None None))),
                    after_add w (mk_task ti None None)) /\
  body_conforms task_schema (body_fields (task_json (w_next_oid w) (mk_task ti None None))) = false.
Proof.
  intros body Hti. rewrite addTask_run. destruct ti as [|c ti]; [done|]. split; reflexivity.
Qed.

(** ** Witnesses *)

Lemma documented_task_bodies_witness :
  exists t, addTask (JObject [("title", JString "buy milk")]) board0 =
              (Ok (mk_resp 201 (task_json (w_next_oid board0) t)), after_add board0 t) /\
            (field [("title", JString "buy milk")] "status" = JUndefined -> tstatus t = Some Pending).
Proof. apply (documented_task_bodies [("title", JString "buy milk")] board0). vm_compute. reflexivity. Defined.

Lemma null_status_accepted_witness :
  "buy milk" <> "" /\
  addTask (JObject [("title", JString "buy milk"); ("status", JNull)]) board0 =
    (Ok (mk_resp 201 (task_json (w_next_oid board0) (mk_task "buy milk" None None))),
     after_add board0 (mk_task "buy milk" None None)) /\
  body_conforms task_schema (body_fields (task_json (w_next_oid board0) (mk_task "buy milk" None None))) = false.
Proof. split; [done|]. apply (null_status_accepted "buy milk" board0). done. Defined.
